(** * LyftDataset: the indexed table store and its queries

    A shallow embedding of [lyft_dataset_sdk/lyftdataset.py]: the table
    loader, the reverse index, the denormalisation pass, [get],
    [get_boxes], [get_sample_data] and [box_velocity].

    Records are Python dictionaries read from JSON, so they are modelled as
    finite maps from field names to JSON values; the tables are lists of
    such records.  Exceptions are values of an error monad.  In-place
    mutation of a record is an update of the row at its position in the
    table, which is how the source reaches records too ([get] goes through
    the position stored in the reverse index). *)

From Stdlib Require Import QArith Lqa.
From stdpp Require Import gmap strings list fin_maps.

Set Warnings "-register-all".
Open Scope string_scope.

(** ** JSON values and Python exceptions *)

(** Numbers are exact rationals: a Python [int] and the decimal literal of a
    Python [float] are both rationals.  The queries below only compare
    numbers, test a divisor against zero and use the values 0 and 1 of an
    interpolation parameter. *)
Inductive value :=
| VNone
| VBool (b : bool)
| VNum (q : Q)
| VStr (s : string)
| VList (l : list value)
| VDict (d : gmap string value).

Abbreviation dict := (gmap string value).

Inductive exn :=
| KeyError (key : value)
| IndexError
| TypeError
| ValueError
| ZeroDivisionError
| AssertionError
| AttributeError (attr : string)
| FileNotFoundError (path : string)
| Exception (msg : string).

Inductive result (A : Type) :=
| Ok (a : A)
| Raise (e : exn).
Arguments Ok {A} a.
Arguments Raise {A} e.

#[global] Instance result_ret : MRet result := fun A a => Ok a.
#[global] Instance result_bind : MBind result :=
  fun A B f r => match r with Ok a => f a | Raise e => Raise e end.

Definition is_okb {A} (r : result A) : bool :=
  match r with
  | Ok _ => true
  | Raise _ => false
  end.

(** The value of a computation that ended normally ([d] otherwise). *)
Definition unwrap {A} (d : A) (r : result A) : A :=
  match r with
  | Ok a => a
  | Raise _ => d
  end.

Definition is_someb {A} (o : option A) : bool :=
  match o with
  | Some _ => true
  | None => false
  end.

(** [record[k]] *)
Definition getitem (r : dict) (k : string) : result value :=
  match r !! k with
  | Some v => Ok v
  | None => Raise (KeyError (VStr k))
  end.
Infix "!!!!" := getitem (at level 20).

(** Truth value of an object in a condition. *)
Definition truthy (v : value) : bool :=
  match v with
  | VNone => false
  | VBool b => b
  | VNum q => negb (Qeq_bool q 0)
  | VStr s => negb (String.eqb s "")
  | VList l => negb (Nat.eqb (length l) 0)
  | VDict d => negb (Nat.eqb (size d) 0)
  end.

(** [v == s] for a string literal [s]. *)
Definition str_eq (v : value) (s : string) : bool :=
  match v with
  | VStr s' => String.eqb s' s
  | _ => false
  end.

(** Dictionary keys.  Every token and channel of the dataset is a string;
    the model keeps string keys only and answers [TypeError] for any other
    value used as a key when a dictionary is written. *)
Definition as_key (v : value) : result string :=
  match v with
  | VStr s => Ok s
  | _ => Raise TypeError
  end.

(** Iteration over a JSON array (the model iterates lists only). *)
Definition as_list (v : value) : result (list value) :=
  match v with
  | VList l => Ok l
  | _ => Raise TypeError
  end.

Definition as_num (v : value) : result Q :=
  match v with
  | VNum q => Ok q
  | _ => Raise TypeError
  end.

Definition as_dict (v : value) : result dict :=
  match v with
  | VDict d => Ok d
  | _ => Raise TypeError
  end.

Definition Qltb (a b : Q) : bool := negb (Qle_bool b a).

(** Python's [min(a, b)] and [max(a, b)]: the first argument is kept unless
    the second is strictly smaller (respectively greater). *)
Definition py_min (a b : Q) : Q := if Qltb b a then b else a.
Definition py_max (a b : Q) : Q := if Qltb a b then b else a.

(** [a / b] on Python numbers. *)
Definition py_truediv (a b : Q) : result Q :=
  if Qeq_bool b 0 then Raise ZeroDivisionError else Ok (a / b)%Q.

(** [directory / filename] on paths. *)
Definition path_join (directory : string) (filename : value) : result string :=
  match filename with
  | VStr f => Ok (directory ++ "/" ++ f)
  | _ => Raise TypeError
  end.

(** ** Tables *)

(** A table attribute holds the list read from the table file, or the
    empty dictionary [{}] that [__load_table__] substitutes for a missing
    file. *)
Inductive table :=
| Rows (l : list dict)
| EmptyDict.

(** The records met when iterating over a table. *)
Definition rows (t : table) : list dict :=
  match t with
  | Rows l => l
  | EmptyDict => []
  end.

Definition set_rows (t : table) (l : list dict) : table :=
  match t with
  | Rows _ => Rows l
  | EmptyDict => EmptyDict
  end.

(** [t[i]] *)
Definition table_getitem (t : table) (i : nat) : result dict :=
  match t with
  | Rows l =>
      match l !! i with
      | Some r => Ok r
      | None => Raise IndexError
      end
  | EmptyDict => Raise (KeyError (VNum (inject_Z (Z.of_nat i))))
  end.

Definition table_names : list string :=
  [ "category"; "attribute"; "visibility"; "instance"; "sensor";
    "calibrated_sensor"; "ego_pose"; "log"; "scene"; "sample";
    "sample_data"; "sample_annotation"; "map" ].

Record LyftDataset := mkLyftDataset {
  data_path : string;
  json_path : string;
  tables : gmap string table;
  _token2ind : gmap string (gmap string nat)
}.

(** [getattr(self, table_name)] *)
Definition getattr (db : LyftDataset) (table_name : string) : result table :=
  match tables db !! table_name with
  | Some t => Ok t
  | None => Raise (AttributeError table_name)
  end.

Definition setattr (db : LyftDataset) (table_name : string) (t : table)
  : LyftDataset :=
  mkLyftDataset (data_path db) (json_path db)
    (<[table_name := t]> (tables db)) (_token2ind db).

(** The rows of a table attribute (no rows when the attribute is unset). *)
Definition table_rows (db : LyftDataset) (table_name : string) : list dict :=
  match tables db !! table_name with
  | Some t => rows t
  | None => []
  end.

(** In-place update of the record at position [ind] of a table. *)
Definition update_row (db : LyftDataset) (table_name : string) (ind : nat)
    (r : dict) : LyftDataset :=
  match tables db !! table_name with
  | Some t => setattr db table_name (set_rows t (<[ind := r]> (rows t)))
  | None => db
  end.

(** ** Boxes and the external geometry *)

Record Box := mkBox {
  center : value;
  wlh : value;
  orientation : value;
  name : value;
  token : value
}.

(** pyquaternion's constructor keeps the four components it is given. *)
Definition Quaternion (components : value) : value := components.

(** The collaborators that live outside this file: numpy's interpolation,
    pyquaternion's slerp, inverse and yaw, the map mask, the in-place
    methods of [Box] and the visibility test of the geometry utilities. *)
Class Externals := {
  np_interp : Q -> Q -> Q -> Q -> Q -> Q;
  slerp : value -> value -> Q -> value;
  MapMask : string -> Q -> value;
  np_array : value -> value;
  np_negative : value -> value;
  quaternion_inverse : value -> value;
  quaternion_yaw : value -> Q;
  yaw_quaternion : Q -> value;
  box_translate : value -> Box -> Box;
  box_rotate : value -> Box -> Box;
  box_in_image : Box -> value -> value * value -> value -> bool
}.


(** ** Loops *)

(** [for x in l: state = step(state, x)], stopping at the first exception. *)
Fixpoint for_each {S A : Type} (step : S -> A -> result S) (l : list A) (s : S)
  : result S :=
  match l with
  | [] => Ok s
  | x :: l' => s' ← step s x; for_each step l' s'
  end.

(** ** The table store *)

(** The table files present under the JSON directory, by path. *)
Abbreviation file_system := (gmap string (list dict)).

Section Store.
Context `{ext : Externals}.

Definition table_path (json_dir table_name : string) : string :=
  json_dir ++ "/" ++ table_name ++ ".json".

Definition isfile (fs : file_system) (filepath : string) : bool :=
  match fs !! filepath with
  | Some _ => true
  | None => false
  end.

(** [open(filepath)] followed by [json.load]. *)
Definition open_json (fs : file_system) (filepath : string)
  : result (list dict) :=
  match fs !! filepath with
  | Some content => Ok content
  | None => Raise (FileNotFoundError filepath)
  end.

Definition __load_table__ (fs : file_system) (json_dir table_name : string)
    (missing_ok : bool) : result table :=
  let filepath := table_path json_dir table_name in
  if negb (isfile fs filepath) && missing_ok then Ok EmptyDict
  else
    content ← open_json fs filepath;
    Ok (Rows content).

(** *** Reverse index *)

(** [for ind, member in enumerate(table): index[member["token"]] = ind] *)
Fixpoint index_rows (ind : nat) (l : list dict) (index : gmap string nat)
  : result (gmap string nat) :=
  match l with
  | [] => Ok index
  | member :: l' =>
      tok ← member !!!! "token";
      k ← as_key tok;
      index_rows (S ind) l' (<[k := ind]> index)
  end.

Definition index_table (db : LyftDataset)
    (token2ind : gmap string (gmap string nat)) (table_name : string)
  : result (gmap string (gmap string nat)) :=
  t ← getattr db table_name;
  index ← index_rows 0 (rows t) ∅;
  Ok (<[table_name := index]> token2ind).

Definition set_token2ind (db : LyftDataset)
    (token2ind : gmap string (gmap string nat)) : LyftDataset :=
  mkLyftDataset (data_path db) (json_path db) (tables db) token2ind.

Definition build_token2ind (db : LyftDataset) : result LyftDataset :=
  token2ind ← for_each (index_table db) table_names ∅;
  Ok (set_token2ind db token2ind).

(** [self._token2ind[table_name][token]] *)
Definition getind (db : LyftDataset) (table_name : string) (tok : value)
  : result nat :=
  match _token2ind db !! table_name with
  | None => Raise (KeyError (VStr table_name))
  | Some index =>
      match tok with
      | VStr k =>
          match index !! k with
          | Some ind => Ok ind
          | None => Raise (KeyError tok)
          end
      | VList _ | VDict _ => Raise TypeError
      | _ => Raise (KeyError tok)
      end
  end.

Definition get (db : LyftDataset) (table_name : string) (tok : value)
  : result dict :=
  if bool_decide (table_name ∈ table_names) then
    t ← getattr db table_name;
    ind ← getind db table_name tok;
    table_getitem t ind
  else Raise AssertionError.

(** *** Denormalisation *)

(** [record["category_name"] = ...] for one sample_annotation record. *)
Definition decorate_annotation (db : LyftDataset) (record : dict)
  : result dict :=
  inst_tok ← record !!!! "instance_token";
  inst ← get db "instance" inst_tok;
  cat_tok ← inst !!!! "category_token";
  cat ← get db "category" cat_tok;
  cat_name ← cat !!!! "name";
  Ok (<["category_name" := cat_name]> record).

(** [record["sensor_modality"] = ...; record["channel"] = ...] for one
    sample_data record. *)
Definition decorate_sample_data (db : LyftDataset) (record : dict)
  : result dict :=
  cs_tok ← record !!!! "calibrated_sensor_token";
  cs_record ← get db "calibrated_sensor" cs_tok;
  sensor_tok ← cs_record !!!! "sensor_token";
  sensor_record ← get db "sensor" sensor_tok;
  modality ← sensor_record !!!! "modality";
  channel ← sensor_record !!!! "channel";
  Ok (<["channel" := channel]> (<["sensor_modality" := modality]> record)).

Definition init_sample (record : dict) : dict :=
  <["anns" := VList []]> (<["data" := VDict ∅]> record).

(** A loop that decorates every record of one table in place, reading
    other tables only: the records are rewritten one after the other and
    the table is stored back. *)
Definition decorate_table (db : LyftDataset) (table_name : string)
    (f : dict -> result dict) : result LyftDataset :=
  t ← getattr db table_name;
  l ← mapM f (rows t);
  Ok (setattr db table_name (set_rows t l)).

(** [sample_record["data"][record["channel"]] = record["token"]] for a
    key-frame sample_data record. *)
Definition link_sample_data (db : LyftDataset) (record : dict)
  : result LyftDataset :=
  kf ← record !!!! "is_key_frame";
  if truthy kf then
    sample_tok ← record !!!! "sample_token";
    sample_record ← get db "sample" sample_tok;
    ind ← getind db "sample" sample_tok;
    tok ← record !!!! "token";
    data ← sample_record !!!! "data";
    channel ← record !!!! "channel";
    d ← as_dict data;
    k ← as_key channel;
    Ok (update_row db "sample" ind
          (<["data" := VDict (<[k := tok]> d)]> sample_record))
  else Ok db.

(** [sample_record["anns"].append(ann_record["token"])] *)
Definition link_annotation (db : LyftDataset) (ann_record : dict)
  : result LyftDataset :=
  sample_tok ← ann_record !!!! "sample_token";
  sample_record ← get db "sample" sample_tok;
  ind ← getind db "sample" sample_tok;
  anns ← sample_record !!!! "anns";
  l ← as_list anns;
  tok ← ann_record !!!! "token";
  Ok (update_row db "sample" ind
        (<["anns" := VList (l ++ [tok])]> sample_record)).

Definition CompatibilityError : exn :=
  Exception
    "Error: log_tokens not in map table. This code is not compatible with the teaser dataset.".

(** [for log_token in map_record["log_tokens"]:
       log_to_map[log_token] = map_record["token"]] *)
Definition map_log_token (map_record : dict) (log_to_map : gmap string value)
    (log_token : value) : result (gmap string value) :=
  map_tok ← map_record !!!! "token";
  k ← as_key log_token;
  Ok (<[k := map_tok]> log_to_map).

Definition map_log_tokens (log_to_map : gmap string value) (map_record : dict)
  : result (gmap string value) :=
  log_tokens ← map_record !!!! "log_tokens";
  l ← as_list log_tokens;
  for_each (map_log_token map_record) l log_to_map.

(** [log_record["map_token"] = log_to_map[log_record["token"]]] *)
Definition link_log (log_to_map : gmap string value) (log_record : dict)
  : result dict :=
  tok ← log_record !!!! "token";
  map_tok ← match tok with
            | VStr k =>
                match log_to_map !! k with
                | Some m => Ok m
                | None => Raise (KeyError tok)
                end
            | VList _ | VDict _ => Raise TypeError
            | _ => Raise (KeyError tok)
            end;
  Ok (<["map_token" := map_tok]> log_record).

(** The last block of [__make_reverse_index__]: the check on the first map
    record, the [log_to_map] dictionary and the back links on the logs. *)
Definition link_logs_to_maps (db : LyftDataset) : result LyftDataset :=
  map_table ← getattr db "map";
  first_map ← table_getitem map_table 0;
  match first_map !! "log_tokens" with
  | None => Raise CompatibilityError
  | Some _ =>
      log_to_map ← for_each map_log_tokens (rows map_table) ∅;
      decorate_table db "log" (link_log log_to_map)
  end.

(** The steps of [__make_reverse_index__] that come before the log and
    map block. *)
Definition denormalize_samples (db : LyftDataset) : result LyftDataset :=
  db ← build_token2ind db;
  db ← decorate_table db "sample_annotation" (decorate_annotation db);
  db ← decorate_table db "sample_data" (decorate_sample_data db);
  db ← decorate_table db "sample" (fun r => Ok (init_sample r));
  db ← for_each link_sample_data (table_rows db "sample_data") db;
  for_each link_annotation (table_rows db "sample_annotation") db.

Definition __make_reverse_index__ (db : LyftDataset) : result LyftDataset :=
  db ← denormalize_samples db;
  link_logs_to_maps db.

(** *** Construction *)

Definition load_step (fs : file_system) (json_dir : string) (missing_ok : bool)
    (tbls : gmap string table) (table_name : string)
  : result (gmap string table) :=
  t ← __load_table__ fs json_dir table_name missing_ok;
  Ok (<[table_name := t]> tbls).

(** [map_record["mask"] = MapMask(self.data_path / map_record["filename"],
                                  resolution=map_resolution)] *)
Definition init_mask (data_dir : string) (map_resolution : Q)
    (map_record : dict) : result dict :=
  filename ← map_record !!!! "filename";
  path ← path_join data_dir filename;
  Ok (<["mask" := MapMask path map_resolution]> map_record).

(** The first half of [__init__]: the thirteen tables are loaded in the
    order of [table_names] and every map record receives its mask. *)
Definition load_tables (fs : file_system) (data_dir json_dir : string)
    (map_resolution : Q) (missing_tables_ok : bool) : result LyftDataset :=
  tbls ← for_each (load_step fs json_dir missing_tables_ok) table_names ∅;
  decorate_table (mkLyftDataset data_dir json_dir tbls ∅) "map"
    (init_mask data_dir map_resolution).

Definition __init__ (fs : file_system) (data_dir json_dir : string)
    (map_resolution : Q) (missing_tables_ok : bool) : result LyftDataset :=
  db ← load_tables fs data_dir json_dir map_resolution missing_tables_ok;
  __make_reverse_index__ db.

(** ** Queries *)

Definition get_sample_data_path (db : LyftDataset) (sample_data_token : value)
  : result string :=
  sd_record ← get db "sample_data" sample_data_token;
  filename ← sd_record !!!! "filename";
  path_join (data_path db) filename.

Definition get_box (db : LyftDataset) (sample_annotation_token : value)
  : result Box :=
  record ← get db "sample_annotation" sample_annotation_token;
  translation ← record !!!! "translation";
  size ← record !!!! "size";
  rotation ← record !!!! "rotation";
  category_name ← record !!!! "category_name";
  tok ← record !!!! "token";
  Ok (mkBox translation size (Quaternion rotation) category_name tok).

(** [{entry["instance_token"]: entry for entry in prev_ann_recs}] *)
Definition add_prev_inst (prev_inst_map : gmap string dict) (entry : dict)
  : result (gmap string dict) :=
  inst ← entry !!!! "instance_token";
  k ← as_key inst;
  Ok (<[k := entry]> prev_inst_map).

(** [prev_inst_map.get(key)], with the membership test and the read folded
    into one lookup. *)
Definition lookup_inst (prev_inst_map : gmap string dict) (key : value)
  : result (option dict) :=
  match key with
  | VStr k => Ok (prev_inst_map !! k)
  | VList _ | VDict _ => Raise TypeError
  | _ => Ok None
  end.

(** [[np.interp(t, [t0, t1], [c0, c1]) for c0, c1 in zip(p, c)]] *)
Fixpoint interp_center (t t0 t1 : Q) (p c : list value) : result (list value) :=
  match p, c with
  | c0 :: p', c1 :: c' =>
      x0 ← as_num c0;
      x1 ← as_num c1;
      rest ← interp_center t t0 t1 p' c';
      Ok (VNum (np_interp t t0 t1 x0 x1) :: rest)
  | _, _ => Ok []
  end.

(** The body of the interpolation loop for an instance that is annotated
    in the previous sample too. *)
Definition interpolate_box (t0 t1 t : Q) (prev_ann_rec curr_ann_rec : dict)
  : result Box :=
  tr0 ← prev_ann_rec !!!! "translation";
  tr1 ← curr_ann_rec !!!! "translation";
  p ← as_list tr0;
  c ← as_list tr1;
  center ← interp_center t t0 t1 p c;
  rot0 ← prev_ann_rec !!!! "rotation";
  rot1 ← curr_ann_rec !!!! "rotation";
  amount ← py_truediv (t - t0) (t1 - t0);
  size ← curr_ann_rec !!!! "size";
  category_name ← curr_ann_rec !!!! "category_name";
  tok ← curr_ann_rec !!!! "token";
  Ok (mkBox (VList center) size
        (slerp (Quaternion rot0) (Quaternion rot1) amount) category_name tok).

Definition box_at (db : LyftDataset) (t0 t1 t : Q)
    (prev_inst_map : gmap string dict) (curr_ann_rec : dict) : result Box :=
  inst ← curr_ann_rec !!!! "instance_token";
  found ← lookup_inst prev_inst_map inst;
  match found with
  | Some prev_ann_rec => interpolate_box t0 t1 t prev_ann_rec curr_ann_rec
  | None =>
      tok ← curr_ann_rec !!!! "token";
      get_box db tok
  end.

Definition get_boxes (db : LyftDataset) (sample_data_token : value)
  : result (list Box) :=
  sd_record ← get db "sample_data" sample_data_token;
  sample_tok ← sd_record !!!! "sample_token";
  curr_sample_record ← get db "sample" sample_tok;
  prev ← curr_sample_record !!!! "prev";
  keyframe ← (if str_eq prev "" then Ok true
              else kf ← sd_record !!!! "is_key_frame"; Ok (truthy kf));
  if keyframe : bool then
    anns ← curr_sample_record !!!! "anns";
    l ← as_list anns;
    mapM (get_box db) l
  else
    prev_sample_record ← get db "sample" prev;
    curr_anns ← curr_sample_record !!!! "anns";
    curr_toks ← as_list curr_anns;
    curr_ann_recs ← mapM (get db "sample_annotation") curr_toks;
    prev_anns ← prev_sample_record !!!! "anns";
    prev_toks ← as_list prev_anns;
    prev_ann_recs ← mapM (get db "sample_annotation") prev_toks;
    prev_inst_map ← for_each add_prev_inst prev_ann_recs ∅;
    v0 ← prev_sample_record !!!! "timestamp";
    v1 ← curr_sample_record !!!! "timestamp";
    v ← sd_record !!!! "timestamp";
    t0 ← as_num v0;
    t1 ← as_num v1;
    t ← as_num v;
    mapM (box_at db t0 t1 (py_max t0 (py_min t1 t)) prev_inst_map)
      curr_ann_recs.

(** The coordinate changes applied to one box, in place. *)
Definition to_sensor_frame (flat_vehicle_coordinates : bool)
    (pose_record cs_record : dict) (box : Box) : result Box :=
  if flat_vehicle_coordinates then
    rot ← pose_record !!!! "rotation";
    let yaw := quaternion_yaw (Quaternion rot) in
    tr ← pose_record !!!! "translation";
    let box := box_translate (np_negative (np_array tr)) box in
    Ok (box_rotate (quaternion_inverse (yaw_quaternion yaw)) box)
  else
    tr ← pose_record !!!! "translation";
    let box := box_translate (np_negative (np_array tr)) box in
    rot ← pose_record !!!! "rotation";
    let box := box_rotate (quaternion_inverse (Quaternion rot)) box in
    cs_tr ← cs_record !!!! "translation";
    let box := box_translate (np_negative (np_array cs_tr)) box in
    cs_rot ← cs_record !!!! "rotation";
    Ok (box_rotate (quaternion_inverse (Quaternion cs_rot)) box).

(** One round of the loop that fills [box_list]. *)
Definition keep_box (flat_vehicle_coordinates : bool)
    (pose_record cs_record : dict) (is_camera : bool)
    (cam_intrinsic : value) (imsize : value * value) (box_vis_level : value)
    (box_list : list Box) (box : Box) : result (list Box) :=
  box ← to_sensor_frame flat_vehicle_coordinates pose_record cs_record box;
  if is_camera && negb (box_in_image box cam_intrinsic imsize box_vis_level)
  then Ok box_list
  else Ok (box_list ++ [box])%list.

Definition get_sample_data (db : LyftDataset) (sample_data_token : value)
    (box_vis_level : value) (selected_anntokens : option (list value))
    (flat_vehicle_coordinates : bool) : result (string * list Box * value) :=
  sd_record ← get db "sample_data" sample_data_token;
  cs_tok ← sd_record !!!! "calibrated_sensor_token";
  cs_record ← get db "calibrated_sensor" cs_tok;
  sensor_tok ← cs_record !!!! "sensor_token";
  sensor_record ← get db "sensor" sensor_tok;
  pose_tok ← sd_record !!!! "ego_pose_token";
  pose_record ← get db "ego_pose" pose_tok;
  path ← get_sample_data_path db sample_data_token;
  modality ← sensor_record !!!! "modality";
  let is_camera := str_eq modality "camera" in
  '(cam_intrinsic, imsize) ←
    (if is_camera then
       intrinsic ← cs_record !!!! "camera_intrinsic";
       width ← sd_record !!!! "width";
       height ← sd_record !!!! "height";
       Ok (np_array intrinsic, (width, height))
     else Ok (VNone, (VNone, VNone)));
  boxes ← match selected_anntokens with
          | Some toks => mapM (get_box db) toks
          | None => get_boxes db sample_data_token
          end;
  box_list ← for_each
    (keep_box flat_vehicle_coordinates pose_record cs_record is_camera
       cam_intrinsic imsize box_vis_level) boxes [];
  Ok (path, box_list, cam_intrinsic).

End Store.

(** *** Velocity *)

Section Velocity.
Context `{ext : Externals} `{ops : Operators}.




End Velocity.

(** ** An exact-arithmetic instance of the external geometry

    The model runs on concrete datasets once the collaborators are given.
    This instance computes over the rationals: piecewise-linear
    interpolation between two sample points, a component-wise blend in place
    of the spherical one (with the parameter clipped to the unit interval),
    Hamilton products for the rotations, and a front-plane test for
    visibility. *)
Module Exact.

Definition Qclip (a : Q) : Q :=
  if Qltb a 0 then 0%Q else if Qltb 1 a then 1%Q else a.

(** numpy's interpolation on the two sample points [(xp0, fp0)] and
    [(xp1, fp1)]: the end values outside the interval and at its ends. *)
Definition interp (x xp0 xp1 fp0 fp1 : Q) : Q :=
  if Qltb xp1 x then fp1
  else if Qltb x xp0 then fp0
  else if Qle_bool xp1 x then fp1
  else if Qeq_bool xp0 x then fp0
  else (((fp1 - fp0) / (xp1 - xp0)) * (x - xp0) + fp0)%Q.

Definition nums (v : value) : list Q :=
  match v with
  | VList l => omap (fun x => match x with VNum q => Some q | _ => None end) l
  | _ => []
  end.

Definition of_nums (l : list Q) : value := VList (VNum <$> l).

Definition blend (q0 q1 : value) (amount : Q) : value :=
  let a := Qclip amount in
  if Qeq_bool a 0 then q0
  else if Qeq_bool a 1 then q1
  else of_nums (zip_with (fun x y => x + a * (y - x))%Q (nums q0) (nums q1)).

Definition negative (v : value) : value := of_nums (Qopp <$> nums v).

Definition conjugate (q : value) : value :=
  match nums q with
  | [w; x; y; z] => of_nums [w; - x; - y; - z]%Q
  | _ => q
  end.

(** Hamilton product. *)
Definition qmul (a b : list Q) : list Q :=
  match a, b with
  | [a1; b1; c1; d1], [a2; b2; c2; d2] =>
      [ a1 * a2 - b1 * b2 - c1 * c2 - d1 * d2;
        a1 * b2 + b1 * a2 + c1 * d2 - d1 * c2;
        a1 * c2 - b1 * d2 + c1 * a2 + d1 * b2;
        a1 * d2 + b1 * c2 - c1 * b2 + d1 * a2 ]%Q
  | _, _ => a
  end.

Definition rotate_vector (q : list Q) (v : list Q) : list Q :=
  match q, qmul (qmul q (0%Q :: v)) (nums (conjugate (of_nums q))) with
  | [_; _; _; _], [_; x; y; z] => Qred <$> [x; y; z]
  | _, _ => v
  end.

Definition translate (x : value) (box : Box) : Box :=
  mkBox (of_nums (Qred <$> zip_with Qplus (nums (center box)) (nums x)))
    (wlh box) (orientation box) (name box) (token box).

Definition rotate (q : value) (box : Box) : Box :=
  mkBox (of_nums (rotate_vector (nums q) (nums (center box))))
    (wlh box)
    (of_nums (Qred <$> qmul (nums q) (nums (orientation box))))
    (name box) (token box).

Definition in_front (box : Box) (cam_intrinsic : value) (imsize : value * value)
    (vis_level : value) : bool :=
  match nums (center box) with
  | [_; _; z] => Qltb 0 z
  | _ => false
  end.

#[export] Instance externals : Externals := {|
  np_interp := interp;
  slerp := blend;
  MapMask := fun path resolution => VStr path;
  np_array := fun v => v;
  np_negative := negative;
  quaternion_inverse := conjugate;
  quaternion_yaw := fun _ => 0%Q;
  yaw_quaternion := fun _ => of_nums [1; 0; 0; 0]%Q;
  box_translate := translate;
  box_rotate := rotate;
  box_in_image := in_front
|}.







End Exact.

(** ** A small dataset

    Two samples one second apart, one tracked instance annotated in both
    and one annotated in the second only, a lidar and a camera, and
    sample_data captures before, between and after the two key frames. *)
Module Demo.

Definition obj (fields : list (string * value)) : dict := list_to_map fields.
Definition vec (l : list Q) : value := VList (VNum <$> l).
Definition int (z : Z) : value := VNum (inject_Z z).

Definition category : list dict :=
  [ obj [("token", VStr "cat_car"); ("name", VStr "car")] ].

Definition instance : list dict :=
  [ obj [("token", VStr "inst_a"); ("category_token", VStr "cat_car")];
    obj [("token", VStr "inst_b"); ("category_token", VStr "cat_car")] ].

Definition sensor : list dict :=
  [ obj [("token", VStr "sen_lidar"); ("channel", VStr "LIDAR_TOP");
         ("modality", VStr "lidar")];
    obj [("token", VStr "sen_cam"); ("channel", VStr "CAM_FRONT");
         ("modality", VStr "camera")] ].

Definition calibrated_sensor : list dict :=
  [ obj [("token", VStr "cs_lidar"); ("sensor_token", VStr "sen_lidar");
         ("translation", vec [0; 0; 0]%Q); ("rotation", vec [1; 0; 0; 0]%Q)];
    obj [("token", VStr "cs_cam"); ("sensor_token", VStr "sen_cam");
         ("translation", vec [0; 0; 0]%Q); ("rotation", vec [1; 0; 0; 0]%Q);
         ("camera_intrinsic",
          VList [vec [1; 0; 0]%Q; vec [0; 1; 0]%Q; vec [0; 0; 1]%Q])] ].

Definition ego_pose : list dict :=
  [ obj [("token", VStr "pose"); ("translation", vec [1; 0; 0]%Q);
         ("rotation", vec [1; 0; 0; 0]%Q); ("timestamp", int 1000000)] ].

Definition log : list dict :=
  [ obj [("token", VStr "log_1"); ("location", VStr "town")] ].

Definition scene : list dict :=
  [ obj [("token", VStr "scene_1"); ("log_token", VStr "log_1");
         ("first_sample_token", VStr "s1"); ("last_sample_token", VStr "s2")] ].

Definition sample_rec (tok prev next : string) (timestamp : Z) : dict :=
  obj [("token", VStr tok); ("scene_token", VStr "scene_1");
       ("prev", VStr prev); ("next", VStr next); ("timestamp", int timestamp)].

Definition sample (t0 t1 : Z) : list dict :=
  [ sample_rec "s1" "" "s2" t0; sample_rec "s2" "s1" "" t1 ].

Definition sd_rec (tok sample_tok cs : string) (key : bool) (timestamp : Z)
  : dict :=
  obj [("token", VStr tok); ("sample_token", VStr sample_tok);
       ("ego_pose_token", VStr "pose"); ("calibrated_sensor_token", VStr cs);
       ("is_key_frame", VBool key); ("timestamp", int timestamp);
       ("filename", VStr (tok ++ ".bin")); ("width", int 1600);
       ("height", int 900); ("prev", VStr ""); ("next", VStr "")].

Definition sample_data (t0 t1 : Z) : list dict :=
  [ sd_rec "sd_key1" "s1" "cs_lidar" true t0;
    sd_rec "sd_key2" "s2" "cs_lidar" true t1;
    sd_rec "sd_early" "s2" "cs_lidar" false (t0 - 100);
    sd_rec "sd_mid" "s2" "cs_lidar" false (t0 + 500000);
    sd_rec "sd_late" "s2" "cs_lidar" false (t1 + 100);
    sd_rec "sd_cam" "s2" "cs_cam" true t1 ].

Definition ann_rec (tok sample_tok inst prev next : string)
    (translation rotation : list Q) : dict :=
  obj [("token", VStr tok); ("sample_token", VStr sample_tok);
       ("instance_token", VStr inst); ("prev", VStr prev); ("next", VStr next);
       ("translation", vec translation); ("size", vec [2; 4; 1]%Q);
       ("rotation", vec rotation); ("attribute_tokens", VList [])].

Definition sample_annotation : list dict :=
  [ ann_rec "ann_a1" "s1" "inst_a" "" "ann_a2" [0; 0; 5]%Q [1; 0; 0; 0]%Q;
    ann_rec "ann_a2" "s2" "inst_a" "ann_a1" "" [2; 0; 5]%Q [0; 0; 0; 1]%Q;
    ann_rec "ann_b2" "s2" "inst_b" "" "" [3; 3; -6]%Q [1; 0; 0; 0]%Q ].

Definition map_rec (tok : string) (log_tokens : option (list string)) : dict :=
  obj ([("token", VStr tok); ("filename", VStr (tok ++ ".png"))]
       ++ match log_tokens with
          | Some l => [("log_tokens", VList (VStr <$> l))]
          | None => []
          end)%list.

Definition map : list dict := [ map_rec "map_1" (Some ["log_1"]) ].

(** The JSON directory of a dataset with the given sample timestamps and
    map table. *)
Definition files (t0 t1 : Z) (maps : list dict) : file_system :=
  list_to_map
    [ (table_path "json" "category", category);
      (table_path "json" "attribute", []);
      (table_path "json" "visibility", []);
      (table_path "json" "instance", instance);
      (table_path "json" "sensor", sensor);
      (table_path "json" "calibrated_sensor", calibrated_sensor);
      (table_path "json" "ego_pose", ego_pose);
      (table_path "json" "log", log);
      (table_path "json" "scene", scene);
      (table_path "json" "sample", sample t0 t1);
      (table_path "json" "sample_data", sample_data t0 t1);
      (table_path "json" "sample_annotation", sample_annotation);
      (table_path "json" "map", maps) ].

Definition load (t0 t1 : Z) (maps : list dict) : result LyftDataset :=
  __init__ (ext := Exact.externals) (files t0 t1 maps) "data" "json" (1 # 10) false.

Definition no_tables : LyftDataset := mkLyftDataset "data" "json" ∅ ∅.

(** The store before the reverse index is built. *)
Definition raw (maps : list dict) : LyftDataset :=
  unwrap no_tables
    (load_tables (ext := Exact.externals) (files 1000000 2000000 maps)
       "data" "json" (1 # 10) false).

(** The loaded store. *)
Definition db (t0 t1 : Z) : LyftDataset := unwrap no_tables (load t0 t1 map).

(** The store with the two samples one second apart, and its records. *)
Definition store : LyftDataset := db 1000000 2000000.

Definition row (d : LyftDataset) (table_name : string) (i : nat) : dict :=
  default ∅ (table_rows d table_name !! i).

(** The annotation records of the second sample, and the dictionary from
    instance tokens to the annotation records of the first. *)
Definition curr_ann_recs : list dict :=
  unwrap [] (mapM (get store "sample_annotation") [VStr "ann_a2"; VStr "ann_b2"]).

Definition prev_inst_map : gmap string dict :=
  unwrap ∅ (for_each add_prev_inst
              (unwrap [] (mapM (get store "sample_annotation") [VStr "ann_a1"]))
              ∅).

(** The boxes of a capture, moved to the frame of its sensor. *)
Definition moved (capture cs : string) : list Box :=
  unwrap []
    (mapM (to_sensor_frame (ext := Exact.externals) false
             (unwrap ∅ (get store "ego_pose" (VStr "pose")))
             (unwrap ∅ (get store "calibrated_sensor" (VStr cs))))
       (unwrap [] (get_boxes (ext := Exact.externals) store (VStr capture)))).

Definition intrinsic : value :=
  VList [vec [1; 0; 0]%Q; vec [0; 1; 0]%Q; vec [0; 0; 1]%Q].

(** Map tables that break the requirements of the log and map block. *)
Definition legacy_maps : list dict := [ map_rec "map_1" None ].

Definition mixed_maps : list dict :=
  [ map_rec "map_1" (Some ["log_1"]); map_rec "map_2" None ].

Definition foreign_maps : list dict := [ map_rec "map_1" (Some ["log_2"]) ].

End Demo.

(** ** Notions used to state the properties *)

Definition field_of (k : string) (r : dict) : option value := r !! k.

(** The values of one field down the rows of a table. *)
Definition column (k : string) (l : list dict) : list (option value) :=
  field_of k <$> l.

Definition token_of : dict -> option value := field_of "token".

Definition tokens_of : list dict -> list (option value) := column "token".

(** Two states of the store whose tables agree on one field, row by row. *)
Definition same_column (k : string) (db db' : LyftDataset) : Prop :=
  forall table_name,
    column k (table_rows db' table_name) = column k (table_rows db table_name).

(** Two states of the store with the same table under one name. *)
Definition same_table (table_name : string) (db db' : LyftDataset) : Prop :=
  tables db' !! table_name = tables db !! table_name.

(** The reverse index agrees with the tables: for every table, the stored
    index is the one that the indexing loop builds from the current rows. *)
(** A log record is covered when some map record lists its token. *)
Definition covered (db : LyftDataset) (log_record : dict) : Prop :=
  exists k map_record log_tokens,
    log_record !! "token" = Some (VStr k) /\
    map_record ∈ table_rows db "map" /\
    map_record !! "log_tokens" = Some (VList log_tokens) /\
    VStr k ∈ log_tokens.

Definition indexed (db : LyftDataset) : Prop :=
  forall table_name, table_name ∈ table_names ->
    exists index, _token2ind db !! table_name = Some index /\
                  index_rows 0 (table_rows db table_name) ∅ = Ok index.

(** A step of the pass that rewrites records of the listed tables only,
    leaving their tokens and the reverse index as they are. *)
Definition frame (touched : list string) (db db' : LyftDataset) : Prop :=
  _token2ind db' = _token2ind db /\
  same_column "token" db db' /\
  forall table_name, table_name ∉ touched -> same_table table_name db db'.

(** The tables rewritten by the sample part of the pass. *)
Definition sample_tables : list string :=
  ["sample_annotation"; "sample_data"; "sample"].

(** Every token held by the [data] dictionary of one of the [samples] is
    the token of a key-frame record among [sample_data] that belongs to
    that sample. *)
Definition links_ok (sample_data samples : list dict) : Prop :=
  forall s, s ∈ samples ->
    exists d, s !! "data" = Some (VDict d) /\
      forall channel tok, d !! channel = Some tok ->
        exists r kf, r ∈ sample_data /\
                     r !! "token" = Some tok /\
                     r !! "is_key_frame" = Some kf /\ truthy kf = true /\
                     r !! "sample_token" = s !! "token".

Definition data_links_ok (db : LyftDataset) : Prop :=
  links_ok (table_rows db "sample_data") (table_rows db "sample").

(** A JSON array of numbers. *)
Definition VNums (l : list Q) : value := VList (VNum <$> l).

(** The capture [sample_data_token] is not a key frame and its sample has a
    previous sample: [t0] and [t1] are the times of the previous and of the
    current sample, [t] the time of the capture, [curr_ann_recs] the
    annotation records of the current sample and [prev_inst_map] the
    dictionary from instance tokens to the annotation records of the
    previous sample. *)
Definition intermediate_capture (db : LyftDataset) (sample_data_token : value)
    (t0 t1 t : Q) (curr_ann_recs : list dict)
    (prev_inst_map : gmap string dict) : Prop :=
  exists sd_record sample_tok curr_sample_record prev kf prev_sample_record
         curr_toks prev_toks prev_ann_recs,
    get db "sample_data" sample_data_token = Ok sd_record /\
    sd_record !! "sample_token" = Some sample_tok /\
    get db "sample" sample_tok = Ok curr_sample_record /\
    curr_sample_record !! "prev" = Some prev /\
    str_eq prev "" = false /\
    sd_record !! "is_key_frame" = Some kf /\
    truthy kf = false /\
    get db "sample" prev = Ok prev_sample_record /\
    curr_sample_record !! "anns" = Some (VList curr_toks) /\
    mapM (get db "sample_annotation") curr_toks = Ok curr_ann_recs /\
    prev_sample_record !! "anns" = Some (VList prev_toks) /\
    mapM (get db "sample_annotation") prev_toks = Ok prev_ann_recs /\
    for_each add_prev_inst prev_ann_recs ∅ = Ok prev_inst_map /\
    prev_sample_record !! "timestamp" = Some (VNum t0) /\
    curr_sample_record !! "timestamp" = Some (VNum t1) /\
    sd_record !! "timestamp" = Some (VNum t).

(** The records that [get_sample_data] starts from: the capture, its
    calibrated sensor, the sensor and the ego pose. *)
Definition capture_records (db : LyftDataset) (sample_data_token : value)
    (sd_record cs_record sensor_record pose_record : dict) : Prop :=
  exists cs_tok sensor_tok pose_tok,
    get db "sample_data" sample_data_token = Ok sd_record /\
    sd_record !! "calibrated_sensor_token" = Some cs_tok /\
    get db "calibrated_sensor" cs_tok = Ok cs_record /\
    cs_record !! "sensor_token" = Some sensor_tok /\
    get db "sensor" sensor_tok = Ok sensor_record /\
    sd_record !! "ego_pose_token" = Some pose_tok /\
    get db "ego_pose" pose_tok = Ok pose_record.


(** Every table name is an attribute of the store. *)
Definition has_tables (db : LyftDataset) : Prop :=
  forall table_name, table_name ∈ table_names ->
    is_Some (tables db !! table_name).

(** A step of the pass that keeps every attribute it finds. *)
Definition keeps_tables (db db' : LyftDataset) : Prop :=
  forall table_name,
    is_Some (tables db !! table_name) -> is_Some (tables db' !! table_name).

(** ** A dataset with a repeated token

    The small dataset with two attribute records under one token. *)
Module Twin.

Definition attribute : list dict :=
  [ Demo.obj [("token", VStr "att"); ("name", VStr "first")];
    Demo.obj [("token", VStr "att"); ("name", VStr "second")] ].

Definition files : file_system :=
  <[table_path "json" "attribute" := attribute]>
    (Demo.files 1000000 2000000 Demo.map).

Definition store : LyftDataset :=
  unwrap Demo.no_tables
    (__init__ (ext := Exact.externals) files "data" "json" (1 # 10) false).

End Twin.

(** ** Linear search *)

Definition bool_num (b : bool) : Q := if b then 1%Q else 0%Q.

(** [a == b] on JSON values: numbers by value (a Boolean counts as 0 or 1),
    strings, lists element by element, dictionaries key by key. *)
Fixpoint py_eq (a b : value) {struct a} : bool :=
  match a, b with
  | VNone, VNone => true
  | VBool x, VBool y => Bool.eqb x y
  | VBool x, VNum q => Qeq_bool (bool_num x) q
  | VNum q, VBool y => Qeq_bool q (bool_num y)
  | VNum p, VNum q => Qeq_bool p q
  | VStr s, VStr t => String.eqb s t
  | VList l, VList k =>
      (fix go (l k : list value) {struct l} : bool :=
         match l, k with
         | [], [] => true
         | x :: l', y :: k' => py_eq x y && go l' k'
         | _, _ => false
         end) l k
  | VDict d, VDict e =>
      Nat.eqb (size d) (size e) &&
      map_fold (fun k v acc =>
                  acc && match e !! k with
                         | Some w => py_eq v w
                         | None => false
                         end) true d
  | _, _ => false
  end.

(** One round of the scan: [if member[field] == query:
    matches.append(member["token"])]. *)
Definition field2token_step (field : string) (query : value)
    (matches : list value) (member : dict) : result (list value) :=
  v ← member !!!! field;
  if py_eq v query then
    tok ← member !!!! "token";
    Ok (matches ++ [tok])%list
  else Ok matches.

Definition field2token (db : LyftDataset) (table_name field : string)
    (query : value) : result (list value) :=
  t ← getattr db table_name;
  for_each (field2token_step field query) (rows t) [].

(** The record has the field and its value equals the query. *)
Definition matching (field : string) (query : value) (r : dict) : bool :=
  match r !! field with
  | Some v => py_eq v query
  | None => false
  end.

(** ** What the reverse index holds *)

(** The sample_annotation or sample_data record [r] points to the sample at
    position [j] of the sample table. *)
Definition owner_is (db : LyftDataset) (j : nat) (r : dict) : bool :=
  match r !! "sample_token" with
  | Some tok =>
      match getind db "sample" tok with
      | Ok i => Nat.eqb i j
      | Raise _ => false
      end
  | None => false
  end.

Definition is_key_frame (r : dict) : bool :=
  match r !! "is_key_frame" with
  | Some v => truthy v
  | None => false
  end.

(** The fields that the reverse-index pass writes. *)
Definition derived_fields : list string :=
  ["category_name"; "sensor_modality"; "channel"; "data"; "anns"; "map_token"].

(** The key-frame record [r] belongs to the sample at position [j] and was
    taken on the channel [ch]. *)
Definition key_frame_of (db : LyftDataset) (j : nat) (ch : string) (r : dict)
  : bool :=
  is_key_frame r && owner_is db j r && matching "channel" (VStr ch) r.

(** The map record lists the log token [k]. *)
Definition lists_log (k : string) (map_record : dict) : bool :=
  match map_record !! "log_tokens" with
  | Some (VList log_tokens) => existsb (py_eq (VStr k)) log_tokens
  | _ => false
  end.

(** The content of a table file, or no record when the file is missing. *)
Definition file_rows (fs : file_system) (json_dir table_name : string)
  : list dict :=
  default [] (fs !! table_path json_dir table_name).

(** ** A dataset without its visibility file

    The small dataset loaded with [missing_tables_ok] after the file of the
    visibility table has been removed. *)
Module Sparse.

Definition files : file_system :=
  delete (table_path "json" "visibility") (Demo.files 1000000 2000000 Demo.map).

Definition store : LyftDataset :=
  unwrap Demo.no_tables
    (__init__ (ext := Exact.externals) files "data" "json" (1 # 10) true).

End Sparse.

(** ** The explorer *)

(** [len(v)] *)
Definition py_len (v : value) : result nat :=
  match v with
  | VList l => Ok (length l)
  | VDict d => Ok (size d)
  | VStr s => Ok (String.length s)
  | _ => Raise TypeError
  end.

(** The loop of [ann_count], the helper of [list_scenes]:
    [while not sample["next"] == "": count += len(sample["anns"]);
     sample = get("sample", sample["next"])].  The loop runs for at most
    [fuel] tests of its condition; [None] stands for a loop that is still
    running when the fuel is spent. *)
Fixpoint ann_count_loop (fuel : nat) (db : LyftDataset) (sample : dict)
    (count : nat) : result (option nat) :=
  match fuel with
  | 0 => Ok None
  | S fuel' =>
      next ← sample !!!! "next";
      if str_eq next "" then Ok (Some count)
      else
        anns ← sample !!!! "anns";
        n ← py_len anns;
        sample' ← get db "sample" next;
        ann_count_loop fuel' db sample' (count + n)
  end.

Definition ann_count (fuel : nat) (db : LyftDataset) (record : dict)
  : result (option nat) :=
  first ← record !!!! "first_sample_token";
  sample ← get db "sample" first;
  ann_count_loop fuel db sample 0.

(** The samples reached from [sample] by following [next] until it is the
    empty string: [rest] lists them in order. *)
Fixpoint sample_chain (db : LyftDataset) (sample : dict) (rest : list dict)
  : Prop :=
  match rest with
  | [] => exists next, sample !! "next" = Some next /\ str_eq next "" = true
  | sample' :: rest' =>
      exists next,
        sample !! "next" = Some next /\ str_eq next "" = false /\
        get db "sample" next = Ok sample' /\ sample_chain db sample' rest'
  end.

(** The number of annotation tokens listed by a sample. *)
Definition anns_len (sample : dict) : nat :=
  match sample !! "anns" with
  | Some (VList l) => length l
  | _ => 0
  end.

(** ** A dataset whose samples form a ring

    The small dataset with the [next] link of the last sample pointing
    back to the first. *)
Module Ring.

Definition sample : list dict :=
  [ Demo.sample_rec "s1" "" "s2" 1000000;
    Demo.sample_rec "s2" "s1" "s1" 2000000 ].

Definition files : file_system :=
  <[table_path "json" "sample" := sample]>
    (Demo.files 1000000 2000000 Demo.map).

Definition store : LyftDataset :=
  unwrap Demo.no_tables
    (__init__ (ext := Exact.externals) files "data" "json" (1 # 10) false).

Definition first : dict := unwrap ∅ (get store "sample" (VStr "s1")).
Definition second : dict := unwrap ∅ (get store "sample" (VStr "s2")).

End Ring.

(** ** A dataset whose tracked rotation changes sign

    The small dataset with the rotation of the tracked instance stored as
    [(1, 0, 0, 0)] in the first sample and as [(-1, 0, 0, 0)], the same
    rotation under the other sign, in the second.  The geometry is the
    exact instance with one rule of pyquaternion's [slerp] added: the first
    quaternion is negated when the dot product of the two is negative, so
    that the blend goes the shorter way round. *)
Module Flip.

Definition dot (a b : list Q) : Q := foldr Qplus 0%Q (zip_with Qmult a b).

Definition signed_blend (q0 q1 : value) (amount : Q) : value :=
  let q0 := if Qltb (dot (Exact.nums q0) (Exact.nums q1)) 0
            then Exact.negative q0 else q0 in
  Exact.blend q0 q1 amount.

Definition externals : Externals := {|
  np_interp := Exact.interp;
  slerp := signed_blend;
  MapMask := fun path resolution => VStr path;
  np_array := fun v => v;
  np_negative := Exact.negative;
  quaternion_inverse := Exact.conjugate;
  quaternion_yaw := fun _ => 0%Q;
  yaw_quaternion := fun _ => Exact.of_nums [1; 0; 0; 0]%Q;
  box_translate := Exact.translate;
  box_rotate := Exact.rotate;
  box_in_image := Exact.in_front
|}.

Definition sample_annotation : list dict :=
  [ Demo.ann_rec "ann_a1" "s1" "inst_a" "" "ann_a2" [0; 0; 5]%Q [1; 0; 0; 0]%Q;
    Demo.ann_rec "ann_a2" "s2" "inst_a" "ann_a1" "" [2; 0; 5]%Q [-1; 0; 0; 0]%Q;
    Demo.ann_rec "ann_b2" "s2" "inst_b" "" "" [3; 3; -6]%Q [1; 0; 0; 0]%Q ].

Definition files : file_system :=
  <[table_path "json" "sample_annotation" := sample_annotation]>
    (Demo.files 1000000 2000000 Demo.map).

Definition store : LyftDataset :=
  unwrap Demo.no_tables
    (__init__ (ext := externals) files "data" "json" (1 # 10) false).

(** The capture taken before the first sample, the two samples and the
    annotation of the tracked instance in the first of them. *)
Definition capture : dict :=
  unwrap ∅ (get store "sample_data" (VStr "sd_early")).
Definition curr_sample : dict := unwrap ∅ (get store "sample" (VStr "s2")).
Definition prev_sample : dict := unwrap ∅ (get store "sample" (VStr "s1")).
Definition prev_ann : dict :=
  unwrap ∅ (get store "sample_annotation" (VStr "ann_a1")).

Definition boxes : list Box :=
  unwrap [] (get_boxes (ext := externals) store (VStr "sd_early")).

Definition box : Box :=
  default (mkBox VNone VNone VNone VNone VNone) (boxes !! 0).

End Flip.

(** * Properties *)

(** ** The error monad *)

Lemma bind_Ok_inv {A B} (f : A -> result B) (r : result A) (b : B) :
  (r ≫= f) = Ok b -> exists a, r = Ok a /\ f a = Ok b.
Proof. destruct r as [a|e]; simpl; [eauto | discriminate]. Qed.

Lemma getitem_Ok (r : dict) (k : string) (v : value) :
  r !!!! k = Ok v <-> r !! k = Some v.
Proof. unfold getitem. destruct (r !! k); split; congruence. Qed.

Lemma as_key_Ok (v : value) (k : string) : as_key v = Ok k <-> v = VStr k.
Proof. destruct v; simpl; split; congruence. Qed.

Lemma as_list_Ok (v : value) (l : list value) : as_list v = Ok l <-> v = VList l.
Proof. destruct v; simpl; split; congruence. Qed.

Lemma as_num_Ok (v : value) (q : Q) : as_num v = Ok q <-> v = VNum q.
Proof. destruct v; simpl; split; congruence. Qed.

Lemma as_dict_Ok (v : value) (d : dict) : as_dict v = Ok d <-> v = VDict d.
Proof. destruct v; simpl; split; congruence. Qed.

Lemma bind_Ok {A B} (f : A -> result B) (a : A) : (Ok a ≫= f) = f a.
Proof. reflexivity. Qed.

Lemma bind_Raise {A B} (f : A -> result B) (e : exn) :
  (Raise e ≫= f) = Raise e.
Proof. reflexivity. Qed.

Lemma getitem_Some (r : dict) (k : string) (v : value) :
  r !! k = Some v -> r !!!! k = Ok v.
Proof. apply getitem_Ok. Qed.

Lemma as_list_VList (l : list value) : as_list (VList l) = Ok l.
Proof. reflexivity. Qed.

Lemma as_num_VNum (q : Q) : as_num (VNum q) = Ok q.
Proof. reflexivity. Qed.

(** Runs the next step of a sequence of binds with a known outcome. *)
Ltac run H := rewrite H; rewrite ?bind_Ok, ?bind_Raise; cbv beta.
Ltac run_item H := rewrite (getitem_Some _ _ _ H); rewrite ?bind_Ok; cbv beta.

(** Splits a successful sequence of binds into its successful steps. *)
Ltac inv_ok H :=
  repeat match type of H with
    | (_ ≫= _) = Ok _ =>
        let a := fresh "a" in
        let Ha := fresh "E" in
        apply bind_Ok_inv in H as (a & Ha & H)
    end.

Ltac simpl_ok :=
  repeat match goal with
    | H : _ !!!! _ = Ok _ |- _ => apply getitem_Ok in H
    | H : as_key _ = Ok _ |- _ => apply as_key_Ok in H; subst
    | H : as_list _ = Ok _ |- _ => apply as_list_Ok in H; subst
    | H : as_num _ = Ok _ |- _ => apply as_num_Ok in H; subst
    | H : as_dict _ = Ok _ |- _ => apply as_dict_Ok in H; subst
    | H : Ok _ = Ok _ |- _ => injection H as H; try subst
    end.

Lemma mapM_Ok_Forall2 {A B} (f : A -> result B) (l : list A) (k : list B) :
  mapM f l = Ok k <-> Forall2 (fun x y => f x = Ok y) l k.
Proof.
  revert k. induction l as [|x l IH]; intros k; simpl.
  - split.
    + intros [= <-]. constructor.
    + intros Hk. inversion Hk. reflexivity.
  - split.
    + intros Hk. inv_ok Hk. injection Hk as <-.
      constructor; [assumption | by apply IH].
    + intros Hk. inversion Hk as [|? y ? k' Hx Hl]; subst.
      rewrite Hx. simpl. apply IH in Hl. rewrite Hl. reflexivity.
Qed.

Lemma mapM_Ok_lookup {A B} (f : A -> result B) (l : list A) (k : list B)
    (i : nat) (x : A) :
  mapM f l = Ok k -> l !! i = Some x -> exists y, k !! i = Some y /\ f x = Ok y.
Proof.
  intros Hk Hx. apply mapM_Ok_Forall2 in Hk.
  destruct (Forall2_lookup_l _ _ _ _ _ Hk Hx) as (y & ? & ?). eauto.
Qed.

Lemma mapM_Ok_lookup_r {A B} (f : A -> result B) (l : list A) (k : list B)
    (i : nat) (y : B) :
  mapM f l = Ok k -> k !! i = Some y -> exists x, l !! i = Some x /\ f x = Ok y.
Proof.
  intros Hk Hy. apply mapM_Ok_Forall2 in Hk.
  destruct (Forall2_lookup_r _ _ _ _ _ Hk Hy) as (x & ? & ?). eauto.
Qed.

(** An invariant of the loop state holds after a loop that ends normally. *)
Lemma for_each_invariant {S A} (P : S -> Prop) (step : S -> A -> result S)
    (l : list A) (s s' : S) :
  (forall s x s', x ∈ l -> P s -> step s x = Ok s' -> P s') ->
  P s -> for_each step l s = Ok s' -> P s'.
Proof.
  revert s. induction l as [|x l IH]; intros s Hstep Hs Hl; simpl in Hl.
  - by injection Hl as <-.
  - inv_ok Hl. apply (IH a).
    + intros ? ? ? ?. apply Hstep. by right.
    + eapply Hstep; [by left | done | done].
    + done.
Qed.

(** ** The reverse index *)

Lemma index_rows_tokens (l1 l2 : list dict) (n : nat) (acc : gmap string nat) :
  tokens_of l1 = tokens_of l2 -> index_rows n l1 acc = index_rows n l2 acc.
Proof.
  revert l2 n acc. induction l1 as [|r1 l1 IH]; intros [|r2 l2] n acc Heq;
    try discriminate; [reflexivity|].
  injection Heq as Hr Hl. simpl. unfold getitem.
  unfold token_of, field_of in Hr. rewrite Hr.
  destruct (r2 !! "token") as [v|]; simpl; [|reflexivity].
  destruct (as_key v); simpl; [|reflexivity]. by apply IH.
Qed.

Lemma index_rows_str (l : list dict) (n : nat) (acc index : gmap string nat)
    (r : dict) :
  index_rows n l acc = Ok index -> r ∈ l ->
  exists k, r !! "token" = Some (VStr k).
Proof.
  revert n acc. induction l as [|m l IH]; intros n acc Hix Hr.
  - by apply elem_of_nil in Hr.
  - simpl in Hix. inv_ok Hix. simpl_ok.
    apply elem_of_cons in Hr as [->|Hr]; [eauto | by eapply IH].
Qed.

Lemma index_rows_notin (l : list dict) (n : nat) (acc index : gmap string nat)
    (k : string) :
  index_rows n l acc = Ok index -> Some (VStr k) ∉ tokens_of l ->
  index !! k = acc !! k.
Proof.
  revert n acc. induction l as [|m l IH]; intros n acc Hix Hk; simpl in Hix.
  - by injection Hix as <-.
  - inv_ok Hix. simpl_ok. simpl in Hk. apply not_elem_of_cons in Hk as [Hm Hk].
    rewrite (IH _ _ Hix Hk). apply lookup_insert_ne.
    intros ->. apply Hm. unfold token_of, field_of. by rewrite E.
Qed.

Lemma index_rows_lookup (l : list dict) (n : nat) (acc index : gmap string nat)
    (i : nat) (r : dict) :
  index_rows n l acc = Ok index -> NoDup (tokens_of l) -> l !! i = Some r ->
  exists k, r !! "token" = Some (VStr k) /\ index !! k = Some (n + i).
Proof.
  revert n acc i. induction l as [|m l IH]; intros n acc i Hix Hnd Hr;
    [discriminate|].
  simpl in Hix. inv_ok Hix. simpl_ok.
  simpl in Hnd. apply NoDup_cons in Hnd as [Hm Hnd].
  destruct i as [|i]; simpl in Hr.
  - injection Hr as <-. eexists. split; [done|].
    rewrite (index_rows_notin _ _ _ _ _ Hix).
    + rewrite lookup_insert_eq. f_equal. lia.
    + unfold token_of, field_of in Hm. by rewrite E in Hm.
  - destruct (IH _ _ _ Hix Hnd Hr) as (k & Hk & Hi).
    exists k. split; [done|]. rewrite Hi. f_equal. lia.
Qed.

Lemma index_rows_inv (l : list dict) (n : nat) (acc index : gmap string nat)
    (k : string) (j : nat) :
  index_rows n l acc = Ok index -> index !! k = Some j ->
  acc !! k = Some j \/
  exists r, n <= j /\ l !! (j - n) = Some r /\ r !! "token" = Some (VStr k).
Proof.
  revert n acc. induction l as [|m l IH]; intros n acc Hix Hj; simpl in Hix.
  - injection Hix as <-. by left.
  - inv_ok Hix. simpl_ok.
    destruct (IH _ _ Hix Hj) as [Hacc|(r & Hn & Hr & Hk)].
    + rewrite lookup_insert in Hacc. case_decide as Heq.
      * injection Hacc as <-. subst. right. exists m.
        rewrite Nat.sub_diag. done.
      * by left.
    + right. exists r. split; [lia|]. split; [|done].
      replace (j - n) with (S (j - S n)) by lia. done.
Qed.

(** A position stored in the index of a consistent store holds a record
    that carries the token it is stored under. *)
Lemma indexed_getind (db : LyftDataset) (table_name : string) (tok : value)
    (ind : nat) :
  indexed db -> table_name ∈ table_names ->
  getind db table_name tok = Ok ind ->
  exists r, table_rows db table_name !! ind = Some r /\ r !! "token" = Some tok.
Proof.
  intros Hdb HT Hind. destruct (Hdb _ HT) as (index & Hix & Hrows).
  unfold getind in Hind. rewrite Hix in Hind.
  destruct tok as [| | |k| |]; try discriminate.
  destruct (index !! k) as [j|] eqn:Hk; [|discriminate]. injection Hind as ->.
  destruct (index_rows_inv _ _ _ _ _ _ Hrows Hk) as [Hacc|(r & _ & Hr & Hkr)].
  - by rewrite lookup_empty in Hacc.
  - rewrite Nat.sub_0_r in Hr. eauto.
Qed.

Lemma get_Ok (db : LyftDataset) (table_name : string) (tok : value) (r : dict) :
  get db table_name tok = Ok r ->
  table_name ∈ table_names /\
  exists ind, getind db table_name tok = Ok ind /\
              table_rows db table_name !! ind = Some r.
Proof.
  unfold get. case_bool_decide as HT; [|discriminate]. intros Hget.
  inv_ok Hget. split; [done|]. exists a0. split; [done|].
  unfold getattr in E. unfold table_rows.
  destruct (tables db !! table_name) as [t|]; [|discriminate].
  injection E as ->. destruct a as [l|]; simpl in *; [|discriminate].
  by destruct (l !! a0); [injection Hget as ->|].
Qed.

Lemma get_intro (db : LyftDataset) (table_name : string) (tok : value)
    (ind : nat) (r : dict) :
  table_name ∈ table_names -> getind db table_name tok = Ok ind ->
  table_rows db table_name !! ind = Some r -> get db table_name tok = Ok r.
Proof.
  intros HT Hind Hr. unfold get. rewrite bool_decide_eq_true_2 by done.
  unfold table_rows in Hr. unfold getattr.
  destruct (tables db !! table_name) as [t|]; [|discriminate]. simpl.
  rewrite Hind. simpl. destruct t as [l|]; simpl in *; [|discriminate].
  by rewrite Hr.
Qed.

(** ** Updates of the store *)

Lemma table_rows_setattr (db : LyftDataset) (table_name : string) (t : table) :
  table_rows (setattr db table_name t) table_name = rows t.
Proof. unfold table_rows, setattr. simpl. by rewrite lookup_insert_eq. Qed.

Lemma same_table_setattr (db : LyftDataset) (table_name other : string)
    (t : table) :
  other <> table_name -> same_table other db (setattr db table_name t).
Proof. intros Hne. unfold same_table, setattr. simpl. by apply lookup_insert_ne. Qed.

Lemma same_table_rows (db db' : LyftDataset) (table_name : string) :
  same_table table_name db db' ->
  table_rows db' table_name = table_rows db table_name.
Proof. unfold same_table, table_rows. by intros ->. Qed.

Lemma table_rows_update_row (db : LyftDataset) (table_name : string)
    (ind : nat) (r : dict) :
  table_rows (update_row db table_name ind r) table_name
  = <[ind := r]> (table_rows db table_name).
Proof.
  unfold update_row, table_rows at 2.
  destruct (tables db !! table_name) as [t|] eqn:Ht.
  - rewrite table_rows_setattr. by destruct t.
  - unfold table_rows. by rewrite Ht.
Qed.

Lemma same_table_update_row (db : LyftDataset) (table_name other : string)
    (ind : nat) (r : dict) :
  other <> table_name -> same_table other db (update_row db table_name ind r).
Proof.
  intros Hne. unfold update_row.
  destruct (tables db !! table_name); [by apply same_table_setattr | done].
Qed.

Lemma token2ind_update_row (db : LyftDataset) (table_name : string)
    (ind : nat) (r : dict) :
  _token2ind (update_row db table_name ind r) = _token2ind db.
Proof. unfold update_row. by destruct (tables db !! table_name). Qed.

(** Writing a record that agrees with the one it replaces on a field keeps
    that column of every table. *)
Lemma same_column_update_row (k : string) (db : LyftDataset)
    (table_name : string) (ind : nat) (r0 r : dict) :
  table_rows db table_name !! ind = Some r0 -> r !! k = r0 !! k ->
  same_column k db (update_row db table_name ind r).
Proof.
  intros Hr0 Hk T. destruct (decide (T = table_name)) as [->|Hne].
  - rewrite table_rows_update_row. unfold column.
    rewrite list_fmap_insert. apply list_insert_id.
    rewrite list_lookup_fmap, Hr0. simpl. unfold field_of. by rewrite Hk.
  - by rewrite (same_table_rows _ _ _ (same_table_update_row _ _ _ _ _ Hne)).
Qed.

Lemma decorate_table_rows (db db' : LyftDataset) (table_name : string)
    (f : dict -> result dict) :
  decorate_table db table_name f = Ok db' ->
  mapM f (table_rows db table_name) = Ok (table_rows db' table_name).
Proof.
  unfold decorate_table, getattr, table_rows. intros Hd.
  destruct (tables db !! table_name) as [t|]; [|discriminate].
  simpl in Hd. inv_ok Hd. injection Hd as <-. simpl.
  rewrite lookup_insert_eq. destruct t as [l|]; simpl in *; [done|].
  by injection E as <-.
Qed.

Lemma decorate_table_same_table (db db' : LyftDataset)
    (table_name other : string) (f : dict -> result dict) :
  decorate_table db table_name f = Ok db' -> other <> table_name ->
  same_table other db db'.
Proof.
  unfold decorate_table. intros Hd Hne. inv_ok Hd. injection Hd as <-.
  by apply same_table_setattr.
Qed.

Lemma decorate_table_token2ind (db db' : LyftDataset) (table_name : string)
    (f : dict -> result dict) :
  decorate_table db table_name f = Ok db' -> _token2ind db' = _token2ind db.
Proof. unfold decorate_table. intros Hd. inv_ok Hd. by injection Hd as <-. Qed.

Lemma decorate_table_same_column (k : string) (db db' : LyftDataset)
    (table_name : string) (f : dict -> result dict) :
  (forall r r', f r = Ok r' -> r' !! k = r !! k) ->
  decorate_table db table_name f = Ok db' -> same_column k db db'.
Proof.
  intros Hf Hd T. destruct (decide (T = table_name)) as [->|Hne].
  - apply decorate_table_rows, mapM_Ok_Forall2 in Hd.
    generalize dependent (table_rows db' table_name).
    generalize (table_rows db table_name).
    intros l l' Hd. induction Hd as [|r r' l l' Hr _ IH]; [done|].
    unfold column in *. rewrite !fmap_cons, IH. f_equal. by apply Hf.
  - by rewrite (same_table_rows _ _ _ (decorate_table_same_table _ _ _ _ _ Hd Hne)).
Qed.

Lemma same_column_refl (k : string) (db : LyftDataset) : same_column k db db.
Proof. by intros T. Qed.

Lemma same_column_trans (k : string) (db1 db2 db3 : LyftDataset) :
  same_column k db1 db2 -> same_column k db2 db3 -> same_column k db1 db3.
Proof. intros H12 H23 T. by rewrite H23, H12. Qed.

Lemma indexed_same_tokens (db db' : LyftDataset) :
  indexed db -> _token2ind db' = _token2ind db -> same_column "token" db db' ->
  indexed db'.
Proof.
  intros Hdb Hix Hcol T HT. destruct (Hdb T HT) as (index & Hi & Hrows).
  exists index. rewrite Hix. split; [done|].
  rewrite <- Hrows. apply index_rows_tokens, Hcol.
Qed.

(** ** The denormalisation pass keeps the index consistent *)

Lemma NoDup_table_names : NoDup table_names.
Proof. apply (bool_decide_unpack _). vm_compute. exact I. Qed.

Lemma for_each_index_table (db : LyftDataset) (names : list string)
    (acc token2ind : gmap string (gmap string nat)) :
  for_each (index_table db) names acc = Ok token2ind -> NoDup names ->
  (forall T, T ∈ names ->
     exists index, token2ind !! T = Some index /\
                   index_rows 0 (table_rows db T) ∅ = Ok index) /\
  (forall T, T ∉ names -> token2ind !! T = acc !! T).
Proof.
  revert acc. induction names as [|n names IH]; intros acc Hfor Hnd.
  - injection Hfor as <-. split; [|done]. intros T HT. by apply elem_of_nil in HT.
  - simpl in Hfor. inv_ok Hfor. apply NoDup_cons in Hnd as [Hn Hnd].
    destruct (IH _ Hfor Hnd) as [Hin Hout].
    unfold index_table in E. inv_ok E. injection E as <-.
    unfold getattr in E0.
    destruct (tables db !! n) as [t|] eqn:Ht; [|discriminate]. injection E0 as <-.
    split.
    + intros T [->|HT]%elem_of_cons; [|by apply Hin].
      exists a1. rewrite (Hout _ Hn), lookup_insert_eq. split; [done|].
      unfold table_rows. by rewrite Ht.
    + intros T [Hne HT]%not_elem_of_cons.
      rewrite (Hout _ HT). by apply lookup_insert_ne.
Qed.

Lemma build_token2ind_Ok (db db' : LyftDataset) :
  build_token2ind db = Ok db' -> indexed db' /\ tables db' = tables db.
Proof.
  unfold build_token2ind. intros Hb. inv_ok Hb. injection Hb as <-.
  split; [|done]. intros T HT.
  destruct (for_each_index_table _ _ _ _ E NoDup_table_names) as [Hin _].
  apply (Hin T HT).
Qed.

Lemma get_row (db : LyftDataset) (table_name : string) (tok : value)
    (r : dict) (ind : nat) :
  get db table_name tok = Ok r -> getind db table_name tok = Ok ind ->
  table_rows db table_name !! ind = Some r.
Proof.
  intros (_ & ind' & Hind' & Hr)%get_Ok Hind. congruence.
Qed.

(** What one round of the key-frame loop does to the store. *)
Lemma link_sample_data_Ok (db db' : LyftDataset) (r : dict) :
  link_sample_data db r = Ok db' ->
  (exists kf, r !! "is_key_frame" = Some kf /\ truthy kf = false /\ db' = db) \/
  (exists kf stok s ind tok d k,
      r !! "is_key_frame" = Some kf /\ truthy kf = true /\
      r !! "sample_token" = Some stok /\
      getind db "sample" stok = Ok ind /\
      table_rows db "sample" !! ind = Some s /\
      r !! "token" = Some tok /\
      s !! "data" = Some (VDict d) /\
      r !! "channel" = Some (VStr k) /\
      db' = update_row db "sample" ind (<["data" := VDict (<[k := tok]> d)]> s)).
Proof.
  unfold link_sample_data. intros Hl. inv_ok Hl.
  destruct (truthy a) eqn:Hkf.
  - inv_ok Hl. simpl_ok. right.
    pose proof (get_row _ _ _ _ _ E1 E2) as Hrow.
    exists a, a0, a1, a2, a3, a6, a7. by repeat split.
  - simpl_ok. left. exists a. by repeat split.
Qed.

(** What one round of the annotation loop does to the store. *)
Lemma link_annotation_Ok (db db' : LyftDataset) (r : dict) :
  link_annotation db r = Ok db' ->
  exists stok s ind tok l,
    r !! "sample_token" = Some stok /\
    getind db "sample" stok = Ok ind /\
    table_rows db "sample" !! ind = Some s /\
    s !! "anns" = Some (VList l) /\
    r !! "token" = Some tok /\
    db' = update_row db "sample" ind (<["anns" := VList (l ++ [tok])]> s).
Proof.
  unfold link_annotation. intros Hl. inv_ok Hl. simpl_ok.
  pose proof (get_row _ _ _ _ _ E0 E1) as Hrow.
  exists a, a0, a1, a4, a3. by repeat split.
Qed.

Lemma frame_refl (touched : list string) (db : LyftDataset) : frame touched db db.
Proof. by repeat split. Qed.

Lemma frame_trans (touched : list string) (db1 db2 db3 : LyftDataset) :
  frame touched db1 db2 -> frame touched db2 db3 -> frame touched db1 db3.
Proof.
  intros (Hi & Hc & Ht) (Hi' & Hc' & Ht'). split; [congruence|]. split.
  - by eapply same_column_trans.
  - intros T HT. unfold same_table. rewrite (Ht' T HT). by apply Ht.
Qed.

Lemma frame_mono (touched touched' : list string) (db db' : LyftDataset) :
  touched ⊆ touched' -> frame touched db db' -> frame touched' db db'.
Proof.
  intros Hsub (Hi & Hc & Ht). repeat split; [done..|].
  intros T HT. apply Ht. intros Hin. by apply HT, Hsub.
Qed.

Lemma indexed_frame (touched : list string) (db db' : LyftDataset) :
  indexed db -> frame touched db db' -> indexed db'.
Proof. intros Hdb (Hi & Hc & _). by eapply indexed_same_tokens. Qed.

Lemma frame_update_row (db : LyftDataset) (table_name : string) (ind : nat)
    (s : dict) (k : string) (v : value) :
  table_rows db table_name !! ind = Some s -> k <> "token" ->
  frame [table_name] db (update_row db table_name ind (<[k := v]> s)).
Proof.
  intros Hs Hk. split; [apply token2ind_update_row|]. split.
  - eapply same_column_update_row; [done|]. by apply lookup_insert_ne.
  - intros T HT. apply same_table_update_row. set_solver.
Qed.

Lemma frame_decorate_table (db db' : LyftDataset) (table_name : string)
    (f : dict -> result dict) :
  (forall r r', f r = Ok r' -> r' !! "token" = r !! "token") ->
  decorate_table db table_name f = Ok db' -> frame [table_name] db db'.
Proof.
  intros Hf Hd. split; [by eapply decorate_table_token2ind|]. split.
  - by eapply decorate_table_same_column.
  - intros T HT. eapply decorate_table_same_table; [done|]. set_solver.
Qed.

Lemma frame_link_sample_data (db db' : LyftDataset) (r : dict) :
  link_sample_data db r = Ok db' -> frame ["sample"] db db'.
Proof.
  intros [(kf & _ & _ & ->)|(kf & stok & s & ind & tok & d & k & Hl)]%link_sample_data_Ok.
  - apply frame_refl.
  - destruct Hl as (_ & _ & _ & _ & Hs & _ & _ & _ & ->).
    by apply frame_update_row.
Qed.

Lemma frame_link_annotation (db db' : LyftDataset) (r : dict) :
  link_annotation db r = Ok db' -> frame ["sample"] db db'.
Proof.
  intros (stok & s & ind & tok & l & _ & _ & Hs & _ & _ & ->)%link_annotation_Ok.
  by apply frame_update_row.
Qed.

Lemma frame_for_each {A} (touched : list string)
    (step : LyftDataset -> A -> result LyftDataset) (l : list A)
    (db db' : LyftDataset) :
  (forall db x db', step db x = Ok db' -> frame touched db db') ->
  for_each step l db = Ok db' -> frame touched db db'.
Proof.
  intros Hstep. apply (for_each_invariant (frame touched db)).
  - intros s x s' _ Hs Hx. eapply frame_trans; [done|]. by eapply Hstep.
  - apply frame_refl.
Qed.

Lemma decorate_annotation_field (db : LyftDataset) (k : string) (r r' : dict) :
  k <> "category_name" -> decorate_annotation db r = Ok r' -> r' !! k = r !! k.
Proof.
  unfold decorate_annotation. intros Hk Hd. inv_ok Hd. injection Hd as <-.
  by apply lookup_insert_ne.
Qed.

Lemma decorate_sample_data_field (db : LyftDataset)
    (k : string) (r r' : dict) :
  k <> "channel" -> k <> "sensor_modality" ->
  decorate_sample_data db r = Ok r' -> r' !! k = r !! k.
Proof.
  unfold decorate_sample_data. intros Hk Hk' Hd. inv_ok Hd. injection Hd as <-.
  by rewrite !lookup_insert_ne.
Qed.

Lemma init_sample_field (k : string) (r : dict) :
  k <> "anns" -> k <> "data" -> init_sample r !! k = r !! k.
Proof. intros Hk Hk'. unfold init_sample. by rewrite !lookup_insert_ne. Qed.

Lemma link_log_field (log_to_map : gmap string value) (k : string) (r r' : dict) :
  k <> "map_token" -> link_log log_to_map r = Ok r' -> r' !! k = r !! k.
Proof.
  unfold link_log. intros Hk Hd. inv_ok Hd. injection Hd as <-.
  by apply lookup_insert_ne.
Qed.

Lemma denormalize_samples_Ok (db db' : LyftDataset) :
  denormalize_samples db = Ok db' ->
  exists db0, build_token2ind db = Ok db0 /\ frame sample_tables db0 db' /\
              indexed db'.
Proof.
  unfold denormalize_samples. intros Hd. inv_ok Hd. exists a. split; [done|].
  destruct (build_token2ind_Ok _ _ E) as [Hix _].
  assert (forall T, T ∈ sample_tables -> [T] ⊆ sample_tables) as Hsub.
  { intros T HT x ->%list_elem_of_singleton. done. }
  assert (frame sample_tables a db') as Hframe.
  { eapply frame_trans; [|eapply frame_trans; [|eapply frame_trans;
      [|eapply frame_trans]]].
    - eapply (frame_mono ["sample_annotation"]); [apply Hsub; repeat constructor|].
      eapply frame_decorate_table; [|exact E0].
      intros r r'. by apply decorate_annotation_field.
    - eapply (frame_mono ["sample_data"]); [apply Hsub; repeat constructor|].
      eapply frame_decorate_table; [|exact E1].
      intros r r'. by apply decorate_sample_data_field.
    - eapply (frame_mono ["sample"]); [apply Hsub; repeat constructor|].
      eapply frame_decorate_table; [|exact E2].
      intros r r' [= <-]. by apply init_sample_field.
    - eapply (frame_mono ["sample"]); [apply Hsub; repeat constructor|].
      eapply frame_for_each; [|exact E3].
      intros ? ? ?. apply frame_link_sample_data.
    - eapply (frame_mono ["sample"]); [apply Hsub; repeat constructor|].
      eapply frame_for_each; [|exact Hd].
      intros ? ? ?. apply frame_link_annotation. }
  split; [done|]. by eapply indexed_frame.
Qed.

Lemma frame_link_logs_to_maps (db db' : LyftDataset) :
  link_logs_to_maps db = Ok db' -> frame ["log"] db db'.
Proof.
  unfold link_logs_to_maps. intros Hl. inv_ok Hl.
  destruct (a0 !! "log_tokens"); [|discriminate]. inv_ok Hl.
  eapply frame_decorate_table; [|exact Hl].
  intros r r'. by apply link_log_field.
Qed.

Lemma make_reverse_index_indexed (db db' : LyftDataset) :
  __make_reverse_index__ db = Ok db' -> indexed db'.
Proof.
  unfold __make_reverse_index__. intros Hm. inv_ok Hm.
  destruct (denormalize_samples_Ok _ _ E) as (db0 & _ & _ & Hix).
  eapply indexed_frame; [done|]. by eapply frame_link_logs_to_maps.
Qed.

(** In a store whose index is consistent, every record of a table with
    pairwise distinct tokens is found again under its own token. *)
Lemma indexed_get (db : LyftDataset) (table_name : string) (i : nat) (r : dict) :
  indexed db -> table_name ∈ table_names ->
  NoDup (tokens_of (table_rows db table_name)) ->
  table_rows db table_name !! i = Some r ->
  exists tok, r !! "token" = Some tok /\ get db table_name tok = Ok r.
Proof.
  intros Hdb HT Hnd Hr. destruct (Hdb _ HT) as (index & Hix & Hrows).
  destruct (index_rows_lookup _ _ _ _ _ _ Hrows Hnd Hr) as (k & Hk & Hi).
  exists (VStr k). split; [done|]. apply (get_intro _ _ _ i); [done| |done].
  unfold getind. by rewrite Hix, Hi.
Qed.

Section Queries.
Context `{ext : Externals}.

Lemma init_Ok (fs : file_system) (data_dir json_dir : string) (resolution : Q)
    (missing_ok : bool) (db' : LyftDataset) :
  __init__ fs data_dir json_dir resolution missing_ok = Ok db' ->
  exists db, __make_reverse_index__ db = Ok db'.
Proof. unfold __init__. intros Hi. inv_ok Hi. eauto. Qed.

(** C1.  After the store has been loaded, [get] on a table and the token of
    one of its records returns that very record, for every table whose
    tokens are pairwise distinct (the data model makes a token unique
    within its table). *)
Theorem get_token_roundtrip (fs : file_system) (data_dir json_dir : string)
    (resolution : Q) (missing_ok : bool) (db : LyftDataset)
    (table_name : string) (i : nat) (r : dict) :
  __init__ fs data_dir json_dir resolution missing_ok = Ok db ->
  table_name ∈ table_names ->
  NoDup (tokens_of (table_rows db table_name)) ->
  table_rows db table_name !! i = Some r ->
  exists tok, r !! "token" = Some tok /\ get db table_name tok = Ok r.
Proof.
  intros (db0 & Hdb)%init_Ok. apply indexed_get.
  by eapply make_reverse_index_indexed.
Qed.

End Queries.

(** ** Loading a table *)

(** C9.  A table whose file is present is loaded as it is; a table whose
    file is absent is replaced by an empty collection when missing tables
    are allowed, and loading fails with the not-found error otherwise. *)
Theorem load_table_cases (fs : file_system) (json_dir table_name : string)
    (missing_ok : bool) :
  __load_table__ fs json_dir table_name missing_ok
  = match fs !! table_path json_dir table_name with
    | Some content => Ok (Rows content)
    | None =>
        if missing_ok then Ok EmptyDict
        else Raise (FileNotFoundError (table_path json_dir table_name))
    end
  /\ rows EmptyDict = [] /\ (forall content, rows (Rows content) = content).
Proof.
  split; [|done]. unfold __load_table__, isfile, open_json.
  destruct (fs !! table_path json_dir table_name); simpl; [done|].
  by destruct missing_ok.
Qed.

(** ** The log and map block *)

(** A loop over a list with a failing round fails. *)
Lemma for_each_fails {S A} (step : S -> A -> result S) (l : list A) (x : A)
    (s : S) :
  x ∈ l -> (forall s, exists e, step s x = Raise e) ->
  exists e, for_each step l s = Raise e.
Proof.
  revert s. induction l as [|y l IH]; intros s Hx Hfail.
  - by apply elem_of_nil in Hx.
  - simpl. destruct (step s y) as [s'|e] eqn:Hy; simpl; [|eauto].
    apply elem_of_cons in Hx as [->|Hx]; [|by apply IH].
    destruct (Hfail s) as (e & He). congruence.
Qed.

Lemma map_log_tokens_lacking (log_to_map : gmap string value) (m : dict) :
  m !! "log_tokens" = None ->
  map_log_tokens log_to_map m = Raise (KeyError (VStr "log_tokens")).
Proof. intros Hm. unfold map_log_tokens, getitem. by rewrite Hm. Qed.

Lemma for_each_map_log_token (m : dict) (toks : list value)
    (acc acc' : gmap string value) (k : string) :
  for_each (map_log_token m) toks acc = Ok acc' ->
  (forall v, acc' !! k = Some v -> acc !! k = Some v \/ VStr k ∈ toks) /\
  (is_Some (acc !! k) \/ VStr k ∈ toks -> is_Some (acc' !! k)).
Proof.
  revert acc. induction toks as [|tok toks IH]; intros acc Hfor; simpl in Hfor.
  - injection Hfor as <-. split; [by left|]. intros [?|?%elem_of_nil]; done.
  - inv_ok Hfor. unfold map_log_token in E. inv_ok E. simpl_ok.
    destruct (IH _ Hfor) as [Hinv Hcov]. split.
    + intros v [Hacc|Hin]%Hinv; [|right; by right].
      rewrite lookup_insert in Hacc. case_decide as Heq; [|by left].
      subst. right. by left.
    + intros Hk. apply Hcov. destruct Hk as [Hk|[Hk|Hk]%elem_of_cons].
      * left. rewrite lookup_insert. by case_decide.
      * injection Hk as ->. left. by rewrite lookup_insert_eq.
      * by right.
Qed.

(** The keys of [log_to_map] are the tokens listed by the map records. *)
Lemma log_to_map_lookup (l : list dict) (acc log_to_map : gmap string value)
    (k : string) :
  for_each map_log_tokens l acc = Ok log_to_map ->
  is_Some (log_to_map !! k) <->
  is_Some (acc !! k) \/
  exists m toks, m ∈ l /\ m !! "log_tokens" = Some (VList toks) /\ VStr k ∈ toks.
Proof.
  revert acc. induction l as [|m l IH]; intros acc Hfor; simpl in Hfor.
  - injection Hfor as <-. split; [by left|].
    intros [?|(m & toks & ?%elem_of_nil & _)]; done.
  - inv_ok Hfor. unfold map_log_tokens in E. inv_ok E. simpl_ok.
    destruct (for_each_map_log_token _ _ _ _ k E) as [Hinv Hcov].
    rewrite (IH _ Hfor). split.
    + intros [[v Hv]|(m' & toks & Hm' & Hl & Hk)].
      * destruct (Hinv _ Hv) as [Hacc|Hin]; [by left; eexists|].
        right. exists m, a1. split; [by left | done].
      * right. exists m', toks. split; [by right | done].
    + intros [Hacc|(m' & toks & [->|Hm']%elem_of_cons & Hl & Hk)].
      * left. apply Hcov. by left.
      * left. apply Hcov. right. congruence.
      * right. by exists m', toks.
Qed.

Lemma mapM_link_log_Ok (log_to_map : gmap string value) (logs logs' : list dict)
    (r : dict) :
  mapM (link_log log_to_map) logs = Ok logs' -> r ∈ logs ->
  exists k, r !! "token" = Some (VStr k) /\ is_Some (log_to_map !! k).
Proof.
  intros Hm (i & Hi)%list_elem_of_lookup.
  destruct (mapM_Ok_lookup _ _ _ _ _ Hm Hi) as (r' & _ & Hr).
  unfold link_log in Hr. inv_ok Hr. simpl_ok.
  destruct a as [| | |k| |]; try discriminate. exists k. split; [done|].
  by destruct (log_to_map !! k).
Qed.

Lemma link_log_str (log_to_map : gmap string value) (r : dict) (k : string) :
  r !! "token" = Some (VStr k) ->
  link_log log_to_map r
  = match log_to_map !! k with
    | Some v => Ok (<["map_token" := v]> r)
    | None => Raise (KeyError (VStr k))
    end.
Proof.
  intros Hk. unfold link_log, getitem. rewrite Hk. simpl.
  by destruct (log_to_map !! k).
Qed.

Lemma for_each_cons {S A} (step : S -> A -> result S) (x : A) (l : list A)
    (s : S) :
  for_each step (x :: l) s = (step s x ≫= for_each step l).
Proof. reflexivity. Qed.

Lemma mapM_cons_result {A B} (f : A -> result B) (x : A) (l : list A) :
  mapM f (x :: l) = (f x ≫= fun y => mapM f l ≫= fun k => Ok (y :: k)).
Proof. reflexivity. Qed.

(** The back-link loop stops with a [KeyError] at the first log record whose
    token is not a key of [log_to_map]. *)
Lemma mapM_link_log_Raise (log_to_map : gmap string value) (logs : list dict) :
  (forall r, r ∈ logs -> exists k, r !! "token" = Some (VStr k)) ->
  (exists r k, r ∈ logs /\ r !! "token" = Some (VStr k) /\
               log_to_map !! k = None) ->
  exists r k, r ∈ logs /\ r !! "token" = Some (VStr k) /\
              log_to_map !! k = None /\
              mapM (link_log log_to_map) logs = Raise (KeyError (VStr k)).
Proof.
  induction logs as [|r logs IH]; intros Hstr (r0 & k0 & Hr0 & Hk0 & Hnone).
  - by apply elem_of_nil in Hr0.
  - destruct (Hstr r) as (k & Hk); [by left|].
    destruct (log_to_map !! k) as [v|] eqn:Hv.
    + destruct IH as (r1 & k1 & Hr1 & Hk1 & Hn1 & Hraise).
      * intros ? ?. apply Hstr. by right.
      * apply elem_of_cons in Hr0 as [->|Hr0]; [congruence|].
        by exists r0, k0.
      * exists r1, k1. split; [by right|]. split; [done|]. split; [done|].
        rewrite mapM_cons_result, (link_log_str _ _ _ Hk), Hv. simpl.
        by rewrite Hraise.
    + exists r, k. split; [by left|]. split; [done|]. split; [done|].
      by rewrite mapM_cons_result, (link_log_str _ _ _ Hk), Hv.
Qed.

Lemma denormalize_samples_other (db db1 : LyftDataset) (table_name : string) :
  denormalize_samples db = Ok db1 -> table_name ∉ sample_tables ->
  tables db1 !! table_name = tables db !! table_name.
Proof.
  intros (db0 & Hb & (_ & _ & Hframe) & _)%denormalize_samples_Ok HT.
  destruct (build_token2ind_Ok _ _ Hb) as [_ Htables].
  rewrite (Hframe _ HT). by rewrite Htables.
Qed.

Lemma map_not_sample_table : "map" ∉ sample_tables.
Proof. apply (bool_decide_unpack _). vm_compute. exact I. Qed.

Lemma log_not_sample_table : "log" ∉ sample_tables.
Proof. apply (bool_decide_unpack _). vm_compute. exact I. Qed.

Lemma table_rows_elem (db : LyftDataset) (table_name : string) (r : dict) :
  r ∈ table_rows db table_name ->
  exists l, tables db !! table_name = Some (Rows l) /\ r ∈ l.
Proof.
  unfold table_rows. destruct (tables db !! table_name) as [[l|]|]; simpl.
  - eauto.
  - by intros ?%elem_of_nil.
  - by intros ?%elem_of_nil.
Qed.

Lemma denormalize_samples_log_tokens (db db1 : LyftDataset) (r : dict) :
  denormalize_samples db = Ok db1 -> r ∈ table_rows db "log" ->
  exists k, r !! "token" = Some (VStr k).
Proof.
  intros Hd Hr.
  pose proof (denormalize_samples_other _ _ "log" Hd log_not_sample_table) as Hlog.
  apply denormalize_samples_Ok in Hd as (_ & _ & _ & Hix).
  destruct (Hix "log") as (index & _ & Hrows).
  { apply (bool_decide_unpack _). vm_compute. exact I. }
  eapply index_rows_str; [exact Hrows|].
  unfold table_rows in *. by rewrite Hlog.
Qed.

Lemma link_logs_to_maps_rows (db : LyftDataset) (m0 : dict) (rest : list dict) :
  tables db !! "map" = Some (Rows (m0 :: rest)) ->
  link_logs_to_maps db
  = match m0 !! "log_tokens" with
    | None => Raise CompatibilityError
    | Some _ =>
        for_each map_log_tokens (m0 :: rest) ∅ ≫= fun log_to_map =>
        decorate_table db "log" (link_log log_to_map)
    end.
Proof. intros Hmap. unfold link_logs_to_maps, getattr. by rewrite Hmap. Qed.

(** C7 (as amended).  When some map record has no [log_tokens] field the
    reverse-index pass never completes; the failure is the compatibility
    exception when that record is the first of the map table and the
    sample part of the pass went through (the check reads the first map
    record only). *)
Theorem map_without_log_tokens_fails (db : LyftDataset) (m : dict) :
  m ∈ table_rows db "map" -> m !! "log_tokens" = None ->
  (exists e, __make_reverse_index__ db = Raise e) /\
  (forall db1 rest,
      denormalize_samples db = Ok db1 -> table_rows db "map" = m :: rest ->
      __make_reverse_index__ db = Raise CompatibilityError).
Proof.
  intros Hm Hlack. destruct (table_rows_elem _ _ _ Hm) as (l & Hmap & Hl).
  unfold __make_reverse_index__. split.
  - destruct (denormalize_samples db) as [db1|e] eqn:Hd; [|by exists e].
    pose proof (denormalize_samples_other _ _ _ Hd map_not_sample_table) as Hmap1.
    rewrite Hmap in Hmap1.
    destruct l as [|m0 l]; [by apply elem_of_nil in Hl|].
    change (exists e, link_logs_to_maps db1 = Raise e).
    rewrite (link_logs_to_maps_rows _ _ _ Hmap1).
    destruct (m0 !! "log_tokens"); [|eauto].
    destruct (for_each_fails map_log_tokens (m0 :: l) m ∅ Hl) as (e & He).
    + intros s. rewrite (map_log_tokens_lacking _ _ Hlack). eauto.
    + rewrite He. by exists e.
  - intros db1 rest Hd Hrows. rewrite Hd.
    pose proof (denormalize_samples_other _ _ _ Hd map_not_sample_table) as Hmap1.
    rewrite Hmap in Hmap1.
    unfold table_rows in Hrows. rewrite Hmap in Hrows. simpl in Hrows. subst l.
    change (link_logs_to_maps db1 = Raise CompatibilityError).
    by rewrite (link_logs_to_maps_rows _ _ _ Hmap1), Hlack.
Qed.

(** C10.  A log record whose token no map record lists makes the
    reverse-index pass fail; when the pass reaches the back-link loop (the
    sample part went through, the first map record has [log_tokens], and
    [log_to_map] was built) the failure is a [KeyError] on the token of an
    uncovered log record. *)
Theorem uncovered_log_fails (db : LyftDataset) (log_record : dict) :
  log_record ∈ table_rows db "log" -> ~ covered db log_record ->
  (forall db', __make_reverse_index__ db <> Ok db') /\
  (forall db1 m0 rest v log_to_map,
      denormalize_samples db = Ok db1 ->
      tables db !! "map" = Some (Rows (m0 :: rest)) ->
      m0 !! "log_tokens" = Some v ->
      for_each map_log_tokens (m0 :: rest) ∅ = Ok log_to_map ->
      exists r k, r ∈ table_rows db "log" /\ r !! "token" = Some (VStr k) /\
                  ~ covered db r /\
                  __make_reverse_index__ db = Raise (KeyError (VStr k))).
Proof.
  intros Hlog Hunc.
  assert (forall l log_to_map k r,
            tables db !! "map" = Some (Rows l) ->
            for_each map_log_tokens l ∅ = Ok log_to_map ->
            r !! "token" = Some (VStr k) ->
            is_Some (log_to_map !! k) <-> covered db r) as Hcov.
  { intros l ltm k r Hmap Hfor Hk. rewrite (log_to_map_lookup _ _ _ _ Hfor).
    unfold covered, table_rows. rewrite Hmap. simpl. split.
    - intros [[? Hempty]|(m & toks & Hm & Hl & Hin)].
      + by rewrite lookup_empty in Hempty.
      + by exists k, m, toks.
    - intros (k' & m & toks & Hk' & Hm & Hl & Hin). right.
      rewrite Hk in Hk'. injection Hk' as <-. by exists m, toks. }
  split.
  - intros db' Hmri. unfold __make_reverse_index__ in Hmri. inv_ok Hmri.
    pose proof (denormalize_samples_other _ _ _ E map_not_sample_table) as Hmap.
    pose proof (denormalize_samples_other _ _ _ E log_not_sample_table) as Hlogs.
    unfold link_logs_to_maps in Hmri. inv_ok Hmri.
    destruct (a1 !! "log_tokens"); [|discriminate]. inv_ok Hmri.
    apply decorate_table_rows in Hmri.
    unfold getattr in E0. rewrite Hmap in E0.
    destruct (tables db !! "map") as [t|] eqn:Ht; [|discriminate].
    injection E0 as <-. destruct t as [l|]; [|discriminate]. simpl in E2.
    assert (log_record ∈ table_rows a "log") as Hlog'.
    { unfold table_rows in *. by rewrite Hlogs. }
    destruct (mapM_link_log_Ok _ _ _ _ Hmri Hlog') as (k & Hk & Hsome).
    apply Hunc. by apply (Hcov l a2 k).
  - intros db1 m0 rest v ltm Hd Hmap Hv Hfor.
    pose proof (denormalize_samples_other _ _ _ Hd map_not_sample_table) as Hmap1.
    pose proof (denormalize_samples_other _ _ _ Hd log_not_sample_table) as Hlogs.
    destruct (mapM_link_log_Raise ltm (table_rows db "log"))
      as (r & k & Hr & Hk & Hnone & Hraise).
    + intros r Hr. by eapply denormalize_samples_log_tokens.
    + destruct (denormalize_samples_log_tokens _ _ _ Hd Hlog) as (k & Hk).
      exists log_record, k. split; [done|]. split; [done|].
      destruct (ltm !! k) eqn:Hl; [|done]. exfalso. apply Hunc.
      apply (Hcov _ ltm k _ Hmap Hfor Hk). by rewrite Hl.
    + exists r, k. split; [done|]. split; [done|]. split.
      * intros Hc. apply (Hcov _ ltm k _ Hmap Hfor Hk) in Hc.
        rewrite Hnone in Hc. by destruct Hc.
      * unfold __make_reverse_index__. rewrite Hd.
        change (link_logs_to_maps db1 = Raise (KeyError (VStr k))).
        rewrite Hmap in Hmap1.
        rewrite (link_logs_to_maps_rows _ _ _ Hmap1), Hv, Hfor.
        change (decorate_table db1 "log" (link_log ltm)
                = Raise (KeyError (VStr k))).
        unfold decorate_table, getattr. rewrite Hlogs.
        unfold table_rows in Hraise.
        destruct (tables db !! "log") as [t|]; simpl in *.
        -- by rewrite Hraise.
        -- discriminate.
Qed.

(** ** The key-frame links of the samples *)

Lemma elem_of_insert_inv {A} (l : list A) (i : nat) (x y : A) :
  y ∈ <[i := x]> l -> y = x \/ y ∈ l.
Proof.
  intros (j & Hj)%list_elem_of_lookup.
  apply list_lookup_insert_Some in Hj as [(_ & -> & _)|(_ & Hj)]; [by left|].
  right. by eapply list_elem_of_lookup_2.
Qed.

Lemma links_ok_init (sample_data rows0 rows1 : list dict) :
  mapM (fun r => Ok (init_sample r)) rows0 = Ok rows1 ->
  links_ok sample_data rows1.
Proof.
  intros Hm s (i & Hi)%list_elem_of_lookup.
  destruct (mapM_Ok_lookup_r _ _ _ _ _ Hm Hi) as (r & _ & [= <-]).
  exists ∅. split.
  - unfold init_sample. rewrite lookup_insert_ne by done.
    apply lookup_insert_eq.
  - intros channel tok Hl. by rewrite lookup_empty in Hl.
Qed.

(** Rewriting a sample without touching its [data] and [token] fields. *)
Lemma links_ok_insert_same (sample_data samples : list dict) (ind : nat)
    (s s' : dict) :
  links_ok sample_data samples -> samples !! ind = Some s ->
  s' !! "data" = s !! "data" -> s' !! "token" = s !! "token" ->
  links_ok sample_data (<[ind := s']> samples).
Proof.
  intros Hok Hs Hdata Htok s'' [->|Hin]%elem_of_insert_inv; [|by apply Hok].
  destruct (Hok s) as (d & Hd & Hlinks); [by eapply list_elem_of_lookup_2|].
  exists d. rewrite Hdata, Htok. done.
Qed.

(** Writing one key-frame link. *)
Lemma links_ok_insert_link (sample_data samples : list dict) (ind : nat)
    (s r : dict) (d : dict) (k : string) (tok kf : value) :
  links_ok sample_data samples -> samples !! ind = Some s ->
  s !! "data" = Some (VDict d) ->
  r ∈ sample_data -> r !! "token" = Some tok ->
  r !! "is_key_frame" = Some kf -> truthy kf = true ->
  r !! "sample_token" = s !! "token" ->
  links_ok sample_data
    (<[ind := <["data" := VDict (<[k := tok]> d)]> s]> samples).
Proof.
  intros Hok Hs Hd Hr Htok Hkf Htrue Hsample s'' [->|Hin]%elem_of_insert_inv;
    [|by apply Hok].
  exists (<[k := tok]> d). split; [by rewrite lookup_insert_eq|].
  intros channel tok' Hl.
  assert (<["data" := VDict (<[k := tok]> d)]> s !! "token" = s !! "token")
    as -> by by apply lookup_insert_ne.
  rewrite lookup_insert in Hl. case_decide as Heq.
  - injection Hl as <-. by exists r, kf.
  - destruct (Hok s) as (d' & Hd' & Hlinks); [by eapply list_elem_of_lookup_2|].
    rewrite Hd in Hd'. injection Hd' as <-. by eapply Hlinks.
Qed.

Lemma sample_is_table : "sample" ∈ table_names.
Proof. apply (bool_decide_unpack _). vm_compute. exact I. Qed.

Lemma link_sample_data_links (sample_data : list dict) (db db' : LyftDataset)
    (r : dict) :
  r ∈ sample_data -> indexed db ->
  links_ok sample_data (table_rows db "sample") ->
  link_sample_data db r = Ok db' ->
  links_ok sample_data (table_rows db' "sample").
Proof.
  intros Hr Hix Hok
    [(kf & _ & _ & ->)|(kf & stok & s & ind & tok & d & k & Hl)]%link_sample_data_Ok;
    [done|].
  destruct Hl as (Hkf & Htrue & Hstok & Hind & Hs & Htok & Hd & _ & ->).
  rewrite table_rows_update_row.
  eapply links_ok_insert_link; try done.
  destruct (indexed_getind _ _ _ _ Hix sample_is_table Hind) as (s' & Hs' & Hst).
  rewrite Hs in Hs'. injection Hs' as <-. congruence.
Qed.

Lemma link_annotation_links (sample_data : list dict) (db db' : LyftDataset)
    (r : dict) :
  links_ok sample_data (table_rows db "sample") ->
  link_annotation db r = Ok db' ->
  links_ok sample_data (table_rows db' "sample").
Proof.
  intros Hok (stok & s & ind & tok & l & _ & _ & Hs & _ & _ & ->)%link_annotation_Ok.
  rewrite table_rows_update_row.
  eapply links_ok_insert_same; [done | done | |]; by apply lookup_insert_ne.
Qed.

Lemma sample_data_not_touched (db db' : LyftDataset) :
  frame ["sample"] db db' ->
  table_rows db' "sample_data" = table_rows db "sample_data".
Proof.
  intros (_ & _ & Hframe). apply same_table_rows, Hframe.
  apply (bool_decide_unpack _). vm_compute. exact I.
Qed.

Lemma denormalize_samples_links (db db' : LyftDataset) :
  denormalize_samples db = Ok db' -> data_links_ok db'.
Proof.
  unfold denormalize_samples, data_links_ok. intros Hd. inv_ok Hd.
  destruct (build_token2ind_Ok _ _ E) as [Hix _].
  assert (indexed a2) as Hix2.
  { eapply indexed_frame; [|eapply frame_decorate_table; [|exact E2]].
    - eapply indexed_frame; [|eapply frame_decorate_table; [|exact E1]].
      + eapply indexed_frame; [done|eapply frame_decorate_table; [|exact E0]].
        intros r r'. by apply decorate_annotation_field.
      + intros r r'. by apply decorate_sample_data_field.
    - intros r r' [= <-]. by apply init_sample_field. }
  set (L := table_rows a2 "sample_data") in *.
  assert (frame ["sample"] a2 a3) as Hf3.
  { eapply frame_for_each; [|exact E3]. intros ? ? ?. apply frame_link_sample_data. }
  assert (frame ["sample"] a3 db') as Hf4.
  { eapply frame_for_each; [|exact Hd]. intros ? ? ?. apply frame_link_annotation. }
  rewrite (sample_data_not_touched _ _ Hf4), (sample_data_not_touched _ _ Hf3).
  fold L.
  eapply (for_each_invariant
            (fun db => links_ok L (table_rows db "sample"))); [| |exact Hd].
  - intros s x s' _ Hs Hx. by eapply link_annotation_links.
  - eapply (for_each_invariant
              (fun db => indexed db /\ links_ok L (table_rows db "sample")));
      [| |exact E3].
    + intros s x s' Hx [Hixs Hs] Hstep. split.
      * eapply indexed_frame; [done|]. by eapply frame_link_sample_data.
      * by eapply link_sample_data_links.
    + split; [done|]. eapply links_ok_init. by apply decorate_table_rows in E2.
Qed.

Lemma make_reverse_index_links (db db' : LyftDataset) :
  __make_reverse_index__ db = Ok db' -> data_links_ok db'.
Proof.
  unfold __make_reverse_index__. intros Hm. inv_ok Hm.
  pose proof (denormalize_samples_links _ _ E) as Hlinks.
  destruct (frame_link_logs_to_maps _ _ Hm) as (_ & _ & Hframe).
  unfold data_links_ok.
  rewrite (same_table_rows a db' "sample_data"), (same_table_rows a db' "sample");
    [done| |]; apply Hframe; apply (bool_decide_unpack _); vm_compute; exact I.
Qed.

Section Loaded.
Context `{ext : Externals}.

(** C8.  After the store has been loaded, every token held by the [data]
    dictionary of a sample is the token of a sample_data record that is a
    key frame and whose [sample_token] is the token of that sample; when the
    tokens of the sample_data table are pairwise distinct, [get] returns
    that record for the token.  Nothing is assumed about the channels: two
    key frames of one sample may share a channel. *)
Theorem sample_data_links (fs : file_system) (data_dir json_dir : string)
    (resolution : Q) (missing_ok : bool) (db : LyftDataset) (s : dict) :
  __init__ fs data_dir json_dir resolution missing_ok = Ok db ->
  s ∈ table_rows db "sample" ->
  exists d, s !! "data" = Some (VDict d) /\
    forall channel tok, d !! channel = Some tok ->
      exists r kf, r ∈ table_rows db "sample_data" /\
                   r !! "token" = Some tok /\
                   r !! "is_key_frame" = Some kf /\ truthy kf = true /\
                   r !! "sample_token" = s !! "token" /\
                   (NoDup (tokens_of (table_rows db "sample_data")) ->
                    get db "sample_data" tok = Ok r).
Proof.
  intros (db0 & Hdb)%init_Ok Hs.
  destruct (make_reverse_index_links _ _ Hdb s Hs) as (d & Hd & Hlinks).
  exists d. split; [done|]. intros channel tok Hl.
  destruct (Hlinks _ _ Hl) as (r & kf & Hr & Htok & Hkf & Htrue & Hst).
  exists r, kf. repeat split; try done. intros Hnd.
  apply list_elem_of_lookup in Hr as (i & Hi).
  destruct (indexed_get db "sample_data" i r) as (tok' & Htok' & Hget);
    try done.
  - by eapply make_reverse_index_indexed.
  - apply (bool_decide_unpack _). vm_compute. exact I.
  - congruence.
Qed.

End Loaded.

(** ** Clamping of the capture time *)

Lemma Qltb_true (a b : Q) : Qltb a b = true <-> (a < b)%Q.
Proof.
  unfold Qltb. rewrite negb_true_iff. split.
  - intros Hle. apply Qnot_le_lt. intros Hba.
    apply Qle_bool_iff in Hba. congruence.
  - intros Hlt. destruct (Qle_bool b a) eqn:Hle; [|done].
    apply Qle_bool_iff in Hle. by apply Qlt_not_le in Hlt.
Qed.

Lemma Qltb_false (a b : Q) : Qltb a b = false <-> (b <= a)%Q.
Proof.
  unfold Qltb. rewrite negb_false_iff. apply Qle_bool_iff.
Qed.

(** A capture time at or below the earlier end is moved to that end. *)
Lemma clamp_low (t0 t1 t : Q) :
  (t0 < t1)%Q -> (t <= t0)%Q -> py_max t0 (py_min t1 t) = t0.
Proof.
  intros H01 Ht. unfold py_min.
  assert (Qltb t t1 = true) as -> by (apply Qltb_true; lra).
  unfold py_max. by assert (Qltb t0 t = false) as -> by by apply Qltb_false.
Qed.

(** A capture time at or above the later end is moved to that end. *)
Lemma clamp_high (t0 t1 t : Q) :
  (t0 < t1)%Q -> (t1 <= t)%Q -> py_max t0 (py_min t1 t) = t1.
Proof.
  intros H01 Ht. unfold py_min.
  assert (Qltb t t1 = false) as -> by by apply Qltb_false.
  unfold py_max. by assert (Qltb t0 t1 = true) as -> by by apply Qltb_true.
Qed.

(** The clamped time always lies between the two ends. *)
Lemma clamp_between (t0 t1 t : Q) :
  (t0 <= t1)%Q ->
  (t0 <= py_max t0 (py_min t1 t))%Q /\ (py_max t0 (py_min t1 t) <= t1)%Q.
Proof.
  intros H01. unfold py_max, py_min.
  destruct (Qltb t t1) eqn:H1; [apply Qltb_true in H1|apply Qltb_false in H1].
  - destruct (Qltb t0 t) eqn:H0; [apply Qltb_true in H0|apply Qltb_false in H0];
      lra.
  - destruct (Qltb t0 t1) eqn:H0; [apply Qltb_true in H0|apply Qltb_false in H0];
      lra.
Qed.

Lemma truediv_low (t0 t1 : Q) :
  (t0 < t1)%Q ->
  exists amount, py_truediv (t0 - t0) (t1 - t0) = Ok amount /\ (amount == 0)%Q.
Proof.
  intros H01. unfold py_truediv.
  destruct (Qeq_bool (t1 - t0) 0) eqn:Hz.
  - apply Qeq_bool_iff in Hz. lra.
  - eexists. split; [done|]. unfold Qdiv. ring.
Qed.

Lemma truediv_high (t0 t1 : Q) :
  (t0 < t1)%Q ->
  exists amount, py_truediv (t1 - t0) (t1 - t0) = Ok amount /\ (amount == 1)%Q.
Proof.
  intros H01. unfold py_truediv.
  destruct (Qeq_bool (t1 - t0) 0) eqn:Hz.
  - apply Qeq_bool_iff in Hz. lra.
  - eexists. split; [done|]. field. lra.
Qed.

(** Equal key-frame times leave no interval to divide by. *)
Lemma truediv_degenerate (t0 t1 a : Q) :
  (t1 == t0)%Q -> py_truediv a (t1 - t0) = Raise ZeroDivisionError.
Proof.
  intros H01. unfold py_truediv.
  destruct (Qeq_bool (t1 - t0) 0) eqn:Hz; [done|].
  apply Qeq_bool_neq in Hz. lra.
Qed.

(** ** Boxes of a capture *)

Section Boxes.
Context `{ext : Externals}.

Lemma get_box_Ok (db : LyftDataset) (tok : value) (b : Box) :
  get_box db tok = Ok b ->
  exists record,
    get db "sample_annotation" tok = Ok record /\
    record !! "translation" = Some (center b) /\
    record !! "size" = Some (wlh b) /\
    record !! "rotation" = Some (orientation b) /\
    record !! "category_name" = Some (name b) /\
    record !! "token" = Some (token b).
Proof.
  unfold get_box. intros Hb. inv_ok Hb. simpl_ok. exists a. by repeat split.
Qed.

(** C4.  For a capture that is a key frame, or whose sample has no previous
    sample, [get_boxes] is the list of boxes made from the annotations of
    the sample itself, in the order of its [anns] list: each box carries the
    translation, size, rotation, category name and token of its annotation
    record as they are stored. *)
Theorem get_boxes_keyframe (db : LyftDataset) (sample_data_token : value)
    (sd_record curr_sample_record : dict) (sample_tok prev : value)
    (anns : list value) :
  get db "sample_data" sample_data_token = Ok sd_record ->
  sd_record !! "sample_token" = Some sample_tok ->
  get db "sample" sample_tok = Ok curr_sample_record ->
  curr_sample_record !! "prev" = Some prev ->
  prev = VStr "" \/
    (exists kf, sd_record !! "is_key_frame" = Some kf /\ truthy kf = true) ->
  curr_sample_record !! "anns" = Some (VList anns) ->
  get_boxes db sample_data_token = mapM (get_box db) anns /\
  forall boxes, get_boxes db sample_data_token = Ok boxes ->
    Forall2 (fun tok b =>
               exists record,
                 get db "sample_annotation" tok = Ok record /\
                 record !! "translation" = Some (center b) /\
                 record !! "size" = Some (wlh b) /\
                 record !! "rotation" = Some (orientation b) /\
                 record !! "category_name" = Some (name b) /\
                 record !! "token" = Some (token b))
            anns boxes.
Proof.
  intros Hsd Hstok Hcurr Hprev Hkey Hanns.
  assert (get_boxes db sample_data_token = mapM (get_box db) anns) as Heq.
  { unfold get_boxes. run Hsd. run_item Hstok. run Hcurr. run_item Hprev.
    assert ((if str_eq prev "" then Ok true
             else sd_record !!!! "is_key_frame" ≫= fun kf => Ok (truthy kf))
            = Ok true) as ->.
    { destruct Hkey as [->|(kf & Hkf & Htrue)]; [done|].
      destruct (str_eq prev ""); [done|]. run_item Hkf. by rewrite Htrue. }
    rewrite bind_Ok. run_item Hanns. done. }
  split; [done|]. intros boxes Hboxes. rewrite Heq in Hboxes.
  apply mapM_Ok_Forall2 in Hboxes.
  eapply Forall2_impl; [exact Hboxes|]. intros tok b. apply get_box_Ok.
Qed.

Lemma get_boxes_between (db : LyftDataset) (sample_data_token : value)
    (t0 t1 t : Q) (curr_ann_recs : list dict)
    (prev_inst_map : gmap string dict) :
  intermediate_capture db sample_data_token t0 t1 t curr_ann_recs prev_inst_map ->
  get_boxes db sample_data_token
  = mapM (box_at db t0 t1 (py_max t0 (py_min t1 t)) prev_inst_map) curr_ann_recs.
Proof.
  intros (sd & stok & S & prev & kf & P & ctoks & ptoks & precs & Hsd & Hstok
          & HS & Hprev & Hstr & Hkf & Hfalse & HP & Hca & Hcr & Hpa & Hpr & Hm
          & Ht0 & Ht1 & Ht).
  unfold get_boxes. run Hsd. run_item Hstok. run HS. run_item Hprev.
  rewrite Hstr. cbv beta iota. run_item Hkf. rewrite Hfalse. cbv beta iota.
  run HP. run_item Hca. run as_list_VList. run Hcr.
  run_item Hpa. run as_list_VList. run Hpr. run Hm.
  run_item Ht0. run_item Ht1. run_item Ht. by rewrite !as_num_VNum, !bind_Ok.
Qed.

Lemma box_at_Ok (db : LyftDataset) (t0 t1 t : Q)
    (prev_inst_map : gmap string dict) (curr prev : dict) (inst : string) :
  curr !! "instance_token" = Some (VStr inst) ->
  prev_inst_map !! inst = Some prev ->
  box_at db t0 t1 t prev_inst_map curr = interpolate_box t0 t1 t prev curr.
Proof.
  intros Hinst Hprev. unfold box_at. run_item Hinst.
  unfold lookup_inst. rewrite bind_Ok. by rewrite Hprev.
Qed.

(** With equal sample times the interpolation of a tracked instance stops
    at the division, whatever the capture time. *)
Lemma interpolate_box_degenerate (t0 t1 t : Q) (prev curr : dict)
    (xs0 xs1 : list Q) (r0 r1 : value) :
  (t1 == t0)%Q ->
  prev !! "translation" = Some (VNums xs0) ->
  curr !! "translation" = Some (VNums xs1) ->
  prev !! "rotation" = Some r0 -> curr !! "rotation" = Some r1 ->
  interpolate_box t0 t1 t prev curr = Raise ZeroDivisionError.
Proof.
  intros H01 Hx0 Hx1 Hr0 Hr1. unfold interpolate_box.
  run_item Hx0. run_item Hx1. unfold VNums. rewrite !as_list_VList, !bind_Ok.
  assert (exists center, interp_center t t0 t1 (VNum <$> xs0) (VNum <$> xs1)
                         = Ok center) as (center & ->).
  { clear. revert xs1. induction xs0 as [|x0 xs0 IH]; intros [|x1 xs1];
      try (eexists; reflexivity).
    destruct (IH xs1) as (center & Hc). rewrite !fmap_cons. simpl.
    rewrite Hc. eexists. reflexivity. }
  rewrite bind_Ok. run_item Hr0. run_item Hr1.
  by rewrite truediv_degenerate.
Qed.

(** With equal sample times [get_boxes] stops at the first annotation when
    its instance is annotated in the previous sample too. *)
Lemma get_boxes_degenerate (db : LyftDataset) (sample_data_token : value)
    (t0 t1 t : Q) (curr : dict) (rest : list dict)
    (prev_inst_map : gmap string dict) (prev : dict) (inst : string)
    (xs0 xs1 : list Q) (r0 r1 : value) :
  intermediate_capture db sample_data_token t0 t1 t (curr :: rest)
    prev_inst_map ->
  (t1 == t0)%Q ->
  curr !! "instance_token" = Some (VStr inst) ->
  prev_inst_map !! inst = Some prev ->
  prev !! "translation" = Some (VNums xs0) ->
  curr !! "translation" = Some (VNums xs1) ->
  prev !! "rotation" = Some r0 -> curr !! "rotation" = Some r1 ->
  get_boxes db sample_data_token = Raise ZeroDivisionError.
Proof.
  intros Hcap H01 Hinst Hprev Hx0 Hx1 Hr0 Hr1.
  rewrite (get_boxes_between _ _ _ _ _ _ _ Hcap), mapM_cons_result.
  rewrite (box_at_Ok _ _ _ _ _ _ _ _ Hinst Hprev).
  by rewrite (interpolate_box_degenerate _ _ _ _ _ _ _ _ _ H01 Hx0 Hx1 Hr0 Hr1).
Qed.

Section Contracts.

(** What numpy's interpolation returns at the two ends of an increasing
    interval: the value given for that end. *)
Hypothesis np_interp_left : forall t0 t1 c0 c1 : Q,
  (t0 < t1)%Q -> np_interp t0 t0 t1 c0 c1 = c0.
Hypothesis np_interp_right : forall t0 t1 c0 c1 : Q,
  (t0 < t1)%Q -> np_interp t1 t0 t1 c0 c1 = c1.

Lemma interp_center_low (t0 t1 : Q) (xs0 xs1 : list Q) :
  (t0 < t1)%Q -> length xs0 = length xs1 ->
  interp_center t0 t0 t1 (VNum <$> xs0) (VNum <$> xs1) = Ok (VNum <$> xs0).
Proof.
  intros H01. revert xs1. induction xs0 as [|x0 xs0 IH]; intros [|x1 xs1] Hlen;
    try discriminate; [done|].
  rewrite !fmap_cons. simpl. rewrite IH by (simpl in Hlen; lia). simpl.
  by rewrite np_interp_left.
Qed.

Lemma interp_center_high (t0 t1 : Q) (xs0 xs1 : list Q) :
  (t0 < t1)%Q -> length xs0 = length xs1 ->
  interp_center t1 t0 t1 (VNum <$> xs0) (VNum <$> xs1) = Ok (VNum <$> xs1).
Proof.
  intros H01. revert xs1. induction xs0 as [|x0 xs0 IH]; intros [|x1 xs1] Hlen;
    try discriminate; [done|].
  rewrite !fmap_cons. simpl. rewrite IH by (simpl in Hlen; lia). simpl.
  by rewrite np_interp_right.
Qed.

(** C2 (as amended).  Let D be a capture that is not a key frame, between
    the previous sample P (time [t0]) and its own sample S (time [t1]), with
    [t0 < t1], and let the [i]-th annotation of S be of an instance that P
    annotates too.  The interpolation parameter is clamped to the interval:
    when the capture time is at or below [t0], the [i]-th box of
    [get_boxes] has exactly the translation of the annotation in P, and its
    rotation is the slerp of the two rotations at a parameter equal to 0;
    when the capture time is at or above [t1], it has exactly the
    translation of the annotation in S, and its rotation is the slerp at a
    parameter equal to 1.  What the slerp returns there is the library's
    business. *)
Theorem get_boxes_clamped (db : LyftDataset) (sample_data_token : value)
    (t0 t1 t : Q) (curr_ann_recs : list dict)
    (prev_inst_map : gmap string dict) (i : nat) (curr prev : dict)
    (inst : string) (xs0 xs1 : list Q) (r0 r1 : value) (boxes : list Box) :
  intermediate_capture db sample_data_token t0 t1 t curr_ann_recs prev_inst_map ->
  (t0 < t1)%Q ->
  curr_ann_recs !! i = Some curr ->
  curr !! "instance_token" = Some (VStr inst) ->
  prev_inst_map !! inst = Some prev ->
  prev !! "translation" = Some (VNums xs0) ->
  curr !! "translation" = Some (VNums xs1) ->
  length xs0 = length xs1 ->
  prev !! "rotation" = Some r0 ->
  curr !! "rotation" = Some r1 ->
  get_boxes db sample_data_token = Ok boxes ->
  exists b, boxes !! i = Some b /\
    ((t <= t0)%Q ->
     center b = VNums xs0 /\
     exists amount, (amount == 0)%Q /\
       orientation b = slerp (Quaternion r0) (Quaternion r1) amount) /\
    ((t1 <= t)%Q ->
     center b = VNums xs1 /\
     exists amount, (amount == 1)%Q /\
       orientation b = slerp (Quaternion r0) (Quaternion r1) amount).
Proof.
  intros Hcap H01 Hi Hinst Hprev Hx0 Hx1 Hlen Hr0 Hr1 Hboxes.
  rewrite (get_boxes_between _ _ _ _ _ _ _ Hcap) in Hboxes.
  destruct (mapM_Ok_lookup _ _ _ _ _ Hboxes Hi) as (b & Hb & Hbox).
  exists b. split; [done|].
  rewrite (box_at_Ok _ _ _ _ _ _ _ _ Hinst Hprev) in Hbox.
  unfold interpolate_box in Hbox.
  rewrite (getitem_Some _ _ _ Hx0), (getitem_Some _ _ _ Hx1) in Hbox.
  rewrite (getitem_Some _ _ _ Hr0), (getitem_Some _ _ _ Hr1) in Hbox.
  unfold VNums in Hbox. rewrite !bind_Ok, !as_list_VList, !bind_Ok in Hbox.
  split.
  - intros Ht. rewrite (clamp_low _ _ _ H01 Ht) in Hbox.
    rewrite (interp_center_low _ _ _ _ H01 Hlen), !bind_Ok in Hbox.
    destruct (truediv_low _ _ H01) as (amount & Hdiv & Hzero).
    rewrite Hdiv, bind_Ok in Hbox. inv_ok Hbox. injection Hbox as <-. simpl.
    split; [done|]. by exists amount.
  - intros Ht. rewrite (clamp_high _ _ _ H01 Ht) in Hbox.
    rewrite (interp_center_high _ _ _ _ H01 Hlen), !bind_Ok in Hbox.
    destruct (truediv_high _ _ H01) as (amount & Hdiv & Hone).
    rewrite Hdiv, bind_Ok in Hbox. inv_ok Hbox. injection Hbox as <-. simpl.
    split; [done|]. by exists amount.
Qed.

End Contracts.

End Boxes.

(** ** Boxes in the frame of a sensor *)

Section SensorFrame.
Context `{ext : Externals}.

Lemma keep_box_Ok (flat : bool) (pose_record cs_record : dict)
    (is_camera : bool) (cam_intrinsic : value) (imsize : value * value)
    (box_vis_level : value) (box_list : list Box) (box b : Box) :
  to_sensor_frame flat pose_record cs_record box = Ok b ->
  keep_box flat pose_record cs_record is_camera cam_intrinsic imsize
    box_vis_level box_list box
  = Ok (if negb is_camera || box_in_image b cam_intrinsic imsize box_vis_level
        then box_list ++ [b] else box_list)%list.
Proof.
  intros Hb. unfold keep_box. run Hb.
  by destruct is_camera, (box_in_image b cam_intrinsic imsize box_vis_level).
Qed.

(** The loop that fills [box_list] keeps, in order, the moved boxes that
    are not rejected by the camera test. *)
Lemma keep_box_loop (flat : bool) (pose_record cs_record : dict)
    (is_camera : bool) (cam_intrinsic : value) (imsize : value * value)
    (box_vis_level : value) (boxes moved box_list : list Box) :
  mapM (to_sensor_frame flat pose_record cs_record) boxes = Ok moved ->
  for_each (keep_box flat pose_record cs_record is_camera cam_intrinsic imsize
              box_vis_level) boxes box_list
  = Ok (box_list ++
        List.filter (fun b => negb is_camera
                              || box_in_image b cam_intrinsic imsize box_vis_level)
          moved)%list.
Proof.
  revert moved box_list. induction boxes as [|box boxes IH];
    intros moved box_list Hm.
  - injection Hm as <-. simpl. by rewrite app_nil_r.
  - rewrite mapM_cons_result in Hm. inv_ok Hm. injection Hm as <-.
    rewrite for_each_cons, (keep_box_Ok _ _ _ _ _ _ _ _ _ _ E), bind_Ok.
    rewrite (IH _ _ E0). cbn [List.filter].
    destruct (negb is_camera
              || box_in_image a cam_intrinsic imsize box_vis_level); [|done].
    by rewrite <- app_assoc.
Qed.

Lemma filter_true {A} (l : list A) : List.filter (fun _ => true) l = l.
Proof. induction l as [|x l IH]; simpl; congruence. Qed.

(** C6.  [get_sample_data] moves every resolved box to the frame of the
    sensor.  For a sensor that is not a camera all of them are returned, in
    order, and the intrinsic matrix is [None]; for a camera the boxes
    returned are exactly those that pass [box_in_image] against the camera
    intrinsic, the image size and the requested visibility level. *)
Theorem get_sample_data_boxes (db : LyftDataset) (sample_data_token : value)
    (box_vis_level : value) (selected_anntokens : option (list value))
    (flat : bool) (sd_record cs_record sensor_record pose_record : dict)
    (path : string) (modality : value) (boxes moved : list Box) :
  capture_records db sample_data_token sd_record cs_record sensor_record
    pose_record ->
  get_sample_data_path db sample_data_token = Ok path ->
  sensor_record !! "modality" = Some modality ->
  match selected_anntokens with
  | Some toks => mapM (get_box db) toks
  | None => get_boxes db sample_data_token
  end = Ok boxes ->
  mapM (to_sensor_frame flat pose_record cs_record) boxes = Ok moved ->
  (str_eq modality "camera" = false ->
   get_sample_data db sample_data_token box_vis_level selected_anntokens flat
   = Ok (path, moved, VNone)) /\
  (str_eq modality "camera" = true ->
   forall intrinsic width height,
     cs_record !! "camera_intrinsic" = Some intrinsic ->
     sd_record !! "width" = Some width ->
     sd_record !! "height" = Some height ->
     get_sample_data db sample_data_token box_vis_level selected_anntokens flat
     = Ok (path,
           List.filter (fun b => box_in_image b (np_array intrinsic)
                                   (width, height) box_vis_level) moved,
           np_array intrinsic)).
Proof.
  intros (cs_tok & sensor_tok & pose_tok & Hsd & Hcs_tok & Hcs & Hsen_tok
          & Hsen & Hpose_tok & Hpose) Hpath Hmod Hboxes Hmoved.
  assert (forall k,
    get_sample_data db sample_data_token box_vis_level selected_anntokens flat
    = ((if str_eq modality "camera"
        then cs_record !!!! "camera_intrinsic" ≫= fun intrinsic =>
             sd_record !!!! "width" ≫= fun width =>
             sd_record !!!! "height" ≫= fun height =>
             Ok (np_array intrinsic, (width, height))
        else Ok (VNone, (VNone, VNone))) ≫= k) ->
    forall cam_intrinsic imsize,
      (if str_eq modality "camera"
        then cs_record !!!! "camera_intrinsic" ≫= fun intrinsic =>
             sd_record !!!! "width" ≫= fun width =>
             sd_record !!!! "height" ≫= fun height =>
             Ok (np_array intrinsic, (width, height))
        else Ok (VNone, (VNone, VNone))) = Ok (cam_intrinsic, imsize) ->
      get_sample_data db sample_data_token box_vis_level selected_anntokens flat
      = k (cam_intrinsic, imsize)) as Hstep.
  { intros k -> ci im ->. done. }
  assert (exists k,
    get_sample_data db sample_data_token box_vis_level selected_anntokens flat
    = ((if str_eq modality "camera"
        then cs_record !!!! "camera_intrinsic" ≫= fun intrinsic =>
             sd_record !!!! "width" ≫= fun width =>
             sd_record !!!! "height" ≫= fun height =>
             Ok (np_array intrinsic, (width, height))
        else Ok (VNone, (VNone, VNone))) ≫= k) /\
    forall cam_intrinsic imsize,
      k (cam_intrinsic, imsize)
      = Ok (path,
            List.filter
              (fun b => negb (str_eq modality "camera")
                        || box_in_image b cam_intrinsic imsize box_vis_level)
              moved,
            cam_intrinsic)) as (k & Hk & Hrun).
  { eexists. split.
    - unfold get_sample_data. run Hsd. run_item Hcs_tok. run Hcs.
      run_item Hsen_tok. run Hsen. run_item Hpose_tok. run Hpose. run Hpath.
      run_item Hmod. reflexivity.
    - intros ci im. cbv beta iota. rewrite Hboxes, bind_Ok.
      by rewrite (keep_box_loop _ _ _ _ _ _ _ _ _ _ Hmoved), bind_Ok. }
  split.
  - intros Hcam. rewrite (Hstep _ Hk VNone (VNone, VNone)) by by rewrite Hcam.
    rewrite Hrun, Hcam. simpl. by rewrite filter_true.
  - intros Hcam intrinsic width height Hint Hw Hh.
    rewrite (Hstep _ Hk (np_array intrinsic) (width, height)).
    + by rewrite Hrun, Hcam.
    + rewrite Hcam. run_item Hint. run_item Hw. run_item Hh. reflexivity.
Qed.

End SensorFrame.

(** ** Velocity of an annotated box *)

Section VelocityCases.
Context `{ext : Externals} `{ops : Operators}.



End VelocityCases.

(** * The properties on the small dataset *)

Lemma unwrap_Ok {A} (d : A) (r : result A) :
  is_okb r = true -> r = Ok (unwrap d r).
Proof. by destruct r. Qed.

Lemma default_Some {A} (d : A) (o : option A) :
  is_someb o = true -> o = Some (default d o).
Proof. by destruct o. Qed.

Lemma singleton_default {A} (d : A) (l : list A) :
  length l = 1 -> l = [default d (l !! 0)].
Proof. by destruct l as [|x [|y l]]. Qed.

(** Closed goals decided by running the model: the outcome of a
    computation that ends normally, and an equation between small values. *)
Ltac run_ok := apply unwrap_Ok; vm_compute; reflexivity.
Ltac run_eq := vm_compute; reflexivity.

Ltac distinct_tokens :=
  vm_compute;
  repeat (apply NoDup_cons; split;
    [intros Hin;
     repeat (apply elem_of_cons in Hin as [Hin|Hin]; [discriminate Hin|]);
     by apply elem_of_nil in Hin|]);
  by apply NoDup_nil.

(** ** The exact instance meets the contracts of numpy's interpolation *)

Lemma Exact_interp_left (t0 t1 c0 c1 : Q) :
  (t0 < t1)%Q -> Exact.interp t0 t0 t1 c0 c1 = c0.
Proof.
  intros H01. unfold Exact.interp.
  assert (Qltb t1 t0 = false) as -> by (apply Qltb_false; lra).
  assert (Qltb t0 t0 = false) as -> by (apply Qltb_false; lra).
  assert (Qle_bool t1 t0 = false) as ->.
  { apply Qltb_true in H01. unfold Qltb in H01. by apply negb_true_iff in H01. }
  assert (Qeq_bool t0 t0 = true) as -> by (apply Qeq_bool_iff; lra). done.
Qed.

Lemma Exact_interp_right (t0 t1 c0 c1 : Q) :
  (t0 < t1)%Q -> Exact.interp t1 t0 t1 c0 c1 = c1.
Proof.
  intros H01. unfold Exact.interp.
  assert (Qltb t1 t1 = false) as -> by (apply Qltb_false; lra).
  assert (Qltb t1 t0 = false) as -> by (apply Qltb_false; lra).
  assert (Qle_bool t1 t1 = true) as -> by (apply Qle_bool_iff; lra). done.
Qed.

(** ** The store and its index *)

Lemma Demo_load_store :
  __init__ (ext := Exact.externals) (Demo.files 1000000 2000000 Demo.map)
    "data" "json" (1 # 10) false = Ok Demo.store.
Proof. apply unwrap_Ok. vm_compute. reflexivity. Qed.

Lemma Demo_sample_tokens :
  NoDup (tokens_of (table_rows Demo.store "sample")).
Proof. distinct_tokens. Qed.

Lemma Demo_row_lookup (d : LyftDataset) (table_name : string) (i : nat) :
  is_someb (table_rows d table_name !! i) = true ->
  table_rows d table_name !! i = Some (Demo.row d table_name i).
Proof. apply default_Some. Qed.

Lemma Demo_row_elem (d : LyftDataset) (table_name : string) (i : nat) :
  is_someb (table_rows d table_name !! i) = true ->
  Demo.row d table_name i ∈ table_rows d table_name.
Proof. intros Hi. eapply list_elem_of_lookup_2. by apply Demo_row_lookup. Qed.

Lemma get_token_roundtrip_witness :
  exists tok,
    Demo.row Demo.store "sample" 1 !! "token" = Some tok /\
    get Demo.store "sample" tok = Ok (Demo.row Demo.store "sample" 1).
Proof.
  apply (get_token_roundtrip (ext := Exact.externals)
           (Demo.files 1000000 2000000 Demo.map) "data" "json" (1 # 10) false
           Demo.store "sample" 1).
  - exact Demo_load_store.
  - apply (bool_decide_unpack _). vm_compute. exact I.
  - exact Demo_sample_tokens.
  - apply Demo_row_lookup. vm_compute. reflexivity.
Defined.

Lemma sample_data_links_witness :
  exists d, Demo.row Demo.store "sample" 1 !! "data" = Some (VDict d) /\
    forall channel tok, d !! channel = Some tok ->
      exists r kf, r ∈ table_rows Demo.store "sample_data" /\
                   r !! "token" = Some tok /\
                   r !! "is_key_frame" = Some kf /\ truthy kf = true /\
                   r !! "sample_token"
                   = Demo.row Demo.store "sample" 1 !! "token" /\
                   (NoDup (tokens_of (table_rows Demo.store "sample_data")) ->
                    get Demo.store "sample_data" tok = Ok r).
Proof.
  apply (sample_data_links (ext := Exact.externals)
           (Demo.files 1000000 2000000 Demo.map) "data" "json" (1 # 10) false).
  - exact Demo_load_store.
  - apply Demo_row_elem. vm_compute. reflexivity.
Defined.

(** ** The log and map block on broken map tables *)

Lemma Demo_raw_map_rows (maps : list dict) :
  length (table_rows (Demo.raw maps) "map") = 1 ->
  table_rows (Demo.raw maps) "map" = [Demo.row (Demo.raw maps) "map" 0].
Proof. apply singleton_default. Qed.

Lemma map_without_log_tokens_fails_witness :
  __make_reverse_index__ (Demo.raw Demo.legacy_maps) = Raise CompatibilityError.
Proof.
  destruct (map_without_log_tokens_fails (Demo.raw Demo.legacy_maps)
              (Demo.row (Demo.raw Demo.legacy_maps) "map" 0)) as [_ Hfirst].
  - apply Demo_row_elem. vm_compute. reflexivity.
  - vm_compute. reflexivity.
  - apply (Hfirst (unwrap Demo.no_tables
                     (denormalize_samples (Demo.raw Demo.legacy_maps))) []).
    + apply unwrap_Ok. vm_compute. reflexivity.
    + apply Demo_raw_map_rows. vm_compute. reflexivity.
Defined.

(** The second map record lacks [log_tokens], the first has it: the pass
    fails on the missing key while it builds [log_to_map], not with the
    compatibility exception. *)
Lemma first_map_record_only_checked :
  (exists m, m ∈ table_rows (Demo.raw Demo.mixed_maps) "map" /\
             m !! "log_tokens" = None) /\
  Demo.load 1000000 2000000 Demo.mixed_maps
  = Raise (KeyError (VStr "log_tokens")) /\
  Demo.load 1000000 2000000 Demo.mixed_maps <> Raise CompatibilityError.
Proof.
  split.
  - exists (Demo.row (Demo.raw Demo.mixed_maps) "map" 1). split.
    + apply Demo_row_elem. vm_compute. reflexivity.
    + vm_compute. reflexivity.
  - assert (Demo.load 1000000 2000000 Demo.mixed_maps
            = Raise (KeyError (VStr "log_tokens"))) as ->
      by (vm_compute; reflexivity).
    split; [reflexivity | discriminate].
Qed.

Lemma Demo_foreign_log_uncovered :
  ~ covered (Demo.raw Demo.foreign_maps)
      (Demo.row (Demo.raw Demo.foreign_maps) "log" 0).
Proof.
  intros (k & m & toks & Hk & Hm & Hl & Hin).
  rewrite Demo_raw_map_rows in Hm by (vm_compute; reflexivity).
  apply list_elem_of_singleton in Hm as ->.
  assert (Demo.row (Demo.raw Demo.foreign_maps) "map" 0 !! "log_tokens"
          = Some (VList [VStr "log_2"])) as Hl' by (vm_compute; reflexivity).
  assert (Demo.row (Demo.raw Demo.foreign_maps) "log" 0 !! "token"
          = Some (VStr "log_1")) as Hk' by (vm_compute; reflexivity).
  rewrite Hl' in Hl. injection Hl as <-.
  rewrite Hk' in Hk. injection Hk as <-.
  apply list_elem_of_singleton in Hin. discriminate Hin.
Qed.

Lemma uncovered_log_fails_witness :
  (forall db', __make_reverse_index__ (Demo.raw Demo.foreign_maps) <> Ok db') /\
  exists k, __make_reverse_index__ (Demo.raw Demo.foreign_maps)
            = Raise (KeyError (VStr k)).
Proof.
  destruct (uncovered_log_fails (Demo.raw Demo.foreign_maps)
              (Demo.row (Demo.raw Demo.foreign_maps) "log" 0))
    as [Hfail Hkey].
  - apply Demo_row_elem. vm_compute. reflexivity.
  - exact Demo_foreign_log_uncovered.
  - split; [exact Hfail|].
    destruct (Hkey (unwrap Demo.no_tables
                      (denormalize_samples (Demo.raw Demo.foreign_maps)))
                (Demo.row (Demo.raw Demo.foreign_maps) "map" 0) []
                (VList [VStr "log_2"])
                (unwrap ∅ (for_each map_log_tokens
                             [Demo.row (Demo.raw Demo.foreign_maps) "map" 0] ∅)))
      as (r & k & _ & _ & _ & Hraise).
    + apply unwrap_Ok. vm_compute. reflexivity.
    + rewrite <- Demo_raw_map_rows by (vm_compute; reflexivity).
      unfold table_rows.
      destruct (tables (Demo.raw Demo.foreign_maps) !! "map") as [[l|]|] eqn:Ht;
        [reflexivity | |];
        (assert (is_someb (tables (Demo.raw Demo.foreign_maps) !! "map"
                             ≫= fun t => match t with
                                         | Rows _ => Some t
                                         | EmptyDict => None
                                         end) = true) as Hrows
           by (vm_compute; reflexivity));
        rewrite Ht in Hrows; discriminate Hrows.
    + vm_compute. reflexivity.
    + apply unwrap_Ok. vm_compute. reflexivity.
    + by exists k.
Defined.

(** ** Equal sample times *)

(** C3 (the code departs from the claim).  On the dataset whose two samples
    carry the same time stamp, a capture that is not a key frame makes
    [get_boxes] stop with a division by zero at the first instance that both
    samples annotate: the interval is not guarded. *)
Theorem get_boxes_equal_times_raises :
  get_boxes (ext := Exact.externals) (Demo.db 1000000 1000000) (VStr "sd_mid")
  = Raise ZeroDivisionError.
Proof. vm_compute. reflexivity. Qed.

(** ** Boxes on the small dataset *)

Lemma get_boxes_keyframe_witness :
  get_boxes (ext := Exact.externals) Demo.store (VStr "sd_key2")
  = mapM (get_box Demo.store) [VStr "ann_a2"; VStr "ann_b2"].
Proof.
  apply (get_boxes_keyframe (ext := Exact.externals) Demo.store
           (VStr "sd_key2")
           (unwrap ∅ (get Demo.store "sample_data" (VStr "sd_key2")))
           (unwrap ∅ (get Demo.store "sample" (VStr "s2")))
           (VStr "s2") (VStr "s1")).
  - run_ok.
  - run_eq.
  - run_ok.
  - run_eq.
  - right. exists (VBool true). split; run_eq.
  - run_eq.
Defined.

Lemma Demo_intermediate (capture : string) (t : Z) :
  is_okb (get Demo.store "sample_data" (VStr capture)) = true ->
  unwrap ∅ (get Demo.store "sample_data" (VStr capture)) !! "sample_token"
  = Some (VStr "s2") ->
  unwrap ∅ (get Demo.store "sample_data" (VStr capture)) !! "is_key_frame"
  = Some (VBool false) ->
  unwrap ∅ (get Demo.store "sample_data" (VStr capture)) !! "timestamp"
  = Some (VNum (inject_Z t)) ->
  intermediate_capture Demo.store (VStr capture)
    (inject_Z 1000000) (inject_Z 2000000) (inject_Z t)
    Demo.curr_ann_recs Demo.prev_inst_map.
Proof.
  intros Hsd Htok Hkf Ht.
  exists (unwrap ∅ (get Demo.store "sample_data" (VStr capture))),
    (VStr "s2"), (unwrap ∅ (get Demo.store "sample" (VStr "s2"))),
    (VStr "s1"), (VBool false),
    (unwrap ∅ (get Demo.store "sample" (VStr "s1"))),
    [VStr "ann_a2"; VStr "ann_b2"], [VStr "ann_a1"],
    (unwrap [] (mapM (get Demo.store "sample_annotation") [VStr "ann_a1"])).
  split; [by apply unwrap_Ok|]. split; [exact Htok|].
  split; [run_ok|]. split; [run_eq|]. split; [run_eq|].
  split; [exact Hkf|]. split; [run_eq|]. split; [run_ok|].
  split; [run_eq|]. split; [run_ok|]. split; [run_eq|].
  split; [run_ok|]. split; [run_ok|]. split; [run_eq|].
  split; [run_eq|]. exact Ht.
Qed.

Lemma get_boxes_clamped_witness :
  (exists b,
      unwrap [] (get_boxes (ext := Exact.externals) Demo.store (VStr "sd_early"))
        !! 0 = Some b /\
      center b = VNums [0; 0; 5]%Q /\
      exists amount, (amount == 0)%Q /\
        orientation b
        = slerp (Externals := Exact.externals)
            (Quaternion (VNums [1; 0; 0; 0]%Q))
            (Quaternion (VNums [0; 0; 0; 1]%Q)) amount) /\
  (exists b,
      unwrap [] (get_boxes (ext := Exact.externals) Demo.store (VStr "sd_late"))
        !! 0 = Some b /\
      center b = VNums [2; 0; 5]%Q /\
      exists amount, (amount == 1)%Q /\
        orientation b
        = slerp (Externals := Exact.externals)
            (Quaternion (VNums [1; 0; 0; 0]%Q))
            (Quaternion (VNums [0; 0; 0; 1]%Q)) amount).
Proof.
  assert (intermediate_capture Demo.store (VStr "sd_early")
            (inject_Z 1000000) (inject_Z 2000000) (inject_Z 999900)
            Demo.curr_ann_recs Demo.prev_inst_map) as Hearly
    by (apply Demo_intermediate; run_eq).
  assert (intermediate_capture Demo.store (VStr "sd_late")
            (inject_Z 1000000) (inject_Z 2000000) (inject_Z 2000100)
            Demo.curr_ann_recs Demo.prev_inst_map) as Hlate
    by (apply Demo_intermediate; run_eq).
  split.
  - destruct (get_boxes_clamped (ext := Exact.externals)
                Exact_interp_left Exact_interp_right
                Demo.store (VStr "sd_early")
                (inject_Z 1000000) (inject_Z 2000000) (inject_Z 999900)
                Demo.curr_ann_recs Demo.prev_inst_map 0
                (default ∅ (Demo.curr_ann_recs !! 0))
                (default ∅ (Demo.prev_inst_map !! "inst_a"))
                "inst_a" [0; 0; 5]%Q [2; 0; 5]%Q
                (VNums [1; 0; 0; 0]%Q) (VNums [0; 0; 0; 1]%Q)
                (unwrap [] (get_boxes (ext := Exact.externals) Demo.store
                              (VStr "sd_early")))
                Hearly)
      as (b & Hb & Hlow & _).
    + apply Qltb_true. run_eq.
    + apply default_Some. run_eq.
    + run_eq.
    + apply default_Some. run_eq.
    + run_eq.
    + run_eq.
    + reflexivity.
    + run_eq.
    + run_eq.
    + run_ok.
    + exists b. split; [exact Hb|]. apply Hlow.
      apply Qle_bool_iff. run_eq.
  - destruct (get_boxes_clamped (ext := Exact.externals)
                Exact_interp_left Exact_interp_right
                Demo.store (VStr "sd_late")
                (inject_Z 1000000) (inject_Z 2000000) (inject_Z 2000100)
                Demo.curr_ann_recs Demo.prev_inst_map 0
                (default ∅ (Demo.curr_ann_recs !! 0))
                (default ∅ (Demo.prev_inst_map !! "inst_a"))
                "inst_a" [0; 0; 5]%Q [2; 0; 5]%Q
                (VNums [1; 0; 0; 0]%Q) (VNums [0; 0; 0; 1]%Q)
                (unwrap [] (get_boxes (ext := Exact.externals) Demo.store
                              (VStr "sd_late")))
                Hlate)
      as (b & Hb & _ & Hhigh).
    + apply Qltb_true. run_eq.
    + apply default_Some. run_eq.
    + run_eq.
    + apply default_Some. run_eq.
    + run_eq.
    + run_eq.
    + reflexivity.
    + run_eq.
    + run_eq.
    + run_ok.
    + exists b. split; [exact Hb|]. apply Hhigh.
      apply Qle_bool_iff. run_eq.
Defined.

(** C2 as first worded fails.  On the dataset whose tracked rotation is
    stored as [(1, 0, 0, 0)] in the previous sample and as [(-1, 0, 0, 0)]
    in the current one, the capture [sd_early] is not a key frame and was
    taken before the previous sample.  The box of the tracked instance has
    exactly the translation of the previous annotation, but its rotation is
    the negated quaternion: the slerp reverses its first argument when the
    dot product is negative, and the four components are not those of the
    previous annotation. *)
Lemma clamped_rotation_changes_sign :
  get Flip.store "sample_data" (VStr "sd_early") = Ok Flip.capture /\
  Flip.capture !! "is_key_frame" = Some (VBool false) /\
  Flip.capture !! "timestamp" = Some (Demo.int 999900) /\
  Flip.capture !! "sample_token" = Some (VStr "s2") /\
  get Flip.store "sample" (VStr "s2") = Ok Flip.curr_sample /\
  Flip.curr_sample !! "prev" = Some (VStr "s1") /\
  Flip.curr_sample !! "timestamp" = Some (Demo.int 2000000) /\
  get Flip.store "sample" (VStr "s1") = Ok Flip.prev_sample /\
  Flip.prev_sample !! "timestamp" = Some (Demo.int 1000000) /\
  get Flip.store "sample_annotation" (VStr "ann_a1") = Ok Flip.prev_ann /\
  Flip.prev_ann !! "sample_token" = Some (VStr "s1") /\
  Flip.prev_ann !! "instance_token" = Some (VStr "inst_a") /\
  Flip.prev_ann !! "translation" = Some (Demo.vec [0; 0; 5]%Q) /\
  Flip.prev_ann !! "rotation" = Some (Demo.vec [1; 0; 0; 0]%Q) /\
  get_boxes (ext := Flip.externals) Flip.store (VStr "sd_early")
  = Ok Flip.boxes /\
  Flip.boxes !! 0 = Some Flip.box /\
  token Flip.box = VStr "ann_a2" /\
  center Flip.box = Demo.vec [0; 0; 5]%Q /\
  orientation Flip.box = Quaternion (Demo.vec [-1; 0; 0; 0]%Q) /\
  orientation Flip.box <> Quaternion (Demo.vec [1; 0; 0; 0]%Q).
Proof.
  assert (orientation Flip.box = Quaternion (Demo.vec [-1; 0; 0; 0]%Q))
    as Hrot by run_eq.
  split_and!; try run_ok; try run_eq.
  rewrite Hrot. intros Heq. vm_compute in Heq. discriminate Heq.
Defined.

Lemma get_sample_data_boxes_witness :
  get_sample_data (ext := Exact.externals) Demo.store (VStr "sd_key2") VNone
    None false
  = Ok ("data/sd_key2.bin", Demo.moved "sd_key2" "cs_lidar", VNone) /\
  get_sample_data (ext := Exact.externals) Demo.store (VStr "sd_cam") VNone
    None false
  = Ok ("data/sd_cam.bin",
        List.filter
          (fun b => Exact.in_front b Demo.intrinsic
                      (VNum (inject_Z 1600), VNum (inject_Z 900)) VNone)
          (Demo.moved "sd_cam" "cs_cam"),
        Demo.intrinsic).
Proof.
  split.
  - destruct (get_sample_data_boxes (ext := Exact.externals) Demo.store
                (VStr "sd_key2") VNone None false
                (unwrap ∅ (get Demo.store "sample_data" (VStr "sd_key2")))
                (unwrap ∅ (get Demo.store "calibrated_sensor" (VStr "cs_lidar")))
                (unwrap ∅ (get Demo.store "sensor" (VStr "sen_lidar")))
                (unwrap ∅ (get Demo.store "ego_pose" (VStr "pose")))
                "data/sd_key2.bin" (VStr "lidar")
                (unwrap [] (get_boxes (ext := Exact.externals) Demo.store
                              (VStr "sd_key2")))
                (Demo.moved "sd_key2" "cs_lidar")) as [Hlidar _].
    + exists (VStr "cs_lidar"), (VStr "sen_lidar"), (VStr "pose").
      split; [run_ok|]. split; [run_eq|]. split; [run_ok|].
      split; [run_eq|]. split; [run_ok|]. split; [run_eq|]. run_ok.
    + run_eq.
    + run_eq.
    + run_ok.
    + run_ok.
    + apply Hlidar. reflexivity.
  - destruct (get_sample_data_boxes (ext := Exact.externals) Demo.store
                (VStr "sd_cam") VNone None false
                (unwrap ∅ (get Demo.store "sample_data" (VStr "sd_cam")))
                (unwrap ∅ (get Demo.store "calibrated_sensor" (VStr "cs_cam")))
                (unwrap ∅ (get Demo.store "sensor" (VStr "sen_cam")))
                (unwrap ∅ (get Demo.store "ego_pose" (VStr "pose")))
                "data/sd_cam.bin" (VStr "camera")
                (unwrap [] (get_boxes (ext := Exact.externals) Demo.store
                              (VStr "sd_cam")))
                (Demo.moved "sd_cam" "cs_cam")) as [_ Hcam].
    + exists (VStr "cs_cam"), (VStr "sen_cam"), (VStr "pose").
      split; [run_ok|]. split; [run_eq|]. split; [run_ok|].
      split; [run_eq|]. split; [run_ok|]. split; [run_eq|]. run_ok.
    + run_eq.
    + run_eq.
    + run_ok.
    + run_ok.
    + apply (Hcam eq_refl Demo.intrinsic (VNum (inject_Z 1600))
               (VNum (inject_Z 900))); run_eq.
Defined.

(** ** Velocity on the small dataset *)



(** * Further properties of the store *)

(** ** The index keeps the last position of a token *)

Lemma index_rows_keeps (l : list dict) (n : nat) (acc index : gmap string nat)
    (k : string) (j0 : nat) :
  index_rows n l acc = Ok index -> acc !! k = Some j0 ->
  exists j, index !! k = Some j /\ (j = j0 \/ (n <= j /\ j < n + length l)).
Proof.
  revert n acc j0. induction l as [|m l IH]; intros n acc j0 Hix Hacc;
    simpl in Hix.
  - injection Hix as <-. exists j0. split; [done | by left].
  - inv_ok Hix. simpl_ok. destruct (decide (a0 = k)) as [->|Hne].
    + destruct (IH (S n) (<[k := n]> acc) n Hix) as (j & Hj & Hcase);
        [apply lookup_insert_eq|].
      exists j. split; [done|]. right. simpl. lia.
    + destruct (IH (S n) (<[a0 := n]> acc) j0 Hix) as (j & Hj & Hcase);
        [by rewrite lookup_insert_ne|].
      exists j. split; [done|]. simpl. lia.
Qed.

Lemma index_rows_last (l : list dict) (n : nat) (acc index : gmap string nat)
    (i : nat) (r : dict) (k : string) :
  index_rows n l acc = Ok index -> l !! i = Some r ->
  r !! "token" = Some (VStr k) ->
  exists j, index !! k = Some j /\ n + i <= j /\ j < n + length l.
Proof.
  revert n acc i. induction l as [|m l IH]; intros n acc i Hix Hr Hk;
    [discriminate|].
  simpl in Hix. inv_ok Hix. simpl_ok. destruct i as [|i]; simpl in Hr.
  - injection Hr as ->. rewrite Hk in E. injection E as <-.
    destruct (index_rows_keeps _ _ _ _ k n Hix) as (j & Hj & Hcase);
      [apply lookup_insert_eq|].
    exists j. split; [done|]. simpl. lia.
  - destruct (IH _ _ _ Hix Hr Hk) as (j & Hj & Hle & Hlt).
    exists j. simpl. split; [done|]. lia.
Qed.

(** ** The tables of a loaded store *)

Lemma keeps_tables_refl (db : LyftDataset) : keeps_tables db db.
Proof. by intros T. Qed.

Lemma keeps_tables_trans (db1 db2 db3 : LyftDataset) :
  keeps_tables db1 db2 -> keeps_tables db2 db3 -> keeps_tables db1 db3.
Proof. intros H12 H23 T HT. by apply H23, H12. Qed.

Lemma keeps_tables_setattr (db : LyftDataset) (table_name : string) (t : table) :
  keeps_tables db (setattr db table_name t).
Proof.
  intros T HT. unfold setattr. simpl. rewrite lookup_insert.
  by case_decide.
Qed.

Lemma keeps_tables_update_row (db : LyftDataset) (table_name : string)
    (ind : nat) (r : dict) :
  keeps_tables db (update_row db table_name ind r).
Proof.
  unfold update_row. destruct (tables db !! table_name);
    [apply keeps_tables_setattr | apply keeps_tables_refl].
Qed.

Lemma keeps_tables_decorate_table (db db' : LyftDataset) (table_name : string)
    (f : dict -> result dict) :
  decorate_table db table_name f = Ok db' -> keeps_tables db db'.
Proof.
  unfold decorate_table. intros Hd. inv_ok Hd. injection Hd as <-.
  apply keeps_tables_setattr.
Qed.

Lemma keeps_tables_for_each {A}
    (step : LyftDataset -> A -> result LyftDataset) (l : list A)
    (db db' : LyftDataset) :
  (forall db x db', step db x = Ok db' -> keeps_tables db db') ->
  for_each step l db = Ok db' -> keeps_tables db db'.
Proof.
  intros Hstep. apply (for_each_invariant (keeps_tables db)).
  - intros s x s' _ Hs Hx. eapply keeps_tables_trans; [done|]. by eapply Hstep.
  - apply keeps_tables_refl.
Qed.

Lemma keeps_tables_link_sample_data (db db' : LyftDataset) (r : dict) :
  link_sample_data db r = Ok db' -> keeps_tables db db'.
Proof.
  intros [(kf & _ & _ & ->)|(kf & stok & s & ind & tok & d & k & Hl)]%link_sample_data_Ok.
  - apply keeps_tables_refl.
  - destruct Hl as (_ & _ & _ & _ & _ & _ & _ & _ & ->).
    apply keeps_tables_update_row.
Qed.

Lemma keeps_tables_link_annotation (db db' : LyftDataset) (r : dict) :
  link_annotation db r = Ok db' -> keeps_tables db db'.
Proof.
  intros (stok & s & ind & tok & l & _ & _ & _ & _ & _ & ->)%link_annotation_Ok.
  apply keeps_tables_update_row.
Qed.

Lemma index_table_has_tables (db : LyftDataset) (names : list string)
    (acc token2ind : gmap string (gmap string nat)) :
  for_each (index_table db) names acc = Ok token2ind ->
  forall T, T ∈ names -> is_Some (tables db !! T).
Proof.
  revert acc. induction names as [|n names IH]; intros acc Hfor T HT.
  - by apply elem_of_nil in HT.
  - simpl in Hfor. inv_ok Hfor.
    apply elem_of_cons in HT as [->|HT]; [|by eapply IH].
    unfold index_table, getattr in E.
    by destruct (tables db !! n); [eexists | discriminate].
Qed.

Lemma denormalize_samples_inv (db db' : LyftDataset) :
  denormalize_samples db = Ok db' ->
  exists db0 db1 db2 db3 db4,
    build_token2ind db = Ok db0 /\
    decorate_table db0 "sample_annotation" (decorate_annotation db0) = Ok db1 /\
    decorate_table db1 "sample_data" (decorate_sample_data db1) = Ok db2 /\
    decorate_table db2 "sample" (fun r => Ok (init_sample r)) = Ok db3 /\
    for_each link_sample_data (table_rows db3 "sample_data") db3 = Ok db4 /\
    for_each link_annotation (table_rows db4 "sample_annotation") db4 = Ok db'.
Proof.
  unfold denormalize_samples. intros H.
  apply bind_Ok_inv in H as (db0 & H0 & H).
  apply bind_Ok_inv in H as (db1 & H1 & H).
  apply bind_Ok_inv in H as (db2 & H2 & H).
  apply bind_Ok_inv in H as (db3 & H3 & H).
  apply bind_Ok_inv in H as (db4 & H4 & H).
  by exists db0, db1, db2, db3, db4.
Qed.

Lemma link_logs_to_maps_inv (db db' : LyftDataset) :
  link_logs_to_maps db = Ok db' ->
  exists t m0 v log_to_map,
    getattr db "map" = Ok t /\
    table_getitem t 0 = Ok m0 /\
    m0 !! "log_tokens" = Some v /\
    for_each map_log_tokens (rows t) ∅ = Ok log_to_map /\
    decorate_table db "log" (link_log log_to_map) = Ok db'.
Proof.
  unfold link_logs_to_maps. intros H.
  apply bind_Ok_inv in H as (t & Ht & H).
  apply bind_Ok_inv in H as (m0 & Hm0 & H).
  destruct (m0 !! "log_tokens") as [v|] eqn:Hv; [|discriminate].
  apply bind_Ok_inv in H as (ltm & Hltm & H).
  by exists t, m0, v, ltm.
Qed.

Lemma make_reverse_index_inv (db db' : LyftDataset) :
  __make_reverse_index__ db = Ok db' ->
  exists db1, denormalize_samples db = Ok db1 /\ link_logs_to_maps db1 = Ok db'.
Proof. unfold __make_reverse_index__. intros H. by apply bind_Ok_inv in H. Qed.

Lemma make_reverse_index_has_tables (db db' : LyftDataset) :
  __make_reverse_index__ db = Ok db' -> has_tables db'.
Proof.
  intros (db5 & Hd & Hl)%make_reverse_index_inv.
  apply denormalize_samples_inv in Hd
    as (db0 & db1 & db2 & db3 & db4 & H0 & H1 & H2 & H3 & H4 & H5).
  apply link_logs_to_maps_inv in Hl as (t & m0 & v & ltm & _ & _ & _ & _ & H6).
  assert (has_tables db0) as Htab.
  { intros T HT. unfold build_token2ind in H0.
    apply bind_Ok_inv in H0 as (t2i & Hfor & H0).
    injection H0 as <-. simpl. by eapply index_table_has_tables. }
  assert (keeps_tables db0 db') as Hkeep.
  { eapply keeps_tables_trans; [by eapply keeps_tables_decorate_table|].
    eapply keeps_tables_trans; [by eapply keeps_tables_decorate_table|].
    eapply keeps_tables_trans; [by eapply keeps_tables_decorate_table|].
    eapply keeps_tables_trans;
      [eapply keeps_tables_for_each; [|exact H4];
       intros ? ? ?; apply keeps_tables_link_sample_data|].
    eapply keeps_tables_trans;
      [eapply keeps_tables_for_each; [|exact H5];
       intros ? ? ?; apply keeps_tables_link_annotation|].
    by eapply keeps_tables_decorate_table. }
  intros T HT. by apply Hkeep, Htab.
Qed.

Lemma init_indexed `{ext : Externals} (fs : file_system)
    (data_dir json_dir : string) (resolution : Q) (missing_ok : bool)
    (db : LyftDataset) :
  __init__ fs data_dir json_dir resolution missing_ok = Ok db ->
  indexed db /\ has_tables db.
Proof.
  intros (db0 & Hdb)%init_Ok. split.
  - by eapply make_reverse_index_indexed.
  - by eapply make_reverse_index_has_tables.
Qed.

Lemma indexed_get_token (db : LyftDataset) (table_name : string) (tok : value)
    (r : dict) :
  indexed db -> get db table_name tok = Ok r ->
  r !! "token" = Some tok /\ r ∈ table_rows db table_name.
Proof.
  intros Hix (HT & ind & Hind & Hr)%get_Ok.
  destruct (indexed_getind _ _ _ _ Hix HT Hind) as (r' & Hr' & Htok).
  rewrite Hr in Hr'. injection Hr' as <-. split; [done|].
  by eapply list_elem_of_lookup_2.
Qed.

Lemma indexed_get_present (db : LyftDataset) (table_name : string) (k : string) :
  indexed db -> table_name ∈ table_names ->
  Some (VStr k) ∈ tokens_of (table_rows db table_name) ->
  exists r, get db table_name (VStr k) = Ok r.
Proof.
  intros Hix HT Hin. destruct (Hix _ HT) as (index & Hi & Hrows).
  apply list_elem_of_fmap in Hin as (r & Hk & Hin).
  apply list_elem_of_lookup in Hin as (i & Hr).
  destruct (index_rows_last _ _ _ _ _ _ k Hrows Hr) as (j & Hj & _ & Hlt);
    [done|].
  destruct (lookup_lt_is_Some_2 (table_rows db table_name) j) as (r' & Hr');
    [simpl in Hlt; lia|].
  exists r'. apply (get_intro _ _ _ j); [done| |done].
  unfold getind. by rewrite Hi, Hj.
Qed.

Lemma indexed_get_absent (db : LyftDataset) (table_name : string) (k : string) :
  indexed db -> has_tables db -> table_name ∈ table_names ->
  Some (VStr k) ∉ tokens_of (table_rows db table_name) ->
  get db table_name (VStr k) = Raise (KeyError (VStr k)).
Proof.
  intros Hix Htab HT Hnotin. destruct (Hix _ HT) as (index & Hi & Hrows).
  destruct (Htab _ HT) as (t & Ht).
  unfold get. rewrite bool_decide_eq_true_2 by done.
  unfold getattr. rewrite Ht, bind_Ok. unfold getind. rewrite Hi.
  rewrite (index_rows_notin _ _ _ _ _ Hrows Hnotin), lookup_empty. done.
Qed.

Lemma indexed_get_last (db : LyftDataset) (table_name : string) (tok : value)
    (r : dict) :
  indexed db -> get db table_name tok = Ok r ->
  exists i, table_rows db table_name !! i = Some r /\
    forall j r', i < j -> table_rows db table_name !! j = Some r' ->
      r' !! "token" <> Some tok.
Proof.
  intros Hix (HT & ind & Hind & Hr)%get_Ok. exists ind. split; [done|].
  intros j r' Hlt Hr' Htok. destruct (Hix _ HT) as (index & Hi & Hrows).
  unfold getind in Hind. rewrite Hi in Hind.
  destruct tok as [| | |k| |]; try discriminate.
  destruct (index !! k) as [j0|] eqn:Hk; [|discriminate]. injection Hind as ->.
  destruct (index_rows_last _ _ _ _ _ _ k Hrows Hr' Htok) as (j' & Hj' & Hle & _).
  rewrite Hk in Hj'. injection Hj' as <-. simpl in Hle. lia.
Qed.

Section LoadedStore.
Context `{ext : Externals}.
Variables (fs : file_system) (data_dir json_dir : string) (resolution : Q)
  (missing_ok : bool) (db : LyftDataset).
Hypothesis loaded :
  __init__ fs data_dir json_dir resolution missing_ok = Ok db.

(** X1.  In a loaded store, the record that [get] returns for a token is a
    record of the table that carries this very token, whether or not the
    tokens of the table are distinct. *)
Theorem get_returns_requested_token (table_name : string) (tok : value)
    (r : dict) :
  get db table_name tok = Ok r ->
  r !! "token" = Some tok /\ r ∈ table_rows db table_name.
Proof. apply indexed_get_token. by destruct (init_indexed _ _ _ _ _ _ loaded). Qed.

(** X2.  In a loaded store, [get] on a table of the store and a string
    token succeeds exactly when some record of the table carries the token,
    and raises [KeyError] with the token otherwise. *)
Theorem get_defined_iff_token_present (table_name : string) (k : string) :
  table_name ∈ table_names ->
  (Some (VStr k) ∈ tokens_of (table_rows db table_name) ->
   exists r, get db table_name (VStr k) = Ok r) /\
  (Some (VStr k) ∉ tokens_of (table_rows db table_name) ->
   get db table_name (VStr k) = Raise (KeyError (VStr k))).
Proof.
  intros HT. destruct (init_indexed _ _ _ _ _ _ loaded) as [Hix Htab]. split.
  - by apply indexed_get_present.
  - by apply indexed_get_absent.
Qed.

(** X3.  When several records of a table carry the same token, [get]
    returns the last of them: no record after the one returned carries the
    token. *)
Theorem get_returns_last_record (table_name : string) (tok : value) (r : dict) :
  get db table_name tok = Ok r ->
  exists i, table_rows db table_name !! i = Some r /\
    forall j r', i < j -> table_rows db table_name !! j = Some r' ->
      r' !! "token" <> Some tok.
Proof. apply indexed_get_last. by destruct (init_indexed _ _ _ _ _ _ loaded). Qed.

End LoadedStore.

Lemma Twin_load_store :
  __init__ (ext := Exact.externals) Twin.files "data" "json" (1 # 10) false
  = Ok Twin.store.
Proof. apply unwrap_Ok. vm_compute. reflexivity. Qed.

Lemma get_returns_requested_token_witness :
  unwrap ∅ (get Demo.store "sample_data" (VStr "sd_mid")) !! "token"
  = Some (VStr "sd_mid") /\
  unwrap ∅ (get Demo.store "sample_data" (VStr "sd_mid"))
  ∈ table_rows Demo.store "sample_data".
Proof.
  apply (get_returns_requested_token (ext := Exact.externals)
           _ _ _ _ _ _ Demo_load_store).
  run_ok.
Defined.

Lemma get_defined_iff_token_present_witness :
  (exists r, get Demo.store "sample" (VStr "s2") = Ok r) /\
  get Demo.store "sample" (VStr "s3") = Raise (KeyError (VStr "s3")).
Proof.
  destruct (get_defined_iff_token_present (ext := Exact.externals)
              _ _ _ _ _ _ Demo_load_store "sample" "s2") as [Hin _].
  { apply (bool_decide_unpack _). vm_compute. exact I. }
  destruct (get_defined_iff_token_present (ext := Exact.externals)
              _ _ _ _ _ _ Demo_load_store "sample" "s3") as [_ Hout].
  { apply (bool_decide_unpack _). vm_compute. exact I. }
  split.
  - apply Hin. vm_compute. right. left.
  - apply Hout. vm_compute. intros Hin'.
    repeat (apply elem_of_cons in Hin' as [Hin'|Hin']; [discriminate Hin'|]).
    by apply elem_of_nil in Hin'.
Defined.

Lemma get_returns_last_record_witness :
  exists i,
    table_rows Twin.store "attribute" !! i
    = Some (unwrap ∅ (get Twin.store "attribute" (VStr "att"))) /\
    forall j r', i < j -> table_rows Twin.store "attribute" !! j = Some r' ->
      r' !! "token" <> Some (VStr "att").
Proof.
  apply (get_returns_last_record (ext := Exact.externals)
           _ _ _ _ _ _ Twin_load_store).
  run_ok.
Defined.

(** ** Linear search *)

Lemma field2token_step_Ok (field : string) (query : value)
    (matches : list value) (member : dict) (v tok : value) :
  member !! field = Some v -> member !! "token" = Some tok ->
  field2token_step field query matches member
  = Ok (if py_eq v query then matches ++ [tok] else matches)%list.
Proof.
  intros Hv Ht. unfold field2token_step. run_item Hv.
  destruct (py_eq v query); [by run_item Ht | done].
Qed.

Lemma field2token_step_lacking (field : string) (query : value)
    (matches : list value) (member : dict) :
  member !! field = None ->
  field2token_step field query matches member = Raise (KeyError (VStr field)).
Proof. intros Hv. unfold field2token_step, getitem. by rewrite Hv. Qed.

Lemma field2token_loop (field : string) (query : value) (l : list dict)
    (acc : list value) :
  (forall r, r ∈ l -> is_Some (r !! field)) ->
  (forall r, r ∈ l -> is_Some (r !! "token")) ->
  for_each (field2token_step field query) l acc
  = Ok (acc ++ omap token_of (List.filter (matching field query) l))%list.
Proof.
  revert acc. induction l as [|m l IH]; intros acc Hfield Htok.
  - simpl. by rewrite app_nil_r.
  - destruct (Hfield m) as (v & Hv); [by left|].
    destruct (Htok m) as (tok & Ht); [by left|].
    rewrite for_each_cons, (field2token_step_Ok _ _ _ _ _ _ Hv Ht), bind_Ok.
    rewrite IH.
    + cbn [List.filter]. unfold matching at 2. rewrite Hv.
      destruct (py_eq v query); [|done].
      cbn [omap list_omap]. unfold token_of at 2, field_of. rewrite Ht.
      by rewrite <- app_assoc.
    + intros r Hr. apply Hfield. by right.
    + intros r Hr. apply Htok. by right.
Qed.

Lemma field2token_loop_fails (field : string) (query : value) (l : list dict)
    (r : dict) (acc : list value) :
  (forall r, r ∈ l -> is_Some (r !! "token")) ->
  r ∈ l -> r !! field = None ->
  for_each (field2token_step field query) l acc
  = Raise (KeyError (VStr field)).
Proof.
  revert acc. induction l as [|m l IH]; intros acc Htok Hr Hnone.
  - by apply elem_of_nil in Hr.
  - rewrite for_each_cons. destruct (m !! field) as [v|] eqn:Hv.
    + assert (r ∈ l) as Hr'.
      { apply elem_of_cons in Hr as [->|Hr]; [congruence | done]. }
      destruct (Htok m) as (tok & Ht); [by left|].
      rewrite (field2token_step_Ok _ _ _ _ _ _ Hv Ht), bind_Ok.
      apply IH; [|done..]. intros r' Hin. apply Htok. by right.
    + by rewrite (field2token_step_lacking _ _ _ _ Hv).
Qed.

Lemma indexed_rows_have_tokens (db : LyftDataset) (table_name : string)
    (r : dict) :
  indexed db -> table_name ∈ table_names -> r ∈ table_rows db table_name ->
  exists k, r !! "token" = Some (VStr k).
Proof.
  intros Hix HT Hr. destruct (Hix _ HT) as (index & _ & Hrows).
  by eapply index_rows_str.
Qed.

Lemma field2token_rows (db : LyftDataset) (table_name field : string)
    (query : value) :
  has_tables db -> table_name ∈ table_names ->
  field2token db table_name field query
  = for_each (field2token_step field query) (table_rows db table_name) [].
Proof.
  intros Htab HT. destruct (Htab _ HT) as (t & Ht).
  unfold field2token, getattr, table_rows. by rewrite Ht.
Qed.

Lemma filter_none {A} (f : A -> bool) (l : list A) :
  (forall x, x ∈ l -> f x = false) -> List.filter f l = [].
Proof.
  induction l as [|x l IH]; intros Hf; [done|]. simpl.
  rewrite Hf by by left. apply IH. intros y Hy. apply Hf. by right.
Qed.

Lemma matching_token (k : string) (r : dict) (k' : string) :
  r !! "token" = Some (VStr k') ->
  matching "token" (VStr k) r = String.eqb k' k.
Proof. intros Hr. unfold matching. by rewrite Hr. Qed.

Lemma unique_token_filter (l : list dict) (r : dict) (k : string) :
  NoDup (tokens_of l) ->
  (forall r', r' ∈ l -> exists k', r' !! "token" = Some (VStr k')) ->
  r ∈ l -> r !! "token" = Some (VStr k) ->
  omap token_of (List.filter (matching "token" (VStr k)) l) = [VStr k].
Proof.
  induction l as [|m l IH]; intros Hnd Hstr Hr Hk.
  - by apply elem_of_nil in Hr.
  - apply NoDup_cons in Hnd as [Hm Hnd].
    destruct (Hstr m) as (k0 & Hk0); [by left|].
    cbn [List.filter]. rewrite (matching_token _ _ _ Hk0).
    destruct (String.eqb k0 k) eqn:Heq.
    + apply String.eqb_eq in Heq as ->.
      rewrite filter_none.
      * cbn [omap list_omap]. unfold token_of, field_of. by rewrite Hk0.
      * intros r' Hr'. destruct (Hstr r') as (k' & Hk'); [by right|].
        rewrite (matching_token _ _ _ Hk').
        apply String.eqb_neq. intros ->. apply Hm.
        apply list_elem_of_fmap. exists r'. split; [|done].
        unfold token_of, field_of. congruence.
    + apply String.eqb_neq in Heq.
      apply elem_of_cons in Hr as [->|Hr]; [congruence|].
      apply IH; try done. intros r' Hr'. apply Hstr. by right.
Qed.

Lemma elem_of_filter_omap (f : dict -> bool) (l : list dict) (tok : value) :
  tok ∈ omap token_of (List.filter f l) <->
  exists r, r ∈ l /\ f r = true /\ r !! "token" = Some tok.
Proof.
  rewrite list_elem_of_omap. split.
  - intros (r & Hr & Htok). apply list_elem_of_In, List.filter_In in Hr as [Hr Hf].
    exists r. by rewrite list_elem_of_In.
  - intros (r & Hr & Hf & Htok). exists r. split; [|done].
    apply list_elem_of_In, List.filter_In. by rewrite <- list_elem_of_In.
Qed.

Section Search.
Context `{ext : Externals}.
Variables (fs : file_system) (data_dir json_dir : string) (resolution : Q)
  (missing_ok : bool) (db : LyftDataset).
Hypothesis loaded :
  __init__ fs data_dir json_dir resolution missing_ok = Ok db.

(** X4.  In a loaded store, when every record of the table has the field,
    [field2token] returns the tokens of the records whose field equals the
    query, in the order of the table. *)
Theorem field2token_matches (table_name field : string) (query : value) :
  table_name ∈ table_names ->
  (forall r, r ∈ table_rows db table_name -> is_Some (r !! field)) ->
  field2token db table_name field query
  = Ok (omap token_of
          (List.filter (matching field query) (table_rows db table_name))).
Proof.
  intros HT Hfield. destruct (init_indexed _ _ _ _ _ _ loaded) as [Hix Htab].
  rewrite (field2token_rows _ _ _ _ Htab HT), field2token_loop; [done..|].
  intros r Hr. destruct (indexed_rows_have_tokens _ _ _ Hix HT Hr) as (k & Hk).
  by eexists.
Qed.

(** X5.  In a loaded store, [field2token] raises [KeyError] with the field
    name as soon as one record of the table lacks the field, whether or not
    other records match: no partial list of matches is returned. *)
Theorem field2token_missing_field (table_name field : string) (query : value)
    (r : dict) :
  table_name ∈ table_names ->
  r ∈ table_rows db table_name -> r !! field = None ->
  field2token db table_name field query = Raise (KeyError (VStr field)).
Proof.
  intros HT Hr Hnone. destruct (init_indexed _ _ _ _ _ _ loaded) as [Hix Htab].
  rewrite (field2token_rows _ _ _ _ Htab HT).
  apply (field2token_loop_fails _ _ _ r); [|done..].
  intros r' Hr'.
  destruct (indexed_rows_have_tokens _ _ _ Hix HT Hr') as (k & Hk). by eexists.
Qed.

(** X6.  In a loaded store whose table has pairwise distinct tokens, the
    tokens that [field2token] returns are exactly the tokens of the matching
    records: [get] resolves each of them to a record whose field equals the
    query, and the token of every matching record is returned. *)
Theorem field2token_tokens_resolve (table_name field : string) (query : value)
    (toks : list value) :
  table_name ∈ table_names ->
  NoDup (tokens_of (table_rows db table_name)) ->
  field2token db table_name field query = Ok toks ->
  (forall tok, tok ∈ toks ->
     exists r, get db table_name tok = Ok r /\ matching field query r = true) /\
  (forall r, r ∈ table_rows db table_name -> matching field query r = true ->
     exists tok, r !! "token" = Some tok /\ tok ∈ toks).
Proof.
  intros HT Hnd Hf. destruct (init_indexed _ _ _ _ _ _ loaded) as [Hix Htab].
  assert (forall r, r ∈ table_rows db table_name -> is_Some (r !! field))
    as Hfield.
  { intros r Hr. destruct (r !! field) eqn:Hv; [by eexists|].
    rewrite (field2token_rows _ _ _ _ Htab HT) in Hf.
    rewrite (field2token_loop_fails _ _ _ r) in Hf; [discriminate| |done..].
    intros r' Hr'.
    destruct (indexed_rows_have_tokens _ _ _ Hix HT Hr') as (k & Hk).
    by eexists. }
  rewrite (field2token_rows _ _ _ _ Htab HT), field2token_loop in Hf; [|done|].
  - injection Hf as <-. split.
    + intros tok (r & Hr & Hm & Htok)%elem_of_filter_omap.
      exists r. split; [|done].
      apply list_elem_of_lookup in Hr as (i & Hi).
      destruct (indexed_get _ _ _ _ Hix HT Hnd Hi) as (tok' & Htok' & Hget).
      congruence.
    + intros r Hr Hm.
      destruct (indexed_rows_have_tokens _ _ _ Hix HT Hr) as (k & Hk).
      exists (VStr k). split; [done|]. apply elem_of_filter_omap. by exists r.
  - intros r Hr.
    destruct (indexed_rows_have_tokens _ _ _ Hix HT Hr) as (k & Hk). by eexists.
Qed.

(** X7.  In a loaded store whose table has pairwise distinct tokens, the
    search for a token that [get] resolves returns this token and nothing
    else. *)
Theorem field2token_token_roundtrip (table_name : string) (k : string)
    (r : dict) :
  NoDup (tokens_of (table_rows db table_name)) ->
  get db table_name (VStr k) = Ok r ->
  field2token db table_name "token" (VStr k) = Ok [VStr k].
Proof.
  intros Hnd Hget. destruct (init_indexed _ _ _ _ _ _ loaded) as [Hix Htab].
  pose proof (get_Ok _ _ _ _ Hget) as (HT & _).
  destruct (indexed_get_token _ _ _ _ Hix Hget) as [Hk Hr].
  rewrite (field2token_rows _ _ _ _ Htab HT), field2token_loop.
  - rewrite (unique_token_filter _ r k); try done.
    intros r' Hr'. by eapply indexed_rows_have_tokens.
  - intros r' Hr'.
    destruct (indexed_rows_have_tokens _ _ _ Hix HT Hr') as (k' & Hk').
    by eexists.
  - intros r' Hr'.
    destruct (indexed_rows_have_tokens _ _ _ Hix HT Hr') as (k' & Hk').
    by eexists.
Qed.

End Search.

Lemma rows_all_have (l : list dict) (field : string) :
  forallb (fun r => is_someb (r !! field)) l = true ->
  forall r, r ∈ l -> is_Some (r !! field).
Proof.
  intros Hall r Hr. apply list_elem_of_In in Hr.
  pose proof (proj1 (List.forallb_forall _ _) Hall r Hr) as Hsome.
  simpl in Hsome. by destruct (r !! field); [eexists | discriminate].
Qed.

Lemma Demo_annotation_tokens :
  NoDup (tokens_of (table_rows Demo.store "sample_annotation")).
Proof. distinct_tokens. Qed.

Lemma field2token_matches_witness :
  field2token Demo.store "sample_annotation" "instance_token" (VStr "inst_a")
  = Ok [VStr "ann_a1"; VStr "ann_a2"].
Proof.
  rewrite (field2token_matches (ext := Exact.externals)
             _ _ _ _ _ _ Demo_load_store).
  - run_eq.
  - apply (bool_decide_unpack _). vm_compute. exact I.
  - apply rows_all_have. run_eq.
Defined.

Lemma field2token_missing_field_witness :
  field2token Demo.store "calibrated_sensor" "camera_intrinsic" VNone
  = Raise (KeyError (VStr "camera_intrinsic")).
Proof.
  apply (field2token_missing_field (ext := Exact.externals)
           _ _ _ _ _ _ Demo_load_store _ _ _
           (Demo.row Demo.store "calibrated_sensor" 0)).
  - apply (bool_decide_unpack _). vm_compute. exact I.
  - apply Demo_row_elem. run_eq.
  - run_eq.
Defined.

Lemma field2token_tokens_resolve_witness :
  (forall tok, tok ∈ [VStr "ann_a1"; VStr "ann_a2"] ->
     exists r, get Demo.store "sample_annotation" tok = Ok r /\
               matching "instance_token" (VStr "inst_a") r = true) /\
  (forall r, r ∈ table_rows Demo.store "sample_annotation" ->
     matching "instance_token" (VStr "inst_a") r = true ->
     exists tok, r !! "token" = Some tok /\
                 tok ∈ [VStr "ann_a1"; VStr "ann_a2"]).
Proof.
  apply (field2token_tokens_resolve (ext := Exact.externals)
           _ _ _ _ _ _ Demo_load_store).
  - apply (bool_decide_unpack _). vm_compute. exact I.
  - exact Demo_annotation_tokens.
  - run_eq.
Defined.

Lemma field2token_token_roundtrip_witness :
  field2token Demo.store "sample" "token" (VStr "s2") = Ok [VStr "s2"].
Proof.
  apply (field2token_token_roundtrip (ext := Exact.externals)
           _ _ _ _ _ _ Demo_load_store "sample" "s2"
           (unwrap ∅ (get Demo.store "sample" (VStr "s2")))).
  - exact Demo_sample_tokens.
  - run_ok.
Defined.

(** ** What the reverse index holds *)

(** A property of the records met so far and of the loop state holds
    after a loop that ends normally. *)
Lemma for_each_prefix {S A} (P : list A -> S -> Prop)
    (step : S -> A -> result S) (l : list A) (s s' : S) :
  P [] s ->
  (forall pre x s1 s2, P pre s1 -> step s1 x = Ok s2 -> P (pre ++ [x])%list s2) ->
  for_each step l s = Ok s' -> P l s'.
Proof.
  intros Hinit Hstep.
  assert (forall pre s, P pre s -> for_each step l s = Ok s' -> P (pre ++ l)%list s')
    as Hgen.
  { clear Hinit s. induction l as [|x l IH]; intros pre s Hpre Hl.
    - simpl in Hl. injection Hl as <-. by rewrite app_nil_r.
    - rewrite for_each_cons in Hl. apply bind_Ok_inv in Hl as (s1 & Hx & Hl).
      replace (pre ++ x :: l)%list with ((pre ++ [x]) ++ l)%list by by rewrite <- app_assoc.
      apply (IH _ s1); [|done]. by eapply Hstep. }
  intros Hl. by apply (Hgen [] s).
Qed.

Lemma same_column_for_each {A} (k : string)
    (step : LyftDataset -> A -> result LyftDataset) (l : list A)
    (db db' : LyftDataset) :
  (forall db x db', step db x = Ok db' -> same_column k db db') ->
  for_each step l db = Ok db' -> same_column k db db'.
Proof.
  intros Hstep. apply (for_each_invariant (same_column k db)).
  - intros s x s' _ Hs Hx. eapply same_column_trans; [done|]. by eapply Hstep.
  - apply same_column_refl.
Qed.

Lemma same_column_link_sample_data (k : string) (db db' : LyftDataset)
    (r : dict) :
  k <> "data" -> link_sample_data db r = Ok db' -> same_column k db db'.
Proof.
  intros Hk
    [(kf & _ & _ & ->)|(kf & stok & s & ind & tok & d & c & Hl)]%link_sample_data_Ok.
  - apply same_column_refl.
  - destruct Hl as (_ & _ & _ & _ & Hs & _ & _ & _ & ->).
    eapply same_column_update_row; [done|]. by apply lookup_insert_ne.
Qed.

Lemma same_column_link_annotation (k : string) (db db' : LyftDataset)
    (r : dict) :
  k <> "anns" -> link_annotation db r = Ok db' -> same_column k db db'.
Proof.
  intros Hk (stok & s & ind & tok & l & _ & _ & Hs & _ & _ & ->)%link_annotation_Ok.
  eapply same_column_update_row; [done|]. by apply lookup_insert_ne.
Qed.

Lemma token2ind_for_each {A}
    (step : LyftDataset -> A -> result LyftDataset) (l : list A)
    (db db' : LyftDataset) :
  (forall db x db', step db x = Ok db' -> _token2ind db' = _token2ind db) ->
  for_each step l db = Ok db' -> _token2ind db' = _token2ind db.
Proof.
  intros Hstep.
  apply (for_each_invariant (fun s => _token2ind s = _token2ind db)).
  - intros s x s' _ Hs Hx. rewrite <- Hs. by eapply Hstep.
  - done.
Qed.

Lemma getind_same_index (db db' : LyftDataset) (table_name : string)
    (tok : value) :
  _token2ind db' = _token2ind db ->
  getind db' table_name tok = getind db table_name tok.
Proof. intros Hix. unfold getind. by rewrite Hix. Qed.

Lemma get_same_table (db db' : LyftDataset) (table_name : string) (tok : value) :
  _token2ind db' = _token2ind db -> same_table table_name db db' ->
  get db' table_name tok = get db table_name tok.
Proof.
  intros Hix Ht. unfold get, getattr.
  rewrite (getind_same_index _ _ _ _ Hix). unfold same_table in Ht.
  by rewrite Ht.
Qed.

Lemma owner_is_same_index (db db' : LyftDataset) (j : nat) (r : dict) :
  _token2ind db' = _token2ind db -> owner_is db' j r = owner_is db j r.
Proof.
  intros Hix. unfold owner_is. destruct (r !! "sample_token"); [|done].
  by rewrite (getind_same_index _ _ _ _ Hix).
Qed.

Lemma filter_snoc {A} (f : A -> bool) (l : list A) (x : A) :
  List.filter f (l ++ [x])%list = (List.filter f l ++ if f x then [x] else [])%list.
Proof. rewrite List.filter_app. simpl. by destruct (f x). Qed.

Lemma omap_snoc {A B} (f : A -> option B) (l : list A) (x : A) (y : B) :
  f x = Some y -> omap f (l ++ [x])%list = (omap f l ++ [y])%list.
Proof. intros Hx. rewrite omap_app. simpl. by rewrite Hx. Qed.

(** The stages of the pass, with what each of them leaves alone. *)
Lemma make_reverse_index_stages (db db' : LyftDataset) :
  __make_reverse_index__ db = Ok db' ->
  exists db0 db1 db2 db3 db4 db5 log_to_map,
    build_token2ind db = Ok db0 /\
    decorate_table db0 "sample_annotation" (decorate_annotation db0) = Ok db1 /\
    decorate_table db1 "sample_data" (decorate_sample_data db1) = Ok db2 /\
    decorate_table db2 "sample" (fun r => Ok (init_sample r)) = Ok db3 /\
    for_each link_sample_data (table_rows db3 "sample_data") db3 = Ok db4 /\
    for_each link_annotation (table_rows db4 "sample_annotation") db4 = Ok db5 /\
    for_each map_log_tokens (table_rows db5 "map") ∅ = Ok log_to_map /\
    decorate_table db5 "log" (link_log log_to_map) = Ok db' /\
    frame ["sample_annotation"] db0 db1 /\ frame ["sample_data"] db1 db2 /\
    frame ["sample"] db2 db3 /\ frame ["sample"] db3 db4 /\
    frame ["sample"] db4 db5 /\ frame ["log"] db5 db'.
Proof.
  intros (db5 & Hd & Hl)%make_reverse_index_inv.
  pose proof (frame_link_logs_to_maps _ _ Hl) as Hlog.
  apply denormalize_samples_inv in Hd
    as (db0 & db1 & db2 & db3 & db4 & H0 & H1 & H2 & H3 & H4 & H5).
  apply link_logs_to_maps_inv in Hl as (t & m0 & v & ltm & Ht & _ & _ & Hfor & H6).
  exists db0, db1, db2, db3, db4, db5, ltm.
  assert (table_rows db5 "map" = rows t) as ->.
  { unfold getattr in Ht. unfold table_rows.
    destruct (tables db5 !! "map"); [by injection Ht as -> | discriminate]. }
  split_and!; [done..| | | | | |done].
  - eapply frame_decorate_table; [|exact H1].
    intros r r'. by apply decorate_annotation_field.
  - eapply frame_decorate_table; [|exact H2].
    intros r r'. by apply decorate_sample_data_field.
  - eapply frame_decorate_table; [|exact H3].
    intros r r' [= <-]. by apply init_sample_field.
  - eapply frame_for_each; [|exact H4].
    intros ? ? ?. apply frame_link_sample_data.
  - eapply frame_for_each; [|exact H5].
    intros ? ? ?. apply frame_link_annotation.
Qed.

Lemma frame_rows (touched : list string) (db db' : LyftDataset)
    (table_name : string) :
  frame touched db db' -> table_name ∉ touched ->
  table_rows db' table_name = table_rows db table_name.
Proof. intros (_ & _ & Ht) HT. by apply same_table_rows, Ht. Qed.

Lemma frame_get (touched : list string) (db db' : LyftDataset)
    (table_name : string) (tok : value) :
  frame touched db db' -> table_name ∉ touched ->
  get db' table_name tok = get db table_name tok.
Proof. intros (Hi & _ & Ht) HT. apply get_same_table; [done|]. by apply Ht. Qed.

Lemma frame_owner_is (touched : list string) (db db' : LyftDataset)
    (j : nat) (r : dict) :
  frame touched db db' -> owner_is db' j r = owner_is db j r.
Proof. intros (Hi & _). by apply owner_is_same_index. Qed.

Lemma not_in_one (a b : string) : a <> b -> a ∉ [b].
Proof. by intros Hne ->%list_elem_of_singleton. Qed.

(** The rows written by [decorate_table] are the images of the old rows. *)
Lemma decorate_table_lookup (db db' : LyftDataset) (table_name : string)
    (f : dict -> result dict) (i : nat) (r' : dict) :
  decorate_table db table_name f = Ok db' ->
  table_rows db' table_name !! i = Some r' ->
  exists r, table_rows db table_name !! i = Some r /\ f r = Ok r'.
Proof.
  intros Hd%decorate_table_rows Hr'. by eapply mapM_Ok_lookup_r.
Qed.

(** *** The annotation lists *)

Lemma annotation_loop_anns (db4 db5 : LyftDataset) (anns : list dict) :
  (forall s, s ∈ table_rows db4 "sample" -> s !! "anns" = Some (VList [])) ->
  for_each link_annotation anns db4 = Ok db5 ->
  forall j s, table_rows db5 "sample" !! j = Some s ->
    s !! "anns"
    = Some (VList (omap token_of (List.filter (owner_is db4 j) anns))).
Proof.
  intros Hinit Hfor.
  apply (for_each_prefix
    (fun pre db => _token2ind db = _token2ind db4 /\
       forall j s, table_rows db "sample" !! j = Some s ->
         s !! "anns"
         = Some (VList (omap token_of (List.filter (owner_is db4 j) pre)))))
    in Hfor; [by destruct Hfor| |].
  - split; [done|]. intros j s Hs. simpl. apply Hinit.
    by eapply list_elem_of_lookup_2.
  - intros pre a db db' [Hix Hinv] Ha.
    apply link_annotation_Ok in Ha
      as (stok & s0 & ind & tok & l & Hstok & Hind & Hs0 & Hl & Htok & ->).
    split; [by rewrite token2ind_update_row|].
    intros j s. rewrite table_rows_update_row, filter_snoc, omap_app.
    assert (owner_is db4 j a = Nat.eqb ind j) as ->.
    { unfold owner_is. rewrite Hstok.
      by rewrite <- (getind_same_index db4 db) , Hind by done. }
    destruct (decide (ind = j)) as [->|Hne].
    + rewrite list_lookup_insert_eq by by eapply lookup_lt_Some.
      intros [= <-]. rewrite lookup_insert_eq, Nat.eqb_refl.
      pose proof (Hinv _ _ Hs0) as Hold. rewrite Hl in Hold.
      injection Hold as ->. simpl. unfold token_of, field_of. by rewrite Htok.
    + rewrite list_lookup_insert_ne by done. intros Hs.
      apply Nat.eqb_neq in Hne. rewrite Hne. simpl. rewrite app_nil_r.
      by apply Hinv.
Qed.

Lemma init_sample_rows (db2 db3 : LyftDataset) (s : dict) :
  decorate_table db2 "sample" (fun r => Ok (init_sample r)) = Ok db3 ->
  s ∈ table_rows db3 "sample" ->
  s !! "anns" = Some (VList []) /\ s !! "data" = Some (VDict ∅).
Proof.
  intros Hd (i & Hs)%list_elem_of_lookup.
  destruct (decorate_table_lookup _ _ _ _ _ _ Hd Hs) as (r & _ & [= <-]).
  unfold init_sample. rewrite lookup_insert_eq.
  by rewrite lookup_insert_ne, lookup_insert_eq.
Qed.

Lemma same_column_elem (k : string) (db db' : LyftDataset)
    (table_name : string) (v : option value) :
  same_column k db db' ->
  (forall r, r ∈ table_rows db table_name -> r !! k = v) ->
  forall r, r ∈ table_rows db' table_name -> r !! k = v.
Proof.
  intros Hc Hall r (i & Hr)%list_elem_of_lookup.
  pose proof (f_equal (fun l => l !! i) (Hc table_name)) as Hi.
  unfold column in Hi. simpl in Hi. rewrite !list_lookup_fmap, Hr in Hi.
  simpl in Hi. destruct (table_rows db table_name !! i) as [r0|] eqn:Hr0;
    [|discriminate].
  simpl in Hi. injection Hi as Hi. unfold field_of in Hi. rewrite Hi.
  apply Hall. by eapply list_elem_of_lookup_2.
Qed.

Lemma same_column_lookup (k : string) (db db' : LyftDataset)
    (table_name : string) (i : nat) (r' : dict) :
  same_column k db db' -> table_rows db' table_name !! i = Some r' ->
  exists r, table_rows db table_name !! i = Some r /\ r' !! k = r !! k.
Proof.
  intros Hc Hr.
  pose proof (f_equal (fun l => l !! i) (Hc table_name)) as Hi.
  unfold column in Hi. simpl in Hi. rewrite !list_lookup_fmap, Hr in Hi.
  simpl in Hi. destruct (table_rows db table_name !! i) as [r0|] eqn:Hr0;
    [|discriminate].
  simpl in Hi. injection Hi as Hi. by exists r0.
Qed.

Lemma make_reverse_index_anns (db db' : LyftDataset) (j : nat) (s : dict) :
  __make_reverse_index__ db = Ok db' ->
  table_rows db' "sample" !! j = Some s ->
  s !! "anns"
  = Some (VList (omap token_of
       (List.filter (owner_is db' j) (table_rows db' "sample_annotation")))).
Proof.
  intros (db0 & db1 & db2 & db3 & db4 & db5 & ltm & H0 & H1 & H2 & H3 & H4 & H5
          & _ & H6 & F1 & F2 & F3 & F4 & F5 & F6)%make_reverse_index_stages Hs.
  rewrite (frame_rows _ _ _ "sample" F6) in Hs by by apply not_in_one.
  rewrite (frame_rows _ _ _ "sample_annotation" F6) by by apply not_in_one.
  rewrite (frame_rows _ _ _ "sample_annotation" F5) by by apply not_in_one.
  erewrite List.filter_ext; last first.
  { intros a. rewrite (frame_owner_is _ _ _ _ _ F6).
    apply (frame_owner_is _ _ _ _ _ F5). }
  apply (annotation_loop_anns db4 db5); [|done..].
  apply (same_column_elem "anns" db3 db4).
  - eapply same_column_for_each; [|exact H4].
    intros ? ? ?. by apply same_column_link_sample_data.
  - intros s' Hs'. by destruct (init_sample_rows _ _ _ H3 Hs').
Qed.

Lemma for_each_Ok_each {S A} (step : S -> A -> result S) (l : list A)
    (s s' : S) (x : A) :
  for_each step l s = Ok s' -> x ∈ l -> exists s1 s2, step s1 x = Ok s2.
Proof.
  revert s. induction l as [|y l IH]; intros s Hl Hx.
  - by apply elem_of_nil in Hx.
  - rewrite for_each_cons in Hl. apply bind_Ok_inv in Hl as (s1 & Hy & Hl).
    apply elem_of_cons in Hx as [->|Hx]; [eauto | by eapply IH].
Qed.

(** With pairwise distinct sample tokens, the records that point to the
    sample at a position are the records that carry its token. *)
Lemma owner_is_matching (db : LyftDataset) (j : nat) (s : dict) (k : string)
    (a : dict) :
  indexed db -> NoDup (tokens_of (table_rows db "sample")) ->
  table_rows db "sample" !! j = Some s -> s !! "token" = Some (VStr k) ->
  owner_is db j a = matching "sample_token" (VStr k) a.
Proof.
  intros Hix Hnd Hs Hk. destruct (Hix _ sample_is_table) as (index & Hi & Hrows).
  destruct (index_rows_lookup _ _ _ _ _ _ Hrows Hnd Hs) as (k0 & Hk0 & Hj).
  rewrite Hk in Hk0. injection Hk0 as <-. simpl in Hj.
  unfold owner_is, matching, getind. rewrite Hi.
  destruct (a !! "sample_token") as [v|]; [|done].
  destruct v as [| | |k'| |]; try done. simpl.
  destruct (String.eqb_spec k' k) as [->|Hne].
  - rewrite Hj. apply Nat.eqb_refl.
  - destruct (index !! k') as [i|] eqn:Hk'; [|done].
    apply Nat.eqb_neq. intros ->.
    destruct (index_rows_inv _ _ _ _ _ _ Hrows Hk')
      as [Hacc|(r & _ & Hr & Hrk)]; [by rewrite lookup_empty in Hacc|].
    rewrite Nat.sub_0_r, Hs in Hr. injection Hr as <-. congruence.
Qed.

(** *** The data dictionaries *)


Lemma key_frame_loop_data (db3 db4 : LyftDataset) (sds : list dict) :
  (forall s, s ∈ table_rows db3 "sample" -> s !! "data" = Some (VDict ∅)) ->
  for_each link_sample_data sds db3 = Ok db4 ->
  forall j s, table_rows db4 "sample" !! j = Some s ->
    exists d, s !! "data" = Some (VDict d) /\
      forall ch, d !! ch
                 = last (omap token_of (List.filter (key_frame_of db3 j ch) sds)).
Proof.
  intros Hinit Hfor.
  apply (for_each_prefix
    (fun pre db => _token2ind db = _token2ind db3 /\
       forall j s, table_rows db "sample" !! j = Some s ->
         exists d, s !! "data" = Some (VDict d) /\
           forall ch, d !! ch
             = last (omap token_of (List.filter (key_frame_of db3 j ch) pre))))
    in Hfor; [by destruct Hfor| |].
  - split; [done|]. intros j s Hs. exists ∅. split; [|done].
    apply Hinit. by eapply list_elem_of_lookup_2.
  - intros pre r db db' [Hix Hinv] Hr.
    apply link_sample_data_Ok in Hr
      as [(kf & Hkf & Hfalse & ->)
         |(kf & stok & s0 & ind & tok & d0 & c & Hkf & Htrue & Hstok & Hind
           & Hs0 & Htok & Hd0 & Hc & ->)].
    + split; [done|]. intros j s Hs. destruct (Hinv _ _ Hs) as (d & Hd & Hch).
      exists d. split; [done|]. intros ch. rewrite filter_snoc.
      unfold key_frame_of at 2, is_key_frame. rewrite Hkf, Hfalse. simpl.
      rewrite app_nil_r. apply Hch.
    + split; [by rewrite token2ind_update_row|].
      intros j s. rewrite table_rows_update_row.
      assert (forall ch, key_frame_of db3 j ch r
                         = Nat.eqb ind j && String.eqb c ch) as Hkey.
      { intros ch. unfold key_frame_of, is_key_frame, owner_is, matching.
        rewrite Hkf, Htrue, Hstok, Hc.
        by rewrite <- (getind_same_index db3 db), Hind by done. }
      destruct (decide (ind = j)) as [->|Hne].
      * rewrite list_lookup_insert_eq by by eapply lookup_lt_Some.
        intros [= <-]. rewrite lookup_insert_eq. eexists. split; [done|].
        intros ch. rewrite filter_snoc, Hkey, Nat.eqb_refl. simpl.
        destruct (Hinv _ _ Hs0) as (d & Hd & Hch). rewrite Hd0 in Hd.
        injection Hd as <-.
        destruct (String.eqb_spec c ch) as [->|Hcne].
        -- rewrite lookup_insert_eq.
           rewrite (omap_snoc _ _ _ tok) by done. by rewrite last_snoc.
        -- rewrite lookup_insert_ne by done. rewrite app_nil_r. apply Hch.
      * rewrite list_lookup_insert_ne by done. intros Hs.
        destruct (Hinv _ _ Hs) as (d & Hd & Hch). exists d. split; [done|].
        intros ch. rewrite filter_snoc, Hkey.
        apply Nat.eqb_neq in Hne. rewrite Hne. simpl. rewrite app_nil_r.
        apply Hch.
Qed.

Lemma make_reverse_index_data (db db' : LyftDataset) (j : nat) (s : dict) :
  __make_reverse_index__ db = Ok db' ->
  table_rows db' "sample" !! j = Some s ->
  exists d, s !! "data" = Some (VDict d) /\
    forall ch, d !! ch
      = last (omap token_of
                (List.filter (key_frame_of db' j ch)
                   (table_rows db' "sample_data"))).
Proof.
  intros (db0 & db1 & db2 & db3 & db4 & db5 & ltm & H0 & H1 & H2 & H3 & H4 & H5
          & _ & H6 & F1 & F2 & F3 & F4 & F5 & F6)%make_reverse_index_stages Hs.
  rewrite (frame_rows _ _ _ "sample" F6) in Hs by by apply not_in_one.
  rewrite (frame_rows _ _ _ "sample_data" F6) by by apply not_in_one.
  rewrite (frame_rows _ _ _ "sample_data" F5) by by apply not_in_one.
  rewrite (frame_rows _ _ _ "sample_data" F4) by by apply not_in_one.
  assert (same_column "data" db4 db5) as Hcol.
  { eapply same_column_for_each; [|exact H5].
    intros ? ? ?. by apply same_column_link_annotation. }
  destruct (same_column_lookup _ _ _ _ _ _ Hcol Hs) as (s4 & Hs4 & Heq).
  destruct (key_frame_loop_data db3 db4 _
              (fun s' Hs' => proj2 (init_sample_rows _ _ _ H3 Hs')) H4 _ _ Hs4)
    as (d & Hd & Hch).
  exists d. split; [congruence|]. intros ch. rewrite Hch. do 2 f_equal.
  apply List.filter_ext. intros r. unfold key_frame_of. do 2 f_equal.
  rewrite (frame_owner_is _ _ _ _ _ F6), (frame_owner_is _ _ _ _ _ F5).
  by rewrite (frame_owner_is _ _ _ _ _ F4).
Qed.

Lemma annotation_loop_owners (db4 db5 : LyftDataset) (anns : list dict)
    (a : dict) :
  for_each link_annotation anns db4 = Ok db5 -> a ∈ anns ->
  exists stok ind tok,
    a !! "sample_token" = Some stok /\ getind db4 "sample" stok = Ok ind /\
    a !! "token" = Some tok.
Proof.
  intros Hfor.
  apply (for_each_prefix
    (fun pre db => _token2ind db = _token2ind db4 /\
       forall a, a ∈ pre ->
         exists stok ind tok,
           a !! "sample_token" = Some stok /\
           getind db4 "sample" stok = Ok ind /\ a !! "token" = Some tok))
    in Hfor; [by destruct Hfor as [_ Hall]; apply Hall| |].
  - split; [done|]. by intros ? ?%elem_of_nil.
  - intros pre x db db' [Hix Hinv] Hx.
    apply link_annotation_Ok in Hx
      as (stok & s0 & ind & tok & l & Hstok & Hind & _ & _ & Htok & ->).
    split; [by rewrite token2ind_update_row|].
    intros a' [Ha'|Ha']%elem_of_app; [by apply Hinv|].
    apply list_elem_of_singleton in Ha' as ->.
    exists stok, ind, tok.
    by rewrite <- (getind_same_index db4 db), Hind by done.
Qed.

Lemma elem_of_filter_list {A} (f : A -> bool) (l : list A) (x : A) :
  x ∈ l -> f x = true -> x ∈ List.filter f l.
Proof.
  intros Hx Hf. apply list_elem_of_In, List.filter_In.
  split; [by apply list_elem_of_In | done].
Qed.

Section Denormalised.
Context `{ext : Externals}.
Variables (fs : file_system) (data_dir json_dir : string) (resolution : Q)
  (missing_ok : bool) (db : LyftDataset).
Hypothesis loaded :
  __init__ fs data_dir json_dir resolution missing_ok = Ok db.

(** X8.  In a loaded store, the [anns] list of the sample at position [j]
    holds the tokens of exactly the annotation records whose sample token
    the index resolves to position [j], once each, in the order of the
    annotation table. *)
Theorem sample_anns_listing (j : nat) (s : dict) :
  table_rows db "sample" !! j = Some s ->
  s !! "anns"
  = Some (VList (omap token_of
       (List.filter (owner_is db j) (table_rows db "sample_annotation")))).
Proof.
  destruct (init_Ok _ _ _ _ _ _ loaded) as (db0 & Hdb).
  by apply make_reverse_index_anns with db0.
Qed.

(** X9.  In a loaded store whose sample tokens are pairwise distinct, the
    [anns] list of a sample is what the linear search returns for the
    annotations carrying the sample's token in their [sample_token]
    field. *)
Theorem sample_anns_agree_with_search (k : string) (s : dict) :
  NoDup (tokens_of (table_rows db "sample")) ->
  get db "sample" (VStr k) = Ok s ->
  exists l, s !! "anns" = Some (VList l) /\
    field2token db "sample_annotation" "sample_token" (VStr k) = Ok l.
Proof.
  intros Hnd Hget. destruct (init_indexed _ _ _ _ _ _ loaded) as [Hix Htab].
  destruct (init_Ok _ _ _ _ _ _ loaded) as (db0 & Hdb).
  pose proof Hget as (_ & j & Hj & Hs)%get_Ok.
  destruct (indexed_get_token _ _ _ _ Hix Hget) as [Hk _].
  eexists. split; [by eapply make_reverse_index_anns|].
  assert ("sample_annotation" ∈ table_names) as HT
    by (apply (bool_decide_unpack _); vm_compute; exact I).
  rewrite (field2token_rows _ _ _ _ Htab HT).
  apply make_reverse_index_stages in Hdb
    as (d0 & d1 & d2 & d3 & d4 & d5 & ltm & _ & _ & _ & _ & _ & H5 & _ & _
        & _ & _ & _ & _ & F5 & F6).
  assert (forall a, a ∈ table_rows db "sample_annotation" ->
            is_Some (a !! "sample_token") /\ is_Some (a !! "token")) as Hall.
  { intros a Ha.
    rewrite (frame_rows _ _ _ "sample_annotation" F6) in Ha by by apply not_in_one.
    rewrite (frame_rows _ _ _ "sample_annotation" F5) in Ha by by apply not_in_one.
    destruct (annotation_loop_owners _ _ _ _ H5 Ha)
      as (stok & ind & tok & -> & _ & ->). by split; eexists. }
  rewrite field2token_loop; [|intros a Ha; by apply Hall..].
  simpl. do 2 f_equal. symmetry. apply List.filter_ext. intros a.
  by apply owner_is_matching with s.
Qed.

(** X10.  In a loaded store, every annotation record names a sample that
    [get] finds, and the [anns] list of that sample holds the token of the
    annotation. *)
Theorem annotation_listed_by_its_sample (a : dict) :
  a ∈ table_rows db "sample_annotation" ->
  exists stok s l tok,
    a !! "sample_token" = Some stok /\ get db "sample" stok = Ok s /\
    s !! "anns" = Some (VList l) /\ a !! "token" = Some tok /\ tok ∈ l.
Proof.
  intros Ha. destruct (init_indexed _ _ _ _ _ _ loaded) as [Hix Htab].
  destruct (init_Ok _ _ _ _ _ _ loaded) as (db0 & Hdb).
  pose proof Hdb as (d0 & d1 & d2 & d3 & d4 & d5 & ltm & _ & _ & _ & _ & _ & H5
        & _ & _ & _ & _ & _ & _ & F5 & F6)%make_reverse_index_stages.
  pose proof Ha as Ha4.
  rewrite (frame_rows _ _ _ "sample_annotation" F6) in Ha4 by by apply not_in_one.
  rewrite (frame_rows _ _ _ "sample_annotation" F5) in Ha4 by by apply not_in_one.
  destruct (annotation_loop_owners _ _ _ _ H5 Ha4)
    as (stok & ind & tok & Hstok & Hind & Htok).
  assert (getind db "sample" stok = Ok ind) as Hind'.
  { rewrite <- Hind. apply getind_same_index.
    destruct F5 as (E5 & _), F6 as (E6 & _). congruence. }
  destruct (indexed_getind _ _ _ _ Hix sample_is_table Hind') as (s & Hs & _).
  exists stok, s. eexists. exists tok. split; [done|].
  split; [by apply (get_intro _ _ _ ind); [apply sample_is_table|..]|].
  split; [by eapply make_reverse_index_anns|]. split; [done|].
  apply list_elem_of_omap. exists a. split; [|done].
  apply elem_of_filter_list; [done|].
  unfold owner_is. by rewrite Hstok, Hind', Nat.eqb_refl.
Qed.

(** X11.  In a loaded store, the [data] dictionary of the sample at
    position [j] maps a channel to the token of the last key-frame record
    of the sample_data table that points to the sample and was taken on the
    channel, and has no entry for a channel without such a record. *)
Theorem sample_data_listing (j : nat) (s : dict) :
  table_rows db "sample" !! j = Some s ->
  exists d, s !! "data" = Some (VDict d) /\
    forall ch, d !! ch
      = last (omap token_of
                (List.filter (key_frame_of db j ch)
                   (table_rows db "sample_data"))).
Proof.
  destruct (init_Ok _ _ _ _ _ _ loaded) as (db0 & Hdb).
  by apply make_reverse_index_data with db0.
Qed.

End Denormalised.

Lemma sample_anns_listing_witness :
  Demo.row Demo.store "sample" 1 !! "anns"
  = Some (VList [VStr "ann_a2"; VStr "ann_b2"]).
Proof.
  etrans.
  - apply (sample_anns_listing (ext := Exact.externals)
             _ _ _ _ _ _ Demo_load_store 1).
    apply Demo_row_lookup. run_eq.
  - run_eq.
Defined.

Lemma sample_anns_agree_with_search_witness :
  exists l,
    unwrap ∅ (get Demo.store "sample" (VStr "s2")) !! "anns" = Some (VList l) /\
    field2token Demo.store "sample_annotation" "sample_token" (VStr "s2") = Ok l.
Proof.
  apply (sample_anns_agree_with_search (ext := Exact.externals)
           _ _ _ _ _ _ Demo_load_store).
  - exact Demo_sample_tokens.
  - run_ok.
Defined.

Lemma annotation_listed_by_its_sample_witness :
  exists stok s l tok,
    Demo.row Demo.store "sample_annotation" 2 !! "sample_token" = Some stok /\
    get Demo.store "sample" stok = Ok s /\
    s !! "anns" = Some (VList l) /\
    Demo.row Demo.store "sample_annotation" 2 !! "token" = Some tok /\ tok ∈ l.
Proof.
  apply (annotation_listed_by_its_sample (ext := Exact.externals)
           _ _ _ _ _ _ Demo_load_store).
  apply Demo_row_elem. run_eq.
Defined.

Lemma sample_data_listing_witness :
  exists d,
    Demo.row Demo.store "sample" 1 !! "data" = Some (VDict d) /\
    forall ch, d !! ch
      = last (omap token_of
                (List.filter (key_frame_of Demo.store 1 ch)
                   (table_rows Demo.store "sample_data"))).
Proof.
  apply (sample_data_listing (ext := Exact.externals)
           _ _ _ _ _ _ Demo_load_store 1).
  apply Demo_row_lookup. run_eq.
Defined.

(** *** The short cuts on annotations, captures and logs *)

Lemma make_reverse_index_frame (db db' : LyftDataset) :
  __make_reverse_index__ db = Ok db' ->
  exists db0, build_token2ind db = Ok db0 /\
    frame ["sample_annotation"; "sample_data"; "sample"; "log"] db0 db'.
Proof.
  intros (db0 & db1 & db2 & db3 & db4 & db5 & ltm & H0 & _ & _ & _ & _ & _
          & _ & _ & F1 & F2 & F3 & F4 & F5 & F6)%make_reverse_index_stages.
  exists db0. split; [done|].
  assert (forall T, T ∈ ["sample_annotation"; "sample_data"; "sample"; "log"] ->
            [T] ⊆ ["sample_annotation"; "sample_data"; "sample"; "log"]) as Hsub.
  { intros T HT x ->%list_elem_of_singleton. done. }
  eapply frame_trans; [eapply frame_mono; [|exact F1]|].
  { apply Hsub. repeat constructor. }
  eapply frame_trans; [eapply frame_mono; [|exact F2]|].
  { apply Hsub. repeat constructor. }
  eapply frame_trans; [eapply frame_mono; [|exact F3]|].
  { apply Hsub. repeat constructor. }
  eapply frame_trans; [eapply frame_mono; [|exact F4]|].
  { apply Hsub. repeat constructor. }
  eapply frame_trans; [eapply frame_mono; [|exact F5]|].
  { apply Hsub. repeat constructor. }
  eapply frame_mono; [|exact F6]. apply Hsub. repeat constructor.
Qed.

Lemma not_in_touched (T : string) (touched : list string) :
  bool_decide (T ∈ touched) = false -> T ∉ touched.
Proof. intros H. by apply bool_decide_eq_false in H. Qed.

Lemma decorate_annotation_Ok (db : LyftDataset) (r r' : dict) :
  decorate_annotation db r = Ok r' ->
  exists inst_tok inst cat_tok cat name,
    r !! "instance_token" = Some inst_tok /\
    get db "instance" inst_tok = Ok inst /\
    inst !! "category_token" = Some cat_tok /\
    get db "category" cat_tok = Ok cat /\
    cat !! "name" = Some name /\
    r' = <["category_name" := name]> r.
Proof.
  unfold decorate_annotation. intros H.
  apply bind_Ok_inv in H as (inst_tok & H1%getitem_Ok & H).
  apply bind_Ok_inv in H as (inst & H2 & H).
  apply bind_Ok_inv in H as (cat_tok & H3%getitem_Ok & H).
  apply bind_Ok_inv in H as (cat & H4 & H).
  apply bind_Ok_inv in H as (name & H5%getitem_Ok & H).
  injection H as <-. by exists inst_tok, inst, cat_tok, cat, name.
Qed.

Lemma decorate_sample_data_Ok (db : LyftDataset) (r r' : dict) :
  decorate_sample_data db r = Ok r' ->
  exists cs_tok cs sensor_tok sensor modality channel,
    r !! "calibrated_sensor_token" = Some cs_tok /\
    get db "calibrated_sensor" cs_tok = Ok cs /\
    cs !! "sensor_token" = Some sensor_tok /\
    get db "sensor" sensor_tok = Ok sensor /\
    sensor !! "modality" = Some modality /\
    sensor !! "channel" = Some channel /\
    r' = <["channel" := channel]> (<["sensor_modality" := modality]> r).
Proof.
  unfold decorate_sample_data. intros H.
  apply bind_Ok_inv in H as (cs_tok & H1%getitem_Ok & H).
  apply bind_Ok_inv in H as (cs & H2 & H).
  apply bind_Ok_inv in H as (sensor_tok & H3%getitem_Ok & H).
  apply bind_Ok_inv in H as (sensor & H4 & H).
  apply bind_Ok_inv in H as (modality & H5%getitem_Ok & H).
  apply bind_Ok_inv in H as (channel & H6%getitem_Ok & H).
  injection H as <-.
  by exists cs_tok, cs, sensor_tok, sensor, modality, channel.
Qed.

Lemma make_reverse_index_category_name (db db' : LyftDataset) (a : dict) :
  __make_reverse_index__ db = Ok db' ->
  a ∈ table_rows db' "sample_annotation" ->
  exists inst_tok inst cat_tok cat name,
    a !! "instance_token" = Some inst_tok /\
    get db' "instance" inst_tok = Ok inst /\
    inst !! "category_token" = Some cat_tok /\
    get db' "category" cat_tok = Ok cat /\
    cat !! "name" = Some name /\
    a !! "category_name" = Some name.
Proof.
  intros Hdb Ha.
  destruct (make_reverse_index_frame _ _ Hdb) as (db0' & H0' & F).
  apply make_reverse_index_stages in Hdb
    as (db0 & db1 & db2 & db3 & db4 & db5 & ltm & H0 & H1 & _ & _ & _ & _
        & _ & _ & _ & F2 & F3 & F4 & F5 & F6).
  rewrite H0 in H0'. injection H0' as <-.
  rewrite (frame_rows _ _ _ "sample_annotation" F6) in Ha by by apply not_in_one.
  rewrite (frame_rows _ _ _ "sample_annotation" F5) in Ha by by apply not_in_one.
  rewrite (frame_rows _ _ _ "sample_annotation" F4) in Ha by by apply not_in_one.
  rewrite (frame_rows _ _ _ "sample_annotation" F3) in Ha by by apply not_in_one.
  rewrite (frame_rows _ _ _ "sample_annotation" F2) in Ha by by apply not_in_one.
  apply list_elem_of_lookup in Ha as (i & Ha).
  destruct (decorate_table_lookup _ _ _ _ _ _ H1 Ha) as (a0 & _ & Hdec).
  apply decorate_annotation_Ok in Hdec
    as (inst_tok & inst & cat_tok & cat & name & E1 & E2 & E3 & E4 & E5 & ->).
  exists inst_tok, inst, cat_tok, cat, name.
  rewrite !(frame_get _ _ _ _ _ F) by by apply not_in_touched.
  rewrite lookup_insert_ne by done. by rewrite lookup_insert_eq.
Qed.

Lemma make_reverse_index_sensor_fields (db db' : LyftDataset) (r : dict) :
  __make_reverse_index__ db = Ok db' ->
  r ∈ table_rows db' "sample_data" ->
  exists cs_tok cs sensor_tok sensor modality channel,
    r !! "calibrated_sensor_token" = Some cs_tok /\
    get db' "calibrated_sensor" cs_tok = Ok cs /\
    cs !! "sensor_token" = Some sensor_tok /\
    get db' "sensor" sensor_tok = Ok sensor /\
    sensor !! "modality" = Some modality /\
    sensor !! "channel" = Some channel /\
    r !! "sensor_modality" = Some modality /\
    r !! "channel" = Some channel.
Proof.
  intros Hdb Hr.
  destruct (make_reverse_index_frame _ _ Hdb) as (db0' & H0' & F).
  apply make_reverse_index_stages in Hdb
    as (db0 & db1 & db2 & db3 & db4 & db5 & ltm & H0 & _ & H2 & _ & _ & _
        & _ & _ & F1 & _ & F3 & F4 & F5 & F6).
  rewrite H0 in H0'. injection H0' as <-.
  rewrite (frame_rows _ _ _ "sample_data" F6) in Hr by by apply not_in_one.
  rewrite (frame_rows _ _ _ "sample_data" F5) in Hr by by apply not_in_one.
  rewrite (frame_rows _ _ _ "sample_data" F4) in Hr by by apply not_in_one.
  rewrite (frame_rows _ _ _ "sample_data" F3) in Hr by by apply not_in_one.
  apply list_elem_of_lookup in Hr as (i & Hr).
  destruct (decorate_table_lookup _ _ _ _ _ _ H2 Hr) as (r0 & _ & Hdec).
  apply decorate_sample_data_Ok in Hdec
    as (cs_tok & cs & sensor_tok & sensor & modality & channel
        & E1 & E2 & E3 & E4 & E5 & E6 & ->).
  exists cs_tok, cs, sensor_tok, sensor, modality, channel.
  rewrite !(frame_get _ _ _ _ _ F) by by apply not_in_touched.
  rewrite (frame_get _ _ _ _ _ F1) in E2 by by apply not_in_one.
  rewrite (frame_get _ _ _ _ _ F1) in E4 by by apply not_in_one.
  rewrite !lookup_insert_ne by done. by rewrite !lookup_insert_eq.
Qed.

Lemma py_eq_str (k : string) (v : value) :
  py_eq (VStr k) v = true <-> v = VStr k.
Proof.
  destruct v as [| | |k'| |]; simpl; try (split; [discriminate|congruence]).
  rewrite String.eqb_eq. split; congruence.
Qed.

Lemma map_log_token_loop (m : dict) (toks : list value)
    (acc acc' : gmap string value) (k : string) :
  for_each (map_log_token m) toks acc = Ok acc' ->
  (existsb (py_eq (VStr k)) toks = true ->
   exists map_tok, m !! "token" = Some map_tok /\ acc' !! k = Some map_tok) /\
  (existsb (py_eq (VStr k)) toks = false -> acc' !! k = acc !! k).
Proof.
  revert acc. induction toks as [|tok toks IH]; intros acc Hfor.
  - simpl in Hfor. injection Hfor as <-. by split.
  - rewrite for_each_cons in Hfor. apply bind_Ok_inv in Hfor as (acc1 & Htok & Hfor).
    unfold map_log_token in Htok.
    apply bind_Ok_inv in Htok as (map_tok & Hm%getitem_Ok & Htok).
    apply bind_Ok_inv in Htok as (k0 & Hk0 & Htok).
    destruct tok as [| | |k1| |]; try discriminate.
    injection Hk0 as ->. injection Htok as <-.
    destruct (IH _ Hfor) as [IHt IHf].
    change (existsb (py_eq (VStr k)) (VStr k0 :: toks))
      with (String.eqb k k0 || existsb (py_eq (VStr k)) toks).
    destruct (existsb (py_eq (VStr k)) toks) eqn:Hrest.
    + rewrite orb_true_r. split; [|done]. intros _. by apply IHt.
    + rewrite orb_false_r. rewrite (IHf eq_refl).
      destruct (String.eqb_spec k k0) as [->|Hne].
      * split; [|done]. intros _. exists map_tok.
        by rewrite lookup_insert_eq.
      * split; [done|]. intros _. by apply lookup_insert_ne.
Qed.

Lemma map_log_tokens_loop (maps : list dict) (log_to_map : gmap string value) :
  for_each map_log_tokens maps ∅ = Ok log_to_map ->
  forall k, log_to_map !! k
            = last (omap token_of (List.filter (lists_log k) maps)).
Proof.
  apply (for_each_prefix
    (fun pre (acc : gmap string value) =>
       forall k, acc !! k
                 = last (omap token_of (List.filter (lists_log k) pre))));
    [done|].
  intros pre m acc acc' Hinv Hm k. unfold map_log_tokens in Hm.
  apply bind_Ok_inv in Hm as (v & Hv%getitem_Ok & Hm).
  apply bind_Ok_inv in Hm as (toks & Htoks & Hm).
  destruct v as [| | | |toks'|]; try discriminate. injection Htoks as ->.
  destruct (map_log_token_loop _ _ _ _ k Hm) as [Ht Hf].
  rewrite filter_snoc. unfold lists_log at 2. rewrite Hv.
  destruct (existsb (py_eq (VStr k)) toks).
  - destruct (Ht eq_refl) as (map_tok & Htok & ->).
    rewrite (omap_snoc _ _ _ map_tok) by done. by rewrite last_snoc.
  - rewrite app_nil_r, (Hf eq_refl). apply Hinv.
Qed.

Lemma make_reverse_index_map_token (db db' : LyftDataset) (l : dict) :
  __make_reverse_index__ db = Ok db' -> l ∈ table_rows db' "log" ->
  exists k map_tok,
    l !! "token" = Some (VStr k) /\ l !! "map_token" = Some map_tok /\
    last (omap token_of (List.filter (lists_log k) (table_rows db' "map")))
    = Some map_tok.
Proof.
  intros (db0 & db1 & db2 & db3 & db4 & db5 & ltm & _ & _ & _ & _ & _ & _
          & Hltm & H6 & _ & _ & _ & _ & _ & F6)%make_reverse_index_stages Hl.
  rewrite (frame_rows _ _ _ "map" F6) by by apply not_in_one.
  apply list_elem_of_lookup in Hl as (i & Hl).
  destruct (decorate_table_lookup _ _ _ _ _ _ H6 Hl) as (l0 & _ & Hlink).
  unfold link_log in Hlink.
  apply bind_Ok_inv in Hlink as (tok & Htok%getitem_Ok & Hlink).
  apply bind_Ok_inv in Hlink as (map_tok & Hmap & Hlink).
  injection Hlink as <-.
  destruct tok as [| | |k| |]; try discriminate.
  destruct (ltm !! k) as [m|] eqn:Hk; [|discriminate]. injection Hmap as ->.
  exists k, map_tok. rewrite lookup_insert_ne by done.
  rewrite lookup_insert_eq. rewrite <- (map_log_tokens_loop _ _ Hltm k). done.
Qed.

(** ** Loading *)

Lemma for_each_app {S A} (step : S -> A -> result S) (l1 l2 : list A) (s : S) :
  for_each step (l1 ++ l2)%list s
  = (for_each step l1 s ≫= for_each step l2).
Proof.
  revert s. induction l1 as [|x l1 IH]; intros s; [done|].
  rewrite <- app_comm_cons, !for_each_cons.
  destruct (step s x) as [s1|e]; [|done]. rewrite !bind_Ok. apply IH.
Qed.

Section Loading.
Context `{ext : Externals}.
Variables (fs : file_system) (data_dir json_dir : string) (resolution : Q)
  (missing_ok : bool).

Lemma load_table_Ok (table_name : string) (t : table) :
  __load_table__ fs json_dir table_name missing_ok = Ok t ->
  rows t = file_rows fs json_dir table_name /\
  (fs !! table_path json_dir table_name = None ->
   missing_ok = true /\ t = EmptyDict).
Proof.
  unfold __load_table__, isfile, open_json, file_rows.
  destruct (fs !! table_path json_dir table_name) as [content|]; simpl.
  - intros [= <-]. by split.
  - destruct missing_ok; simpl; [|discriminate]. intros [= <-]. by split.
Qed.

Lemma load_table_present (table_name : string) (content : list dict) :
  fs !! table_path json_dir table_name = Some content ->
  __load_table__ fs json_dir table_name missing_ok = Ok (Rows content).
Proof. intros Hc. unfold __load_table__, isfile, open_json. by rewrite Hc. Qed.

Lemma load_steps (names : list string) (acc tbls : gmap string table)
    (table_name : string) :
  for_each (load_step fs json_dir missing_ok) names acc = Ok tbls ->
  NoDup names ->
  (table_name ∈ names ->
   exists t, tbls !! table_name = Some t /\
     __load_table__ fs json_dir table_name missing_ok = Ok t) /\
  (table_name ∉ names -> tbls !! table_name = acc !! table_name).
Proof.
  revert acc. induction names as [|n names IH]; intros acc Hfor Hnd.
  - simpl in Hfor. injection Hfor as <-. split; [by intros ?%elem_of_nil|done].
  - rewrite for_each_cons in Hfor.
    apply bind_Ok_inv in Hfor as (acc1 & Hn & Hfor).
    unfold load_step in Hn. apply bind_Ok_inv in Hn as (t & Ht & Hn).
    injection Hn as <-. apply NoDup_cons in Hnd as [Hn Hnd].
    destruct (IH _ Hfor Hnd) as [Hin Hout]. split.
    + intros [->|HT]%elem_of_cons; [|by apply Hin].
      exists t. split; [|done]. rewrite (Hout Hn). apply lookup_insert_eq.
    + intros [Hne HT]%not_elem_of_cons. rewrite (Hout HT).
      by apply lookup_insert_ne.
Qed.

Lemma init_mask_field (k : string) (r r' : dict) :
  k <> "mask" -> init_mask data_dir resolution r = Ok r' -> r' !! k = r !! k.
Proof.
  unfold init_mask. intros Hk Hd.
  apply bind_Ok_inv in Hd as (f & _ & Hd).
  apply bind_Ok_inv in Hd as (p & _ & Hd).
  injection Hd as <-. by apply lookup_insert_ne.
Qed.

Lemma load_tables_inv (db : LyftDataset) :
  load_tables fs data_dir json_dir resolution missing_ok = Ok db ->
  exists tbls,
    for_each (load_step fs json_dir missing_ok) table_names ∅ = Ok tbls /\
    decorate_table (mkLyftDataset data_dir json_dir tbls ∅) "map"
      (init_mask data_dir resolution) = Ok db.
Proof. unfold load_tables. intros H. by apply bind_Ok_inv in H. Qed.

Lemma init_inv (db : LyftDataset) :
  __init__ fs data_dir json_dir resolution missing_ok = Ok db ->
  exists tbls raw,
    for_each (load_step fs json_dir missing_ok) table_names ∅ = Ok tbls /\
    decorate_table (mkLyftDataset data_dir json_dir tbls ∅) "map"
      (init_mask data_dir resolution) = Ok raw /\
    __make_reverse_index__ raw = Ok db.
Proof.
  unfold __init__. intros H. apply bind_Ok_inv in H as (raw & Hraw & H).
  apply load_tables_inv in Hraw as (tbls & Htbls & Hraw). by exists tbls, raw.
Qed.

Lemma loaded_rows (tbls : gmap string table) (table_name : string) :
  for_each (load_step fs json_dir missing_ok) table_names ∅ = Ok tbls ->
  table_name ∈ table_names ->
  table_rows (mkLyftDataset data_dir json_dir tbls ∅) table_name
  = file_rows fs json_dir table_name.
Proof.
  intros Hfor HT.
  destruct (load_steps _ _ _ table_name Hfor NoDup_table_names) as [Hin _].
  destruct (Hin HT) as (t & Ht & Hload). unfold table_rows. simpl.
  rewrite Ht. by apply load_table_Ok.
Qed.

End Loading.

Lemma not_derived (k : string) :
  k ∉ derived_fields ->
  k <> "category_name" /\ k <> "sensor_modality" /\ k <> "channel" /\
  k <> "data" /\ k <> "anns" /\ k <> "map_token".
Proof.
  unfold derived_fields. intros Hk.
  repeat (apply not_elem_of_cons in Hk as [? Hk]). done.
Qed.

Lemma same_column_make_reverse_index (k : string) (db db' : LyftDataset) :
  k ∉ derived_fields -> __make_reverse_index__ db = Ok db' ->
  same_column k db db'.
Proof.
  intros (K1 & K2 & K3 & K4 & K5 & K6)%not_derived
    (db0 & db1 & db2 & db3 & db4 & db5 & ltm & H0 & H1 & H2 & H3 & H4 & H5
          & _ & H6 & _)%make_reverse_index_stages.
  assert (same_column k db db0) as S0.
  { intros T. unfold table_rows.
    by destruct (build_token2ind_Ok _ _ H0) as [_ ->]. }
  eapply same_column_trans; [exact S0|].
  eapply same_column_trans.
  { eapply decorate_table_same_column; [|exact H1].
    intros r r'. by apply decorate_annotation_field. }
  eapply same_column_trans.
  { eapply decorate_table_same_column; [|exact H2].
    intros r r'. by apply decorate_sample_data_field. }
  eapply same_column_trans.
  { eapply decorate_table_same_column; [|exact H3].
    intros r r' [= <-]. by apply init_sample_field. }
  eapply same_column_trans.
  { eapply same_column_for_each; [|exact H4].
    intros ? ? ?. by apply same_column_link_sample_data. }
  eapply same_column_trans.
  { eapply same_column_for_each; [|exact H5].
    intros ? ? ?. by apply same_column_link_annotation. }
  eapply decorate_table_same_column; [|exact H6].
  intros r r'. by apply link_log_field.
Qed.

Lemma build_token2ind_frame (db db0 : LyftDataset) (table_name : string) :
  build_token2ind db = Ok db0 ->
  table_rows db0 table_name = table_rows db table_name.
Proof.
  intros [_ Ht]%build_token2ind_Ok. unfold table_rows. by rewrite Ht.
Qed.

Lemma fmap_nil_rows {A B} (f : A -> B) (l : list A) : f <$> l = [] -> l = [].
Proof. by destruct l. Qed.

Section Derived.
Context `{ext : Externals}.
Variables (fs : file_system) (data_dir json_dir : string) (resolution : Q)
  (missing_ok : bool) (db : LyftDataset).
Hypothesis loaded :
  __init__ fs data_dir json_dir resolution missing_ok = Ok db.

(** X12.  In a loaded store, the [category_name] of every annotation record
    is the [name] of the category that [get] finds through the instance of
    the annotation. *)
Theorem annotation_category_name (a : dict) :
  a ∈ table_rows db "sample_annotation" ->
  exists inst_tok inst cat_tok cat name,
    a !! "instance_token" = Some inst_tok /\
    get db "instance" inst_tok = Ok inst /\
    inst !! "category_token" = Some cat_tok /\
    get db "category" cat_tok = Ok cat /\
    cat !! "name" = Some name /\
    a !! "category_name" = Some name.
Proof.
  destruct (init_Ok _ _ _ _ _ _ loaded) as (db0 & Hdb).
  by apply make_reverse_index_category_name with db0.
Qed.

(** X13.  In a loaded store, the [sensor_modality] and the [channel] of
    every sample_data record are the [modality] and the [channel] of the
    sensor that [get] finds through the calibrated sensor of the record. *)
Theorem sample_data_sensor_fields (r : dict) :
  r ∈ table_rows db "sample_data" ->
  exists cs_tok cs sensor_tok sensor modality channel,
    r !! "calibrated_sensor_token" = Some cs_tok /\
    get db "calibrated_sensor" cs_tok = Ok cs /\
    cs !! "sensor_token" = Some sensor_tok /\
    get db "sensor" sensor_tok = Ok sensor /\
    sensor !! "modality" = Some modality /\
    sensor !! "channel" = Some channel /\
    r !! "sensor_modality" = Some modality /\
    r !! "channel" = Some channel.
Proof.
  destruct (init_Ok _ _ _ _ _ _ loaded) as (db0 & Hdb).
  by apply make_reverse_index_sensor_fields with db0.
Qed.

(** X14.  In a loaded store, the [map_token] of every log record is the
    token of the last record of the map table that lists the token of the
    log among its [log_tokens]. *)
Theorem log_map_token_is_last_listing_map (l : dict) :
  l ∈ table_rows db "log" ->
  exists k map_tok,
    l !! "token" = Some (VStr k) /\ l !! "map_token" = Some map_tok /\
    last (omap token_of (List.filter (lists_log k) (table_rows db "map")))
    = Some map_tok.
Proof.
  destruct (init_Ok _ _ _ _ _ _ loaded) as (db0 & Hdb).
  by apply make_reverse_index_map_token with db0.
Qed.

(** X15.  Loading adds fields and changes none: in a loaded store, every
    table has one record per record of its file, in the same order, and
    every field other than [mask] and the six fields written by the reverse
    index has the value it has in the file. *)
Theorem loaded_tables_keep_file_fields (table_name k : string) :
  table_name ∈ table_names -> k ∉ derived_fields -> k <> "mask" ->
  column k (table_rows db table_name)
  = column k (file_rows fs json_dir table_name).
Proof.
  intros HT Hk Hmask.
  destruct (init_inv _ _ _ _ _ _ loaded) as (tbls & raw & Htbls & Hraw & Hdb).
  rewrite (same_column_make_reverse_index k _ _ Hk Hdb table_name).
  rewrite <- (loaded_rows _ data_dir _ _ _ _ Htbls HT).
  eapply decorate_table_same_column; [|exact Hraw].
  intros r r'. by apply init_mask_field.
Qed.

(** X16.  In a loaded store, a table other than sample_annotation,
    sample_data, sample, log and map holds exactly the records of its
    file. *)
Theorem untouched_tables_are_file_contents (table_name : string) :
  table_name ∈ table_names ->
  table_name ∉ ["sample_annotation"; "sample_data"; "sample"; "log"; "map"] ->
  table_rows db table_name = file_rows fs json_dir table_name.
Proof.
  intros HT Hout.
  destruct (init_inv _ _ _ _ _ _ loaded) as (tbls & raw & Htbls & Hraw & Hdb).
  destruct (make_reverse_index_frame _ _ Hdb) as (db0 & H0 & F).
  rewrite (frame_rows _ _ _ table_name F), (build_token2ind_frame _ _ _ H0).
  - rewrite <- (loaded_rows _ data_dir _ _ _ _ Htbls HT).
    apply same_table_rows. eapply decorate_table_same_table; [exact Hraw|].
    intros ->. apply Hout. repeat constructor.
  - intros Hin. apply Hout.
    repeat (apply elem_of_cons in Hin as [->|Hin]; [by repeat constructor|]).
    by apply elem_of_nil in Hin.
Qed.

(** X17.  A store is only ever built from a map file that exists and whose
    first record has [log_tokens] and a string [filename], whether or not
    missing tables are allowed. *)
Theorem init_needs_first_map_record :
  exists m content f,
    fs !! table_path json_dir "map" = Some (m :: content) /\
    is_Some (m !! "log_tokens") /\ m !! "filename" = Some (VStr f).
Proof.
  destruct (init_inv _ _ _ _ _ _ loaded) as (tbls & raw & Htbls & Hraw & Hdb).
  pose proof Hdb as (db0 & H0 & F)%make_reverse_index_frame.
  apply make_reverse_index_inv in Hdb as (db5 & Hd & Hl).
  pose proof (frame_link_logs_to_maps _ _ Hl) as F6.
  apply link_logs_to_maps_inv in Hl as (t & m0 & v & ltm & Ht & Hm0 & Hv & _ & _).
  assert (table_rows db5 "map" !! 0 = Some m0) as Hrow.
  { unfold getattr in Ht. unfold table_rows.
    destruct (tables db5 !! "map"); [injection Ht as ->|discriminate].
    unfold table_getitem in Hm0. destruct t as [l|]; [|discriminate].
    simpl. by destruct (l !! 0); [injection Hm0 as ->|]. }
  rewrite <- (frame_rows _ _ _ "map" F6) in Hrow by by apply not_in_one.
  rewrite (frame_rows _ _ _ "map" F) in Hrow by by apply not_in_touched.
  rewrite (build_token2ind_frame _ _ _ H0) in Hrow.
  destruct (decorate_table_lookup _ _ _ _ _ _ Hraw Hrow) as (m & Hm & Hmask).
  assert ("map" ∈ table_names) as HT
    by (apply (bool_decide_unpack _); vm_compute; exact I).
  rewrite (loaded_rows _ data_dir _ _ _ _ Htbls HT) in Hm.
  unfold file_rows in Hm.
  destruct (fs !! table_path json_dir "map") as [[|m' content]|];
    try discriminate.
  injection Hm as ->.
  rewrite (init_mask_field _ _ "log_tokens" _ _ ltac:(done) Hmask) in Hv.
  unfold init_mask in Hmask.
  apply bind_Ok_inv in Hmask as (fv & Hf%getitem_Ok & Hmask).
  apply bind_Ok_inv in Hmask as (p & Hp & _).
  destruct fv as [| | |f| |]; try discriminate.
  exists m, content, f. split; [done|]. split; [by eexists | done].
Qed.

(** X19.  In a loaded store, a table whose file is missing has no record,
    and [get] raises [KeyError] on it for every string token. *)
Theorem missing_table_is_empty (table_name : string) :
  table_name ∈ table_names ->
  fs !! table_path json_dir table_name = None ->
  table_rows db table_name = [] /\
  forall k, get db table_name (VStr k) = Raise (KeyError (VStr k)).
Proof.
  intros HT Hnone. destruct (init_indexed _ _ _ _ _ _ loaded) as [Hix Htab].
  destruct (init_inv _ _ _ _ _ _ loaded) as (tbls & raw & Htbls & Hraw & Hdb).
  assert (table_rows db table_name = []) as Hrows.
  { apply (fmap_nil_rows (field_of "token")).
    change (column "token" (table_rows db table_name) = []).
    rewrite (same_column_make_reverse_index "token" _ _
               ltac:(apply (bool_decide_unpack _); vm_compute; exact I) Hdb).
    erewrite (decorate_table_same_column "token"); [| |exact Hraw].
    - rewrite (loaded_rows _ data_dir _ _ _ _ Htbls HT).
      unfold file_rows. by rewrite Hnone.
    - intros r r'. by apply init_mask_field. }
  split; [done|]. intros k. apply indexed_get_absent; [done..|].
  rewrite Hrows. apply not_elem_of_nil.
Qed.

End Derived.

Lemma load_step_present (fs : file_system) (json_dir : string)
    (missing_ok : bool) (tbls : gmap string table) (table_name : string) :
  isfile fs (table_path json_dir table_name) = true ->
  exists t, load_step fs json_dir missing_ok tbls table_name
            = Ok (<[table_name := t]> tbls).
Proof.
  unfold load_step, __load_table__, open_json, isfile.
  destruct (fs !! table_path json_dir table_name) as [content|];
    [|discriminate].
  intros _. by exists (Rows content).
Qed.

Lemma load_step_missing (fs : file_system) (json_dir : string)
    (tbls : gmap string table) (table_name : string) :
  isfile fs (table_path json_dir table_name) = false ->
  load_step fs json_dir false tbls table_name
  = Raise (FileNotFoundError (table_path json_dir table_name)).
Proof.
  unfold load_step, __load_table__, open_json, isfile.
  by destruct (fs !! table_path json_dir table_name).
Qed.

(** X18.  Without [missing_tables_ok], construction stops at the first
    table, in the order of [table_names], whose file does not exist, with
    [FileNotFoundError] on the path of that file. *)
Theorem init_reports_first_missing_file `{ext : Externals} (fs : file_system)
    (data_dir json_dir : string) (resolution : Q)
    (present later : list string) (table_name : string) :
  table_names = (present ++ table_name :: later)%list ->
  forallb (fun T => isfile fs (table_path json_dir T)) present = true ->
  isfile fs (table_path json_dir table_name) = false ->
  __init__ fs data_dir json_dir resolution false
  = Raise (FileNotFoundError (table_path json_dir table_name)).
Proof.
  intros Hnames Hpresent Hmissing. unfold __init__, load_tables.
  rewrite Hnames, for_each_app.
  assert (forall acc, exists tbls,
            for_each (load_step fs json_dir false) present acc = Ok tbls)
    as Hpre.
  { clear Hnames. induction present as [|T present' IH]; intros acc;
      [by eexists|].
    simpl in Hpresent. apply andb_true_iff in Hpresent as [HT Hpresent].
    rewrite for_each_cons.
    destruct (load_step_present fs json_dir false acc T HT) as (t & ->).
    rewrite bind_Ok. by apply IH. }
  destruct (Hpre ∅) as (tbls & ->).
  by rewrite bind_Ok, for_each_cons, load_step_missing.
Qed.

Lemma annotation_category_name_witness :
  exists inst_tok inst cat_tok cat name,
    Demo.row Demo.store "sample_annotation" 1 !! "instance_token"
    = Some inst_tok /\
    get Demo.store "instance" inst_tok = Ok inst /\
    inst !! "category_token" = Some cat_tok /\
    get Demo.store "category" cat_tok = Ok cat /\
    cat !! "name" = Some name /\
    Demo.row Demo.store "sample_annotation" 1 !! "category_name" = Some name.
Proof.
  apply (annotation_category_name (ext := Exact.externals)
           _ _ _ _ _ _ Demo_load_store).
  apply Demo_row_elem. run_eq.
Defined.

Lemma sample_data_sensor_fields_witness :
  exists cs_tok cs sensor_tok sensor modality channel,
    Demo.row Demo.store "sample_data" 5 !! "calibrated_sensor_token"
    = Some cs_tok /\
    get Demo.store "calibrated_sensor" cs_tok = Ok cs /\
    cs !! "sensor_token" = Some sensor_tok /\
    get Demo.store "sensor" sensor_tok = Ok sensor /\
    sensor !! "modality" = Some modality /\
    sensor !! "channel" = Some channel /\
    Demo.row Demo.store "sample_data" 5 !! "sensor_modality" = Some modality /\
    Demo.row Demo.store "sample_data" 5 !! "channel" = Some channel.
Proof.
  apply (sample_data_sensor_fields (ext := Exact.externals)
           _ _ _ _ _ _ Demo_load_store).
  apply Demo_row_elem. run_eq.
Defined.

Lemma log_map_token_is_last_listing_map_witness :
  exists k map_tok,
    Demo.row Demo.store "log" 0 !! "token" = Some (VStr k) /\
    Demo.row Demo.store "log" 0 !! "map_token" = Some map_tok /\
    last (omap token_of
            (List.filter (lists_log k) (table_rows Demo.store "map")))
    = Some map_tok.
Proof.
  apply (log_map_token_is_last_listing_map (ext := Exact.externals)
           _ _ _ _ _ _ Demo_load_store).
  apply Demo_row_elem. run_eq.
Defined.

Lemma loaded_tables_keep_file_fields_witness :
  column "timestamp" (table_rows Demo.store "sample")
  = column "timestamp"
      (file_rows (Demo.files 1000000 2000000 Demo.map) "json" "sample").
Proof.
  apply (loaded_tables_keep_file_fields (ext := Exact.externals)
           _ _ _ _ _ _ Demo_load_store).
  - apply (bool_decide_unpack _). vm_compute. exact I.
  - apply (bool_decide_unpack _). vm_compute. exact I.
  - discriminate.
Defined.

Lemma untouched_tables_are_file_contents_witness :
  table_rows Demo.store "calibrated_sensor"
  = file_rows (Demo.files 1000000 2000000 Demo.map) "json" "calibrated_sensor".
Proof.
  apply (untouched_tables_are_file_contents (ext := Exact.externals)
           _ _ _ _ _ _ Demo_load_store).
  - apply (bool_decide_unpack _). vm_compute. exact I.
  - apply (bool_decide_unpack _). vm_compute. exact I.
Defined.

Lemma init_needs_first_map_record_witness :
  exists m content f,
    Demo.files 1000000 2000000 Demo.map !! table_path "json" "map"
    = Some (m :: content) /\
    is_Some (m !! "log_tokens") /\ m !! "filename" = Some (VStr f).
Proof.
  exact (init_needs_first_map_record (ext := Exact.externals)
           _ _ _ _ _ _ Demo_load_store).
Defined.

Lemma init_reports_first_missing_file_witness :
  __init__ (ext := Exact.externals)
    (delete (table_path "json" "sensor") (Demo.files 1000000 2000000 Demo.map))
    "data" "json" (1 # 10) false
  = Raise (FileNotFoundError (table_path "json" "sensor")).
Proof.
  apply (init_reports_first_missing_file (ext := Exact.externals) _ _ _ _
           ["category"; "attribute"; "visibility"; "instance"]
           ["calibrated_sensor"; "ego_pose"; "log"; "scene"; "sample";
            "sample_data"; "sample_annotation"; "map"]).
  - reflexivity.
  - vm_compute. reflexivity.
  - vm_compute. reflexivity.
Defined.

Lemma Sparse_load_store :
  __init__ (ext := Exact.externals) Sparse.files "data" "json" (1 # 10) true
  = Ok Sparse.store.
Proof. apply unwrap_Ok. vm_compute. reflexivity. Qed.

Lemma missing_table_is_empty_witness :
  table_rows Sparse.store "visibility" = [] /\
  forall k, get Sparse.store "visibility" (VStr k) = Raise (KeyError (VStr k)).
Proof.
  apply (missing_table_is_empty (ext := Exact.externals)
           _ _ _ _ _ _ Sparse_load_store).
  - apply (bool_decide_unpack _). vm_compute. exact I.
  - vm_compute. reflexivity.
Defined.

(** ** Further properties of the box queries *)

Lemma Forall2_compose {A B C} (R : A -> B -> Prop) (R' : B -> C -> Prop)
    (R'' : A -> C -> Prop) (l : list A) (m : list B) (k : list C) :
  (forall x y z, R x y -> R' y z -> R'' x z) ->
  Forall2 R l m -> Forall2 R' m k -> Forall2 R'' l k.
Proof.
  intros Hcomp Hlm. revert k.
  induction Hlm as [|x y l m Hxy _ IH]; intros k Hmk.
  - apply Forall2_nil_inv_l in Hmk as ->. constructor.
  - apply Forall2_cons_inv_l in Hmk as (z & k' & Hyz & Hmk & ->).
    constructor; [by eapply Hcomp | by apply IH].
Qed.

Lemma Forall2_fmap_eq {A B} (f : B -> A) (l : list A) (k : list B) :
  Forall2 (fun x y => f y = x) l k -> f <$> k = l.
Proof. induction 1 as [|x y l k Hxy _ IH]; [done|]. by rewrite fmap_cons, Hxy, IH. Qed.

Section BoxTokens.
Context `{ext : Externals}.

Lemma get_box_token (db : LyftDataset) (tok : value) (b : Box) :
  indexed db -> get_box db tok = Ok b -> token b = tok.
Proof.
  intros Hix (record & Hget & _ & _ & _ & _ & Htok)%get_box_Ok.
  destruct (indexed_get_token _ _ _ _ Hix Hget) as [Hrec _]. congruence.
Qed.

Lemma interpolate_box_Ok (t0 t1 t : Q) (prev curr : dict) (b : Box) :
  interpolate_box t0 t1 t prev curr = Ok b ->
  exists tr0 tr1 p c centre rot0 rot1 amount,
    prev !! "translation" = Some tr0 /\ curr !! "translation" = Some tr1 /\
    as_list tr0 = Ok p /\ as_list tr1 = Ok c /\
    interp_center t t0 t1 p c = Ok centre /\
    prev !! "rotation" = Some rot0 /\ curr !! "rotation" = Some rot1 /\
    py_truediv (t - t0) (t1 - t0) = Ok amount /\
    center b = VList centre /\
    curr !! "size" = Some (wlh b) /\
    orientation b = slerp (Quaternion rot0) (Quaternion rot1) amount /\
    curr !! "category_name" = Some (name b) /\
    curr !! "token" = Some (token b).
Proof.
  unfold interpolate_box. intros H.
  apply bind_Ok_inv in H as (tr0 & H1%getitem_Ok & H).
  apply bind_Ok_inv in H as (tr1 & H2%getitem_Ok & H).
  apply bind_Ok_inv in H as (p & H3 & H).
  apply bind_Ok_inv in H as (c & H4 & H).
  apply bind_Ok_inv in H as (centre & H5 & H).
  apply bind_Ok_inv in H as (rot0 & H6%getitem_Ok & H).
  apply bind_Ok_inv in H as (rot1 & H7%getitem_Ok & H).
  apply bind_Ok_inv in H as (amount & H8 & H).
  apply bind_Ok_inv in H as (size & H9%getitem_Ok & H).
  apply bind_Ok_inv in H as (cat & H10%getitem_Ok & H).
  apply bind_Ok_inv in H as (tok & H11%getitem_Ok & H).
  injection H as <-. simpl.
  by exists tr0, tr1, p, c, centre, rot0, rot1, amount.
Qed.

Lemma box_at_token (db : LyftDataset) (t0 t1 t : Q)
    (prev_inst_map : gmap string dict) (curr : dict) (b : Box) :
  indexed db -> box_at db t0 t1 t prev_inst_map curr = Ok b ->
  curr !! "token" = Some (token b).
Proof.
  intros Hix H. unfold box_at in H.
  apply bind_Ok_inv in H as (inst & _ & H).
  apply bind_Ok_inv in H as ([prev|] & _ & H).
  - apply interpolate_box_Ok in H
      as (? & ? & ? & ? & ? & ? & ? & ? & _ & _ & _ & _ & _ & _ & _ & _ & _
          & _ & _ & _ & Htok).
    done.
  - apply bind_Ok_inv in H as (tok & Htok%getitem_Ok & H).
    by rewrite (get_box_token _ _ _ Hix H).
Qed.

Lemma get_boxes_inv (db : LyftDataset) (sample_data_token : value)
    (boxes : list Box) :
  get_boxes db sample_data_token = Ok boxes ->
  exists sd_record sample_tok curr_sample_record anns,
    get db "sample_data" sample_data_token = Ok sd_record /\
    sd_record !! "sample_token" = Some sample_tok /\
    get db "sample" sample_tok = Ok curr_sample_record /\
    curr_sample_record !! "anns" = Some (VList anns) /\
    (mapM (get_box db) anns = Ok boxes \/
     exists curr_ann_recs t0 t1 t prev_inst_map,
       mapM (get db "sample_annotation") anns = Ok curr_ann_recs /\
       mapM (box_at db t0 t1 t prev_inst_map) curr_ann_recs = Ok boxes).
Proof.
  unfold get_boxes. intros H.
  apply bind_Ok_inv in H as (sd & Hsd & H).
  apply bind_Ok_inv in H as (stok & Hstok%getitem_Ok & H).
  apply bind_Ok_inv in H as (S & HS & H).
  apply bind_Ok_inv in H as (prev & Hprev%getitem_Ok & H).
  apply bind_Ok_inv in H as (keyframe & Hkey & H).
  exists sd, stok, S. destruct keyframe.
  - apply bind_Ok_inv in H as (anns & Hanns%getitem_Ok & H).
    apply bind_Ok_inv in H as (l & Hl & H).
    destruct anns as [| | | |l'|]; try discriminate. injection Hl as ->.
    exists l. split_and!; [done..|]. by left.
  - apply bind_Ok_inv in H as (P & HP & H).
    apply bind_Ok_inv in H as (anns & Hanns%getitem_Ok & H).
    apply bind_Ok_inv in H as (l & Hl & H).
    destruct anns as [| | | |l'|]; try discriminate. injection Hl as ->.
    apply bind_Ok_inv in H as (recs & Hrecs & H).
    apply bind_Ok_inv in H as (panns & _ & H).
    apply bind_Ok_inv in H as (ptoks & _ & H).
    apply bind_Ok_inv in H as (precs & _ & H).
    apply bind_Ok_inv in H as (pim & _ & H).
    apply bind_Ok_inv in H as (v0 & _ & H).
    apply bind_Ok_inv in H as (v1 & _ & H).
    apply bind_Ok_inv in H as (v & _ & H).
    apply bind_Ok_inv in H as (t0 & _ & H).
    apply bind_Ok_inv in H as (t1 & _ & H).
    apply bind_Ok_inv in H as (t & _ & H).
    exists l. split_and!; [done..|]. right.
    by exists recs, t0, t1, (py_max t0 (py_min t1 t)), pim.
Qed.

Lemma get_boxes_tokens (db : LyftDataset) (sample_data_token : value)
    (boxes : list Box) :
  indexed db -> get_boxes db sample_data_token = Ok boxes ->
  exists sd_record sample_tok curr_sample_record,
    get db "sample_data" sample_data_token = Ok sd_record /\
    sd_record !! "sample_token" = Some sample_tok /\
    get db "sample" sample_tok = Ok curr_sample_record /\
    curr_sample_record !! "anns" = Some (VList (token <$> boxes)).
Proof.
  intros Hix (sd & stok & S & anns & Hsd & Hstok & HS & Hanns & Hboxes)%get_boxes_inv.
  exists sd, stok, S. split_and!; [done..|]. rewrite Hanns. do 2 f_equal.
  symmetry. apply Forall2_fmap_eq.
  destruct Hboxes as [Hkey|(recs & t0 & t1 & t & pim & Hrecs & Hbetween)].
  - apply mapM_Ok_Forall2 in Hkey. eapply Forall2_impl; [exact Hkey|].
    intros tok b Hb. by apply get_box_token with db.
  - apply mapM_Ok_Forall2 in Hrecs, Hbetween.
    eapply Forall2_compose; [|exact Hrecs|exact Hbetween].
    intros tok r b Hr Hb. simpl in *.
    destruct (indexed_get_token _ _ _ _ Hix Hr) as [Htok _].
    apply (box_at_token _ _ _ _ _ _ _ Hix) in Hb. congruence.
Qed.

End BoxTokens.

(** The share of the way from [t0] to [t1] at the clamped capture time. *)
Lemma clamped_amount (t0 t1 t : Q) :
  ~ (t1 == t0)%Q ->
  exists amount,
    py_truediv (py_max t0 (py_min t1 t) - t0) (t1 - t0) = Ok amount /\
    (0 <= amount)%Q /\ (amount <= 1)%Q /\
    ((t0 <= t)%Q -> (t <= t1)%Q -> (amount == (t - t0) / (t1 - t0))%Q) /\
    ((t1 < t0)%Q -> (amount == 0)%Q).
Proof.
  intros Hne. unfold py_truediv.
  destruct (Qeq_bool (t1 - t0) 0) eqn:Hz; [apply Qeq_bool_iff in Hz; lra|].
  eexists. split; [done|].
  destruct (Qlt_le_dec t0 t1) as [H01|H10].
  - destruct (clamp_between t0 t1 t) as [Hlo Hhi]; [lra|].
    split; [apply Qle_shift_div_l; lra|].
    split; [apply Qle_shift_div_r; lra|].
    split; [|intros ?; lra]. intros Ht0 Ht1.
    assert (py_max t0 (py_min t1 t) == t)%Q as Hc.
    { unfold py_max, py_min.
      destruct (Qltb t t1) eqn:H1;
        [apply Qltb_true in H1|apply Qltb_false in H1].
      - destruct (Qltb t0 t) eqn:H0;
          [reflexivity|apply Qltb_false in H0; lra].
      - destruct (Qltb t0 t1) eqn:H0; [lra|apply Qltb_false in H0; lra]. }
    by rewrite Hc.
  - assert (t1 < t0)%Q as H10' by (apply Qle_lteq in H10 as [?|?]; [done|];
      exfalso; by apply Hne).
    assert (py_max t0 (py_min t1 t) = t0) as ->.
    { unfold py_max, py_min.
      destruct (Qltb t t1) eqn:H1;
        [apply Qltb_true in H1|apply Qltb_false in H1].
      - by assert (Qltb t0 t = false) as -> by (apply Qltb_false; lra).
      - by assert (Qltb t0 t1 = false) as -> by (apply Qltb_false; lra). }
    assert ((t0 - t0) / (t1 - t0) == 0)%Q as Hzero by (field; lra).
    rewrite Hzero. split; [lra|]. split; [lra|]. split; [intros; lra|done].
Qed.


Section BoxQueries.
Context `{ext : Externals}.
Variables (fs : file_system) (data_dir json_dir : string) (resolution : Q)
  (missing_ok : bool) (db : LyftDataset).
Hypothesis loaded :
  __init__ fs data_dir json_dir resolution missing_ok = Ok db.

(** X20.  In a loaded store, whenever [get_boxes] answers for a capture,
    key frame or not, it answers one box per annotation of the sample of
    the capture, in the order of the [anns] list of that sample, and each
    box carries the token of its annotation. *)
Theorem get_boxes_one_box_per_annotation (sample_data_token : value)
    (boxes : list Box) :
  get_boxes db sample_data_token = Ok boxes ->
  exists sd_record sample_tok curr_sample_record,
    get db "sample_data" sample_data_token = Ok sd_record /\
    sd_record !! "sample_token" = Some sample_tok /\
    get db "sample" sample_tok = Ok curr_sample_record /\
    curr_sample_record !! "anns" = Some (VList (token <$> boxes)).
Proof.
  destruct (init_indexed _ _ _ _ _ _ loaded) as [Hix _].
  by apply get_boxes_tokens.
Qed.

End BoxQueries.

Section Between.
Context `{ext : Externals}.
Variables (db : LyftDataset) (sample_data_token : value) (t0 t1 t : Q)
  (curr_ann_recs : list dict) (prev_inst_map : gmap string dict).
Hypothesis capture :
  intermediate_capture db sample_data_token t0 t1 t curr_ann_recs prev_inst_map.

(** X21.  For a capture that is not a key frame, an annotation of an
    instance that the previous sample does not annotate is not
    interpolated: its box is the one [get_box] makes for the token of the
    annotation. *)
Theorem get_boxes_new_instance (i : nat) (curr : dict) (inst : string)
    (boxes : list Box) :
  curr_ann_recs !! i = Some curr ->
  curr !! "instance_token" = Some (VStr inst) ->
  prev_inst_map !! inst = None ->
  get_boxes db sample_data_token = Ok boxes ->
  exists b tok,
    boxes !! i = Some b /\ curr !! "token" = Some tok /\
    get_box db tok = Ok b.
Proof.
  intros Hi Hinst Hnone Hboxes.
  rewrite (get_boxes_between _ _ _ _ _ _ _ capture) in Hboxes.
  destruct (mapM_Ok_lookup _ _ _ _ _ Hboxes Hi) as (b & Hb & Hbox).
  unfold box_at in Hbox. rewrite (getitem_Some _ _ _ Hinst), bind_Ok in Hbox.
  unfold lookup_inst in Hbox. rewrite bind_Ok, Hnone in Hbox.
  apply bind_Ok_inv in Hbox as (tok & Htok%getitem_Ok & Hbox).
  by exists b, tok.
Qed.

(** X22.  For a capture that is not a key frame, between samples whose time
    stamps differ, the box of an instance that both samples annotate has
    the rotation blended from the previous to the current annotation by an
    amount that always lies between 0 and 1: the share of the interval
    covered at the capture time when that time lies in the interval, and 0
    when the current sample is the older of the two.  Its size, name and
    token are those of the current annotation. *)
Theorem get_boxes_blend_amount (i : nat) (curr prev : dict) (inst : string)
    (r0 r1 : value) (boxes : list Box) :
  ~ (t1 == t0)%Q ->
  curr_ann_recs !! i = Some curr ->
  curr !! "instance_token" = Some (VStr inst) ->
  prev_inst_map !! inst = Some prev ->
  prev !! "rotation" = Some r0 ->
  curr !! "rotation" = Some r1 ->
  get_boxes db sample_data_token = Ok boxes ->
  exists b amount,
    boxes !! i = Some b /\
    orientation b = slerp (Quaternion r0) (Quaternion r1) amount /\
    (0 <= amount)%Q /\ (amount <= 1)%Q /\
    ((t0 <= t)%Q -> (t <= t1)%Q -> (amount == (t - t0) / (t1 - t0))%Q) /\
    ((t1 < t0)%Q -> (amount == 0)%Q) /\
    curr !! "size" = Some (wlh b) /\
    curr !! "category_name" = Some (name b) /\
    curr !! "token" = Some (token b).
Proof.
  intros Hne Hi Hinst Hprev Hr0 Hr1 Hboxes.
  rewrite (get_boxes_between _ _ _ _ _ _ _ capture) in Hboxes.
  destruct (mapM_Ok_lookup _ _ _ _ _ Hboxes Hi) as (b & Hb & Hbox).
  rewrite (box_at_Ok _ _ _ _ _ _ _ _ Hinst Hprev) in Hbox.
  apply interpolate_box_Ok in Hbox
    as (tr0 & tr1 & p & c & centre & rot0 & rot1 & amount & _ & _ & _ & _ & _
        & Hrot0 & Hrot1 & Hdiv & _ & Hsize & Hor & Hname & Htok).
  rewrite Hr0 in Hrot0. injection Hrot0 as <-.
  rewrite Hr1 in Hrot1. injection Hrot1 as <-.
  destruct (clamped_amount t0 t1 t Hne) as (a & Ha & Hlo & Hhi & Hin & Hout).
  rewrite Ha in Hdiv. injection Hdiv as <-.
  exists b, a. by split_and!.
Qed.

End Between.

(** ** The annotation count of a scene *)

Lemma ann_count_loop_chain (db : LyftDataset) (rest : list dict) :
  (forall tok s, get db "sample" tok = Ok s ->
     exists l, s !! "anns" = Some (VList l)) ->
  forall (s : dict) (count fuel : nat),
    (exists l, s !! "anns" = Some (VList l)) ->
    sample_chain db s rest -> length rest < fuel ->
    ann_count_loop fuel db s count
    = Ok (Some (count + sum_list (anns_len <$> removelast (s :: rest)))).
Proof.
  intros Hanns. induction rest as [|s' rest IH]; intros s count fuel Hs Hchain Hfuel.
  - destruct fuel as [|fuel]; [simpl in Hfuel; lia|].
    destruct Hchain as (next & Hnext & Hend). simpl.
    rewrite (getitem_Some _ _ _ Hnext), bind_Ok, Hend.
    by rewrite Nat.add_0_r.
  - destruct fuel as [|fuel]; [simpl in Hfuel; lia|].
    destruct Hchain as (next & Hnext & Hgo & Hget & Hchain).
    destruct Hs as (l & Hl).
    change (ann_count_loop (S fuel) db s count)
      with (next ← s !!!! "next";
            if str_eq next "" then Ok (Some count)
            else anns ← s !!!! "anns";
                 n ← py_len anns;
                 sample' ← get db "sample" next;
                 ann_count_loop fuel db sample' (count + n)).
    rewrite (getitem_Some _ _ _ Hnext), bind_Ok, Hgo.
    rewrite (getitem_Some _ _ _ Hl), bind_Ok. simpl py_len.
    rewrite bind_Ok, Hget, bind_Ok.
    rewrite (IH s' _ fuel); [|by eapply Hanns|done|simpl in Hfuel; lia].
    do 2 f_equal.
    change (removelast (s :: s' :: rest)) with (s :: removelast (s' :: rest)).
    rewrite fmap_cons. unfold anns_len at 2. rewrite Hl. simpl. lia.
Qed.

Lemma ann_count_loop_open (db : LyftDataset) (P : dict -> Prop) :
  (forall s, P s ->
     exists next s' l,
       s !! "next" = Some next /\ str_eq next "" = false /\
       s !! "anns" = Some (VList l) /\
       get db "sample" next = Ok s' /\ P s') ->
  forall (fuel : nat) (s : dict) (count : nat),
    P s -> ann_count_loop fuel db s count = Ok None.
Proof.
  intros Hclosed. induction fuel as [|fuel IH]; intros s count Hs; [done|].
  destruct (Hclosed s Hs) as (next & s' & l & Hnext & Hgo & Hl & Hget & Hs').
  change (ann_count_loop (S fuel) db s count)
    with (next ← s !!!! "next";
          if str_eq next "" then Ok (Some count)
          else anns ← s !!!! "anns";
               n ← py_len anns;
               sample' ← get db "sample" next;
               ann_count_loop fuel db sample' (count + n)).
  rewrite (getitem_Some _ _ _ Hnext), bind_Ok, Hgo.
  rewrite (getitem_Some _ _ _ Hl), bind_Ok. simpl py_len.
  rewrite bind_Ok, Hget, bind_Ok. by apply IH.
Qed.

Section Explorer.
Context `{ext : Externals}.
Variables (fs : file_system) (data_dir json_dir : string) (resolution : Q)
  (missing_ok : bool) (db : LyftDataset).
Hypothesis loaded :
  __init__ fs data_dir json_dir resolution missing_ok = Ok db.

Lemma loaded_sample_anns (tok : value) (s : dict) :
  get db "sample" tok = Ok s -> exists l, s !! "anns" = Some (VList l).
Proof.
  intros (_ & j & _ & Hs)%get_Ok.
  destruct (init_Ok _ _ _ _ _ _ loaded) as (db0 & Hdb).
  eexists. by eapply make_reverse_index_anns.
Qed.

(** X24.  In a loaded store, for a scene whose samples are linked by [next]
    up to a sample with an empty [next], the annotation count that
    [list_scenes] prints is reached after one test per sample, and it is
    the number of annotations of all samples of the scene except the last
    one. *)
Theorem ann_count_skips_last_sample (record : dict) (first_tok : value)
    (s : dict) (rest : list dict) (fuel : nat) :
  record !! "first_sample_token" = Some first_tok ->
  get db "sample" first_tok = Ok s ->
  sample_chain db s rest ->
  length rest < fuel ->
  ann_count fuel db record
  = Ok (Some (sum_list (anns_len <$> removelast (s :: rest)))).
Proof.
  intros Hfirst Hs Hchain Hfuel. unfold ann_count.
  rewrite (getitem_Some _ _ _ Hfirst), bind_Ok, Hs, bind_Ok.
  rewrite (ann_count_loop_chain db rest loaded_sample_anns s 0 fuel);
    [done|by eapply loaded_sample_anns|done..].
Qed.

(** X25.  In a loaded store, when the [next] links followed from the first
    sample of a scene never reach a sample with an empty [next] (the
    samples reached stay in a set closed under [next]), the annotation
    count never returns: the loop is still running after any number of
    rounds. *)
Theorem ann_count_never_returns (P : dict -> Prop) (record : dict)
    (first_tok : value) (s : dict) :
  (forall s, P s ->
     exists next s',
       s !! "next" = Some next /\ str_eq next "" = false /\
       get db "sample" next = Ok s' /\ P s') ->
  record !! "first_sample_token" = Some first_tok ->
  get db "sample" first_tok = Ok s ->
  P s ->
  forall fuel, ann_count fuel db record = Ok None.
Proof.
  intros Hclosed Hfirst Hs HP fuel. unfold ann_count.
  rewrite (getitem_Some _ _ _ Hfirst), bind_Ok, Hs, bind_Ok.
  apply (ann_count_loop_open db
           (fun s => P s /\ exists tok, get db "sample" tok = Ok s)).
  - intros s0 [HP0 (tok & Htok)].
    destruct (Hclosed s0 HP0) as (next & s' & Hnext & Hgo & Hget & HP').
    destruct (loaded_sample_anns _ _ Htok) as (l & Hl).
    exists next, s', l. split_and!; [done..|by exists next].
  - split; [done|by exists first_tok].
Qed.

(** X26.  In a loaded store, every token in the [anns] list of a sample is
    resolved by [get] to an annotation record that carries the token and a
    category name, and every token in the [data] dictionary of a sample is
    resolved by [get] to a sample_data record that carries the token, a
    sensor modality and a channel: the look-ups of [list_sample] find their
    records. *)
Theorem sample_links_resolve (s : dict) :
  s ∈ table_rows db "sample" ->
  (forall l tok, s !! "anns" = Some (VList l) -> tok ∈ l ->
     exists a, get db "sample_annotation" tok = Ok a /\
       a !! "token" = Some tok /\ is_Some (a !! "category_name")) /\
  (forall d ch tok, s !! "data" = Some (VDict d) -> d !! ch = Some tok ->
     exists r, get db "sample_data" tok = Ok r /\
       r !! "token" = Some tok /\ is_Some (r !! "sensor_modality") /\
       is_Some (r !! "channel")).
Proof.
  intros (j & Hs)%list_elem_of_lookup.
  destruct (init_indexed _ _ _ _ _ _ loaded) as [Hix Htab].
  destruct (init_Ok _ _ _ _ _ _ loaded) as (db0 & Hdb).
  assert (forall T tok r0, T ∈ table_names -> r0 ∈ table_rows db T ->
            token_of r0 = Some tok ->
            exists r, get db T tok = Ok r /\ r !! "token" = Some tok /\
                      r ∈ table_rows db T) as Hresolve.
  { intros T tok r0 HT Hr0 Htok.
    destruct (indexed_rows_have_tokens _ _ _ Hix HT Hr0) as (k & Hk).
    unfold token_of, field_of in Htok. rewrite Hk in Htok.
    injection Htok as <-.
    destruct (indexed_get_present _ _ k Hix HT) as (r & Hr).
    { apply list_elem_of_fmap. exists r0. split; [|done].
      unfold token_of, field_of. by rewrite Hk. }
    exists r. split; [done|]. by apply indexed_get_token. }
  split.
  - intros l tok Hl Htok.
    rewrite (make_reverse_index_anns _ _ _ _ Hdb Hs) in Hl.
    injection Hl as <-.
    apply list_elem_of_omap in Htok as (a0 & Ha0 & Hta0).
    apply list_elem_of_In, List.filter_In in Ha0 as [Ha0%list_elem_of_In _].
    destruct (Hresolve "sample_annotation" tok a0) as (a & Hget & Htoka & Ha);
      [apply (bool_decide_unpack _); vm_compute; exact I|done..|].
    exists a. split_and!; [done..|].
    destruct (make_reverse_index_category_name _ _ _ Hdb Ha)
      as (? & ? & ? & ? & name & _ & _ & _ & _ & _ & Hname).
    by eexists.
  - intros d ch tok Hd Htok.
    destruct (make_reverse_index_data _ _ _ _ Hdb Hs) as (d' & Hd' & Hch).
    rewrite Hd in Hd'. injection Hd' as <-. rewrite Hch in Htok.
    apply last_Some_elem_of, list_elem_of_omap in Htok as (r0 & Hr0 & Htr0).
    apply list_elem_of_In, List.filter_In in Hr0 as [Hr0%list_elem_of_In _].
    destruct (Hresolve "sample_data" tok r0) as (r & Hget & Htokr & Hr);
      [apply (bool_decide_unpack _); vm_compute; exact I|done..|].
    exists r. split_and!; [done..| |].
    + destruct (make_reverse_index_sensor_fields _ _ _ Hdb Hr)
        as (? & ? & ? & ? & m & c & _ & _ & _ & _ & _ & _ & Hm & _).
      by eexists.
    + destruct (make_reverse_index_sensor_fields _ _ _ Hdb Hr)
        as (? & ? & ? & ? & m & c & _ & _ & _ & _ & _ & _ & _ & Hc).
      by eexists.
Qed.

End Explorer.

(** ** The further properties on the small dataset *)

Lemma get_boxes_one_box_per_annotation_witness :
  exists sd_record sample_tok curr_sample_record,
    get Demo.store "sample_data" (VStr "sd_mid") = Ok sd_record /\
    sd_record !! "sample_token" = Some sample_tok /\
    get Demo.store "sample" sample_tok = Ok curr_sample_record /\
    curr_sample_record !! "anns"
    = Some (VList (token <$> unwrap [] (get_boxes (ext := Exact.externals)
                                          Demo.store (VStr "sd_mid")))).
Proof.
  apply (get_boxes_one_box_per_annotation (ext := Exact.externals)
           _ _ _ _ _ _ Demo_load_store).
  run_ok.
Defined.

Lemma Demo_mid_capture :
  intermediate_capture Demo.store (VStr "sd_mid")
    (inject_Z 1000000) (inject_Z 2000000) (inject_Z 1500000)
    Demo.curr_ann_recs Demo.prev_inst_map.
Proof. apply Demo_intermediate; run_eq. Qed.

Lemma get_boxes_new_instance_witness :
  exists b tok,
    unwrap [] (get_boxes (ext := Exact.externals) Demo.store (VStr "sd_mid"))
      !! 1 = Some b /\
    default ∅ (Demo.curr_ann_recs !! 1) !! "token" = Some tok /\
    get_box Demo.store tok = Ok b.
Proof.
  apply (get_boxes_new_instance (ext := Exact.externals) _ _ _ _ _ _ _
           Demo_mid_capture 1 _ "inst_b").
  - apply default_Some. run_eq.
  - run_eq.
  - run_eq.
  - run_ok.
Defined.

Lemma get_boxes_blend_amount_witness :
  exists b amount,
    unwrap [] (get_boxes (ext := Exact.externals) Demo.store (VStr "sd_mid"))
      !! 0 = Some b /\
    orientation b
    = slerp (Externals := Exact.externals)
        (Quaternion (VNums [1; 0; 0; 0]%Q)) (Quaternion (VNums [0; 0; 0; 1]%Q))
        amount /\
    (0 <= amount)%Q /\ (amount <= 1)%Q /\
    ((inject_Z 1000000 <= inject_Z 1500000)%Q ->
     (inject_Z 1500000 <= inject_Z 2000000)%Q ->
     (amount == (inject_Z 1500000 - inject_Z 1000000)
                / (inject_Z 2000000 - inject_Z 1000000))%Q) /\
    ((inject_Z 2000000 < inject_Z 1000000)%Q -> (amount == 0)%Q) /\
    default ∅ (Demo.curr_ann_recs !! 0) !! "size" = Some (wlh b) /\
    default ∅ (Demo.curr_ann_recs !! 0) !! "category_name" = Some (name b) /\
    default ∅ (Demo.curr_ann_recs !! 0) !! "token" = Some (token b).
Proof.
  apply (get_boxes_blend_amount (ext := Exact.externals) _ _ _ _ _ _ _
           Demo_mid_capture 0 _ (default ∅ (Demo.prev_inst_map !! "inst_a"))
           "inst_a").
  - intros H. apply Qeq_bool_iff in H. vm_compute in H. discriminate H.
  - apply default_Some. run_eq.
  - run_eq.
  - apply default_Some. run_eq.
  - run_eq.
  - run_eq.
  - run_ok.
Defined.

Lemma ann_count_skips_last_sample_witness :
  ann_count 2 Demo.store (Demo.row Demo.store "scene" 0) = Ok (Some 1).
Proof.
  etrans.
  - apply (ann_count_skips_last_sample (ext := Exact.externals)
             _ _ _ _ _ _ Demo_load_store _ (VStr "s1")
             (unwrap ∅ (get Demo.store "sample" (VStr "s1")))
             [unwrap ∅ (get Demo.store "sample" (VStr "s2"))]).
    + run_eq.
    + run_ok.
    + exists (VStr "s2"). split; [run_eq|]. split; [run_eq|].
      split; [run_ok|]. exists (VStr ""). split; run_eq.
    + simpl. lia.
  - run_eq.
Defined.

Lemma Ring_load_store :
  __init__ (ext := Exact.externals) Ring.files "data" "json" (1 # 10) false
  = Ok Ring.store.
Proof. apply unwrap_Ok. vm_compute. reflexivity. Qed.

Lemma ann_count_never_returns_witness :
  ann_count 1000 Ring.store (Demo.row Ring.store "scene" 0) = Ok None.
Proof.
  generalize 1000.
  apply (ann_count_never_returns (ext := Exact.externals)
           _ _ _ _ _ _ Ring_load_store
           (fun s => s = Ring.first \/ s = Ring.second)
           _ (VStr "s1") Ring.first).
  - intros s [->| ->].
    + exists (VStr "s2"), Ring.second. split; [run_eq|]. split; [run_eq|].
      split; [run_ok|by right].
    + exists (VStr "s1"), Ring.first. split; [run_eq|]. split; [run_eq|].
      split; [run_ok|by left].
  - run_eq.
  - run_ok.
  - by left.
Defined.

Lemma sample_links_resolve_witness :
  (forall l tok,
     Demo.row Demo.store "sample" 1 !! "anns" = Some (VList l) -> tok ∈ l ->
     exists a, get Demo.store "sample_annotation" tok = Ok a /\
       a !! "token" = Some tok /\ is_Some (a !! "category_name")) /\
  (forall d ch tok,
     Demo.row Demo.store "sample" 1 !! "data" = Some (VDict d) ->
     d !! ch = Some tok ->
     exists r, get Demo.store "sample_data" tok = Ok r /\
       r !! "token" = Some tok /\ is_Some (r !! "sensor_modality") /\
       is_Some (r !! "channel")).
Proof.
  apply (sample_links_resolve (ext := Exact.externals)
           _ _ _ _ _ _ Demo_load_store).
  apply Demo_row_elem. run_eq.
Defined.

